(** * The resilient request executor of the YNAB API client

    A shallow embedding of [internal/api/client.go] (the retry loop of
    [Client.request], the creation of the client and its default budget),
    of [internal/api/errors.go] (the [YNABError] type, its predicates and
    the helpers on [error] values) and of the methods of the client that
    call [request], together with the properties the specification states
    about them and further properties of the code.

    Conventions.
    - Go's [int] and [time.Duration] are 64-bit signed integers; they are
      modelled as [Z], and every operation that can leave the 64-bit range
      ([backoff *= 2], [time.Duration(retryAfter) * time.Second]) is followed
      by [wrap64].
    - Go strings and byte slices are byte sequences; they are modelled as
      [string] (a list of 8-bit characters).
    - [time.Sleep] and [httpClient.Do] are the two effects of the loop.  The
      executor is a function that returns its result together with the
      trace of effects it performed, in program order. *)

From Stdlib Require Import ZArith Ascii String List Lia.
From stdpp Require Import base gmap strings list.
From Equations Require Import Equations.

Local Open Scope Z_scope.

(** ** Machine integers and the [time] package *)

Definition wrap64 (z : Z) : Z := (z + 2 ^ 63) `mod` 2 ^ 64 - 2 ^ 63.

Definition minInt64 : Z := - 2 ^ 63.
Definition maxInt64 : Z := 2 ^ 63 - 1.

(** [time.Duration] counts nanoseconds in an [int64]. *)
Definition Duration := Z.

Definition Second : Duration := 1000000000.

(** [time.Sleep d] pauses for at least [d]; "a negative or zero duration
    causes Sleep to return immediately".  [paused d] is the time a call
    [time.Sleep d] is guaranteed to take. *)
Definition paused (d : Duration) : Z := Z.max 0 d.

(** ** [strconv] and [fmt] on integers *)

Definition is_digit (c : ascii) : bool :=
  let n := nat_of_ascii c in (48 <=? n)%nat && (n <=? 57)%nat.

Definition digit_value (c : ascii) : Z := Z.of_nat (nat_of_ascii c) - 48.

Fixpoint digits_value (s : string) (acc : Z) : option Z :=
  match s with
  | EmptyString => Some acc
  | String c s' =>
      if is_digit c then digits_value s' (acc * 10 + digit_value c) else None
  end.

(** [strconv.Atoi] on a 64-bit platform: an optional sign, then one or more
    decimal digits, and the value must fit an [int]; [None] stands for a
    non-nil error (syntax or range). *)
Definition Atoi (s : string) : option Z :=
  let '(neg, ds) :=
    match s with
    | String "-"%char r => (true, r)
    | String "+"%char r => (false, r)
    | _ => (false, s)
    end in
  match ds with
  | EmptyString => None
  | _ =>
      match digits_value ds 0 with
      | None => None
      | Some n =>
          let v := if neg then - n else n in
          if (minInt64 <=? v) && (v <=? maxInt64) then Some v else None
      end
  end.

Definition digit_char (d : Z) : ascii := ascii_of_nat (48 + Z.to_nat d).

Fixpoint utoa (fuel : nat) (n : Z) (acc : string) : string :=
  let acc' := String (digit_char (n `mod` 10)) acc in
  match fuel with
  | O => acc'
  | S fuel' => if n <? 10 then acc' else utoa fuel' (n / 10) acc'
  end.

(** The verb [%d] of [fmt] applied to an [int]. *)
Definition itoa (n : Z) : string :=
  if n <? 0 then "-" +:+ utoa (Z.to_nat (Z.log2 (- n))) (- n) ""
  else utoa (Z.to_nat (Z.log2 n)) n "".

(** ** errors.go *)

Definition StatusUnauthorized : Z := 401.
Definition StatusTooManyRequests : Z := 429.
Definition StatusNotFound : Z := 404.
Definition StatusBadRequest : Z := 400.

(** [YNABError] represents an error from the YNAB API. *)
Record YNABError := mkYNABError {
  Message : string;
  StatusCode : Z;
  ErrorID : string;
  Detail : string
}.

Definition newline : string := String (ascii_of_nat 10) "".

Definition YNABError_Error (e : YNABError) : string :=
  let msg := "[YNAB] " +:+ Message e in
  let msg := if 0 <? StatusCode e
             then msg +:+ " (HTTP " +:+ itoa (StatusCode e) +:+ ")" else msg in
  let msg := if String.eqb (ErrorID e) ""
             then msg else msg +:+ " [Error ID: " +:+ ErrorID e +:+ "]" in
  let msg := if String.eqb (Detail e) ""
             then msg else msg +:+ newline +:+ "Details: " +:+ Detail e in
  msg.

Definition IsAuthError (e : YNABError) : bool :=
  StatusCode e =? StatusUnauthorized.

Definition IsRateLimitError (e : YNABError) : bool :=
  StatusCode e =? StatusTooManyRequests.

Definition IsServerError (e : YNABError) : bool :=
  (500 <=? StatusCode e) && (StatusCode e <? 600).

Definition IsNotFoundError (e : YNABError) : bool :=
  StatusCode e =? StatusNotFound.

Definition IsBadRequestError (e : YNABError) : bool :=
  StatusCode e =? StatusBadRequest.

(** [IsRetryable] returns true if the error is potentially retryable. *)
Definition IsRetryable (e : YNABError) : bool :=
  IsRateLimitError e || IsServerError e.

Definition NewAuthError : YNABError :=
  {| Message := "Unauthorized: Invalid or missing access token";
     StatusCode := StatusUnauthorized;
     ErrorID := "";
     Detail := "Please check your YNAB_ACCESS_TOKEN environment variable" |}.

Definition NewRateLimitError (retryAfter : Z) : YNABError :=
  {| Message := "Rate limit exceeded. Retry after " +:+ itoa retryAfter
                  +:+ " seconds";
     StatusCode := StatusTooManyRequests;
     ErrorID := "";
     Detail := "YNAB API has rate limits. Please wait before retrying" |}.

Definition NewServerError (statusCode : Z) : YNABError :=
  {| Message := "YNAB server error";
     StatusCode := statusCode;
     ErrorID := "";
     Detail := "The YNAB API is experiencing issues. Please try again later" |}.

(** Go's [error] values, as far as the executor builds them: a [*YNABError],
    an error of a library ([net/http], [io], [errors.New]) known by its
    text, and [fmt.Errorf(prefix + "%w", err)], which wraps [err]. *)
Inductive error :=
| EYNAB (e : YNABError)
| EText (msg : string)
| EWrap (prefix : string) (err : error).

Fixpoint Error (err : error) : string :=
  match err with
  | EYNAB e => YNABError_Error e
  | EText msg => msg
  | EWrap prefix err' => prefix +:+ Error err'
  end.

(** [errors.As(err, &ynabErr)]: the first [*YNABError] in the chain. *)
Fixpoint errors_As (err : error) : option YNABError :=
  match err with
  | EYNAB e => Some e
  | EText _ => None
  | EWrap _ err' => errors_As err'
  end.

Definition IsYNABError (err : error) : bool :=
  match errors_As err with Some _ => true | None => false end.

(** ** [encoding/json]: decoding the error envelope

    [request] decodes the body of a failed response with
    [json.Unmarshal(respBody, &errorResp)], where [errorResp] is the anonymous
    struct [{Error {ID, Name, Detail}}] with the keys [error], [id], [name]
    and [detail].  The module models that call: the syntax check of the
    whole input that [Unmarshal] starts with (RFC 8259, nesting at most
    10000 deep), then the decoding into the struct: keys are matched exactly
    or ignoring ASCII case, unknown keys are skipped, a later duplicate
    overwrites, [null] leaves a field as it is, and a value of another JSON
    type than the field's makes [Unmarshal] return an error. *)
Module json.

#[local] Set Warnings "-register-all".

Definition byte (c : ascii) : Z := Z.of_nat (nat_of_ascii c).
Definition chr (b : Z) : ascii := ascii_of_nat (Z.to_nat b).

Inductive value :=
| Null
| Bool (b : bool)
| Number
| Str (s : string)
| Array (l : list value)
| Object (l : list (string * value)).

Definition is_space (c : ascii) : bool :=
  let b := byte c in (b =? 32) || (b =? 9) || (b =? 13) || (b =? 10).

Fixpoint skip_space (s : string) : string :=
  match s with
  | String c r => if is_space c then skip_space r else s
  | EmptyString => s
  end.

Definition hex_value (c : ascii) : option Z :=
  let b := byte c in
  if (48 <=? b) && (b <=? 57) then Some (b - 48)
  else if (97 <=? b) && (b <=? 102) then Some (b - 87)
  else if (65 <=? b) && (b <=? 70) then Some (b - 55)
  else None.

(** [getu4]: the rune of the four hex digits of a [\u] escape. *)
Definition getu4 (h1 h2 h3 h4 : ascii) : option Z :=
  match hex_value h1, hex_value h2, hex_value h3, hex_value h4 with
  | Some a, Some b, Some c, Some d => Some (((a * 16 + b) * 16 + c) * 16 + d)
  | _, _, _, _ => None
  end.

Definition RuneError : Z := 65533.

Definition IsSurrogate (r : Z) : bool := (55296 <=? r) && (r <? 57344).

(** [utf16.DecodeRune]. *)
Definition utf16_DecodeRune (r1 r2 : Z) : Z :=
  if (55296 <=? r1) && (r1 <? 56320) && (56320 <=? r2) && (r2 <? 57344)
  then (r1 - 55296) * 1024 + (r2 - 56320) + 65536
  else RuneError.

(** [utf8.EncodeRune]. *)
Definition EncodeRune (r : Z) : string :=
  let r := if (r <? 0) || (1114111 <? r) || IsSurrogate r
           then RuneError else r in
  if r <? 128 then String (chr r) ""
  else if r <? 2048 then
    String (chr (192 + r / 64)) (String (chr (128 + r `mod` 64)) "")
  else if r <? 65536 then
    String (chr (224 + r / 4096))
      (String (chr (128 + (r / 64) `mod` 64))
         (String (chr (128 + r `mod` 64)) ""))
  else
    String (chr (240 + r / 262144))
      (String (chr (128 + (r / 4096) `mod` 64))
         (String (chr (128 + (r / 64) `mod` 64))
            (String (chr (128 + r `mod` 64)) ""))).

Definition in_range (lo hi : Z) (c : ascii) : bool :=
  (lo <=? byte c) && (byte c <=? hi).

(** The size of the UTF-8 encoding that starts [s], as [utf8.DecodeRune]
    accepts it; 0 when the bytes are not a valid encoding. *)
Definition utf8_size (s : string) : nat :=
  match s with
  | String c0 (String c1 r) =>
      let b0 := byte c0 in
      if (194 <=? b0) && (b0 <=? 223) then
        if in_range 128 191 c1 then 2%nat else 0%nat
      else
        let '(lo, hi) :=
          if b0 =? 224 then (160, 191)
          else if b0 =? 237 then (128, 159)
          else if b0 =? 240 then (144, 191)
          else if b0 =? 244 then (128, 143)
          else (128, 191) in
        if negb (in_range lo hi c1) then 0%nat
        else if (224 <=? b0) && (b0 <=? 239) then
          match r with
          | String c2 _ => if in_range 128 191 c2 then 3%nat else 0%nat
          | _ => 0%nat
          end
        else if (240 <=? b0) && (b0 <=? 244) then
          match r with
          | String c2 (String c3 _) =>
              if in_range 128 191 c2 && in_range 128 191 c3
              then 4%nat else 0%nat
          | _ => 0%nat
          end
        else 0%nat
  | _ => 0%nat
  end.

Definition prepend (pre : string) (res : option (string * string))
  : option (string * string) :=
  match res with
  | Some (t, rest) => Some (pre +:+ t, rest)
  | None => None
  end.

Definition simple_escape (c : ascii) : option ascii :=
  let b := byte c in
  if (b =? 34) || (b =? 92) || (b =? 47) then Some c
  else if b =? 98 then Some (chr 8)
  else if b =? 102 then Some (chr 12)
  else if b =? 110 then Some (chr 10)
  else if b =? 114 then Some (chr 13)
  else if b =? 116 then Some (chr 9)
  else None.

(** A string literal, from the byte after its opening quote: the decoded
    text ([unquote]) and the input after the closing quote.  Control
    characters and bad escapes are syntax errors; bytes that are not valid
    UTF-8 and unpaired surrogates decode to U+FFFD. *)
Fixpoint string_literal (s : string) : option (string * string) :=
  match s with
  | EmptyString => None
  | String c r =>
      let b := byte c in
      if b =? 34 then Some ("", r)
      else if b =? 92 then
        match r with
        | String "u"%char (String h1 (String h2 (String h3 (String h4 r2)))) =>
            match getu4 h1 h2 h3 h4 with
            | None => None
            | Some rr =>
                if IsSurrogate rr then
                  match r2 with
                  | String "\"%char (String "u"%char
                      (String k1 (String k2 (String k3 (String k4 r3))))) =>
                      match getu4 k1 k2 k3 k4 with
                      | Some rr1 =>
                          if utf16_DecodeRune rr rr1 =? RuneError
                          then prepend (EncodeRune RuneError)
                                 (string_literal r2)
                          else prepend (EncodeRune (utf16_DecodeRune rr rr1))
                                 (string_literal r3)
                      | None =>
                          prepend (EncodeRune RuneError) (string_literal r2)
                      end
                  | _ => prepend (EncodeRune RuneError) (string_literal r2)
                  end
                else prepend (EncodeRune rr) (string_literal r2)
            end
        | String e r1 =>
            match simple_escape e with
            | Some ch => prepend (String ch "") (string_literal r1)
            | None => None
            end
        | EmptyString => None
        end
      else if b <? 32 then None
      else if b <? 128 then prepend (String c "") (string_literal r)
      else
        match utf8_size s, r with
        | 2%nat, String c1 r1 =>
            prepend (String c (String c1 "")) (string_literal r1)
        | 3%nat, String c1 (String c2 r2) =>
            prepend (String c (String c1 (String c2 "")))
              (string_literal r2)
        | 4%nat, String c1 (String c2 (String c3 r3)) =>
            prepend (String c (String c1 (String c2 (String c3 ""))))
              (string_literal r3)
        | _, _ => prepend (EncodeRune RuneError) (string_literal r)
        end
  end.

Fixpoint skip_digits (s : string) : string :=
  match s with
  | String c r => if is_digit c then skip_digits r else s
  | EmptyString => s
  end.

Definition digits1 (s : string) : option string :=
  match s with
  | String c r => if is_digit c then Some (skip_digits r) else None
  | EmptyString => None
  end.

(** A number literal: an optional minus sign, then 0 or a digit 1-9 with
    more digits, then an optional fraction (a dot and digits) and an
    optional exponent (e or E, an optional sign, digits); the result is
    the input after it. *)
Definition number_literal (s : string) : option string :=
  let s := match s with String "-"%char r => r | _ => s end in
  let int :=
    match s with
    | String "0"%char r => Some r
    | _ => digits1 s
    end in
  match int with
  | None => None
  | Some s =>
      let frac :=
        match s with
        | String "."%char r => digits1 r
        | _ => Some s
        end in
      match frac with
      | None => None
      | Some s =>
          match s with
          | String c r =>
              if (byte c =? 101) || (byte c =? 69) then
                match r with
                | String "+"%char r' | String "-"%char r' => digits1 r'
                | _ => digits1 r
                end
              else Some s
          | EmptyString => Some s
          end
      end
  end.

Fixpoint strip_prefix (p s : string) : option string :=
  match p, s with
  | EmptyString, _ => Some s
  | String a p', String b s' =>
      if Ascii.eqb a b then strip_prefix p' s' else None
  | String _ _, EmptyString => None
  end.

Definition maxNestingDepth : Z := 10000.

(** A value, the members of an object from a key on, and the elements of
    an array from an element on.  Every call consumes at least one byte of
    its input before the next call, so a [fuel] of the length of the input
    plus one is never used up. *)
Fixpoint parse_value (fuel : nat) (depth : Z) (s : string) {struct fuel}
  : option (value * string) :=
  match fuel with
  | O => None
  | S fuel' =>
      match s with
      | EmptyString => None
      | String c r =>
          let b := byte c in
          if b =? 123 then
            if maxNestingDepth <? depth + 1 then None
            else
              match skip_space r with
              | String "}"%char r' => Some (Object [], r')
              | r' => parse_members fuel' (depth + 1) r' []
              end
          else if b =? 91 then
            if maxNestingDepth <? depth + 1 then None
            else
              match skip_space r with
              | String "]"%char r' => Some (Array [], r')
              | r' => parse_elements fuel' (depth + 1) r' []
              end
          else if b =? 34 then
            match string_literal r with
            | Some (t, r') => Some (Str t, r')
            | None => None
            end
          else if b =? 116 then
            match strip_prefix "rue" r with
            | Some r' => Some (Bool true, r')
            | None => None
            end
          else if b =? 102 then
            match strip_prefix "alse" r with
            | Some r' => Some (Bool false, r')
            | None => None
            end
          else if b =? 110 then
            match strip_prefix "ull" r with
            | Some r' => Some (Null, r')
            | None => None
            end
          else
            match number_literal s with
            | Some r' => Some (Number, r')
            | None => None
            end
      end
  end
with parse_members (fuel : nat) (depth : Z) (s : string)
       (acc : list (string * value)) {struct fuel}
  : option (value * string) :=
  match fuel with
  | O => None
  | S fuel' =>
      match s with
      | EmptyString => None
      | String c r =>
          if negb (byte c =? 34) then None
          else
            match string_literal r with
            | None => None
            | Some (k, r1) =>
                match skip_space r1 with
                | String ":"%char r2 =>
                    match parse_value fuel' depth (skip_space r2) with
                    | None => None
                    | Some (v, r3) =>
                        match skip_space r3 with
                        | String ","%char r4 =>
                            parse_members fuel' depth (skip_space r4)
                              ((k, v) :: acc)
                        | String "}"%char r4 =>
                            Some (Object (rev ((k, v) :: acc)), r4)
                        | _ => None
                        end
                    end
                | _ => None
                end
            end
      end
  end
with parse_elements (fuel : nat) (depth : Z) (s : string)
       (acc : list value) {struct fuel}
  : option (value * string) :=
  match fuel with
  | O => None
  | S fuel' =>
      match parse_value fuel' depth s with
      | None => None
      | Some (v, r1) =>
          match skip_space r1 with
          | String ","%char r2 =>
              parse_elements fuel' depth (skip_space r2) (v :: acc)
          | String "]"%char r2 => Some (Array (rev (v :: acc)), r2)
          | _ => None
          end
      end
  end.

(** [checkValid] and the value it scanned: one value between optional
    white space, and nothing after it. *)
Definition parse (data : string) : option value :=
  match parse_value (S (S (String.length data))) 0 (skip_space data) with
  | Some (v, r) =>
      match skip_space r with
      | EmptyString => Some v
      | String _ _ => None
      end
  | None => None
  end.

Definition lower (c : ascii) : ascii :=
  if in_range 65 90 c then chr (byte c + 32) else c.

Fixpoint lower_string (s : string) : string :=
  match s with
  | EmptyString => EmptyString
  | String c r => String (lower c) (lower_string r)
  end.

(** A key selects the field of that name, compared exactly or under case
    folding; for the four lower-case names of the envelope both are the
    comparison of the key in lower case. *)
Definition key_is (key name : string) : bool :=
  String.eqb (lower_string key) name.

End json.

(** The variable [errorResp] of [request]: the struct the body of a failed
    response is decoded into. *)
Module errorResp.
Record Error_t := mkError { ID : string; Name : string; Detail : string }.
Record t := mk { Error : Error_t }.
Definition zero : t := mk (mkError "" "" "").
End errorResp.

Module json_decode.
Import json.

(** Storing a JSON value into a [string] field: a string is stored, [null]
    changes nothing, anything else is an [UnmarshalTypeError].  [Unmarshal]
    goes on decoding after such an error and returns it at the end; as
    [request] only uses the struct when the error is nil, the model stops
    at the first one. *)
Definition store_string (v : value) (cur : string) : option string :=
  match v with
  | Str s => Some s
  | Null => Some cur
  | _ => None
  end.

Definition store_field (cur : errorResp.Error_t) (kv : string * value)
  : option errorResp.Error_t :=
  let '(k, v) := kv in
  if key_is k "id" then
    s ← store_string v (errorResp.ID cur);
    Some (errorResp.mkError s (errorResp.Name cur) (errorResp.Detail cur))
  else if key_is k "name" then
    s ← store_string v (errorResp.Name cur);
    Some (errorResp.mkError (errorResp.ID cur) s (errorResp.Detail cur))
  else if key_is k "detail" then
    s ← store_string v (errorResp.Detail cur);
    Some (errorResp.mkError (errorResp.ID cur) (errorResp.Name cur) s)
  else Some cur.

Fixpoint store_fields {A} (store : A → string * value → option A)
    (cur : A) (l : list (string * value)) : option A :=
  match l with
  | [] => Some cur
  | kv :: l' =>
      match store cur kv with
      | Some cur' => store_fields store cur' l'
      | None => None
      end
  end.

(** Storing a JSON value into a struct: the members of an object are
    stored in order, [null] changes nothing, anything else is an
    [UnmarshalTypeError]. *)
Definition store_struct {A} (store : A → string * value → option A)
    (cur : A) (v : value) : option A :=
  match v with
  | Object l => store_fields store cur l
  | Null => Some cur
  | _ => None
  end.

Definition store_top (cur : errorResp.t) (kv : string * value)
  : option errorResp.t :=
  let '(k, v) := kv in
  if key_is k "error" then
    e ← store_struct store_field (errorResp.Error cur) v;
    Some (errorResp.mk e)
  else Some cur.

(** [json.Unmarshal(data, &errorResp)] on the zero value of the struct:
    [Some] of the decoded struct when the returned error is nil. *)
Definition Unmarshal (data : string) : option errorResp.t :=
  match parse data with
  | None => None
  | Some v => store_struct store_top errorResp.zero v
  end.

End json_decode.

(** ** [net/http] values *)

(** [http.Header]: a map from header names to their values.  The names
    [request] uses are already in the canonical form [Get] and [Set]
    convert to. *)
Abbreviation Header := (gmap string (list string)).

Definition Header_Get (h : Header) (key : string) : string :=
  match h !! key with
  | Some (v :: _) => v
  | _ => ""
  end.

Definition Header_Set (h : Header) (key value : string) : Header :=
  <[key := [value]]> h.

(** [http.Request].  [URL] is the string the request was created from,
    the [url] given to [http.NewRequest]; the request itself holds that
    string parsed, and what goes on the wire is the parsed URL written
    back, which is not modelled.  [Body] is the reader the request was
    created with: [None] for a nil body, otherwise the bytes the reader
    still holds. *)
Module Request.
Record t := mk {
  Method : string;
  URL : string;
  Header : gmap string (list string);
  Body : option string
}.
End Request.

(** [http.Response], without its body. *)
Module Response.
Record t := mk {
  Status : string;
  StatusCode : Z;
  Header : gmap string (list string)
}.
End Response.

(** What one call of [c.httpClient.Do(req)] followed by
    [io.ReadAll(resp.Body)] comes to. *)
Inductive exchange :=
| DoFailed (err : error)
| ReadFailed (resp : Response.t) (err : error)
| Received (resp : Response.t) (respBody : string).

(** [bodyRead] is the number of bytes the transport read from the request's
    body reader while sending. *)
Record roundTrip := mkRoundTrip {
  bodyRead : nat;
  outcome : exchange
}.

(** ** client.go *)

Definition BaseURL : string := "https://api.youneedabudget.com/v1".

(** [MaxRetries] is the maximum number of retry attempts. *)
Definition MaxRetries : Z := 3.

(** [InitialBackoff] is the initial backoff duration. *)
Definition InitialBackoff : Duration := wrap64 (1 * Second).

(** [Client] is the YNAB API client.  [httpClient n req] is what the [n]-th
    call of [c.httpClient.Do] of one [request] (counted from 0) answers to
    the request [req]: the server and the network, which may answer
    differently each time. *)
Record Client := mkClient {
  token : string;
  baseURL : string;
  httpClient : Z → Request.t → roundTrip;
  defaultBudgetID : string
}.

(** The effects of [request], in program order: the start of a loop
    iteration, a call of [time.Sleep] and a call of [c.httpClient.Do] with
    the bytes of the body it sent. *)
Inductive event :=
| EvLoop (attempt : Z)
| EvSleep (d : Duration)
| EvDo (attempt : Z) (req : Request.t) (sent : string).

(** How an iteration of the loop ends: with [continue], leaving the
    variables [backoff] and [lastErr] and the body reader as given, or with
    [return]. *)
Inductive control :=
| Continue (backoff : Duration) (lastErr : option error) (body : option string)
| Return (res : string + error).

(** Reading [n] bytes from a reader (nil, or the bytes it still holds): the
    bytes read and the reader afterwards. *)
Definition read_body (body : option string) (n : nat) : string * option string :=
  match body with
  | None => ("", None)
  | Some s =>
      (String.substring 0 n s,
       Some (String.substring n (String.length s - n) s))
  end.

Section request.

(** [json.Unmarshal(respBody, &errorResp)]: the decoded struct when the
    error is nil ([json_decode.Unmarshal] is the decoder of
    [encoding/json]). *)
Variable json_Unmarshal : string → option errorResp.t.

(** The error, if any, for which [http.NewRequest] rejects a method and
    a URL. *)
Variable NewRequest_error : string → string → option error.

Definition NewRequest (method url : string) (body : option string)
  : Request.t + error :=
  match NewRequest_error method url with
  | Some err => inr err
  | None =>
      inl (Request.mk (if String.eqb method "" then "GET" else method)
             url ∅ body)
  end.

Definition set_header (req : Request.t) (key value : string) : Request.t :=
  Request.mk (Request.Method req) (Request.URL req)
    (Header_Set (Request.Header req) key value) (Request.Body req).

(** The rate-limit wait of a 429 response, in seconds: the variable
    [retryAfter] of lines 95-100. *)
Definition retryAfter_of (resp : Response.t) : Z :=
  let retryAfter := 60 in
  let retryHeader := Header_Get (Response.Header resp) "Retry-After" in
  if String.eqb retryHeader "" then retryAfter
  else
    match Atoi retryHeader with
    | Some val => val
    | None => retryAfter
    end.

(** The [*YNABError] built from a response outside 2xx and its body: the
    variable [ynabErr] of lines 110-132. *)
Definition ynabErr_of (resp : Response.t) (respBody : string) : YNABError :=
  match json_Unmarshal respBody with
  | Some r =>
      if negb (String.eqb (errorResp.Name (errorResp.Error r)) "") then
        {| Message := errorResp.Name (errorResp.Error r);
           StatusCode := Response.StatusCode resp;
           ErrorID := errorResp.ID (errorResp.Error r);
           Detail := errorResp.Detail (errorResp.Error r) |}
      else
        {| Message := "HTTP request failed: " +:+ Response.Status resp;
           StatusCode := Response.StatusCode resp;
           ErrorID := "";
           Detail := "" |}
  | None =>
      {| Message := "HTTP request failed: " +:+ Response.Status resp;
         StatusCode := Response.StatusCode resp;
         ErrorID := "";
         Detail := "" |}
  end.

(** What [request] does with a response whose body was read (lines
    93-150): the control of the loop and the events, for the values of
    [backoff] and of the body reader at that point. *)
Definition handle_response (backoff : Duration) (body : option string)
    (resp : Response.t) (respBody : string) : control * list event :=
  if Response.StatusCode resp =? StatusTooManyRequests then
    let retryAfter := retryAfter_of resp in
    let lastErr := Some (EYNAB (NewRateLimitError retryAfter)) in
    (Continue backoff lastErr body, [EvSleep (wrap64 (retryAfter * Second))])
  else if (Response.StatusCode resp <? 200)
          || (300 <=? Response.StatusCode resp) then
    let ynabErr := ynabErr_of resp respBody in
    if Response.StatusCode resp =? StatusUnauthorized then
      (Return (inr (EYNAB NewAuthError)), [])
    else if IsServerError ynabErr then
      (Continue backoff (Some (EYNAB ynabErr)) body, [])
    else (Return (inr (EYNAB ynabErr)), [])
  else (Return (inl respBody), []).

(** One iteration of the loop of [request] (lines 60-150): the wait at the
    top, the creation of the request, the exchange, and the handling of
    its outcome. *)
Definition iteration (c : Client) (method endpoint : string)
    (attempt : Z) (backoff : Duration) (body : option string)
  : control * list event :=
  let '(backoff, waited) :=
    if 0 <? attempt
    then (wrap64 (backoff * 2), [EvSleep backoff])
    else (backoff, []) in
  let url := baseURL c +:+ endpoint in
  match NewRequest method url body with
  | inr err =>
      (Return (inr (EWrap "failed to create request: " err)),
       EvLoop attempt :: waited)
  | inl req =>
      let req := set_header req "Authorization" ("Bearer " +:+ token c) in
      let req := set_header req "Content-Type" "application/json" in
      let req := set_header req "User-Agent" "Via-YNAB/2.0" in
      let rt := httpClient c attempt req in
      let '(sent, body) := read_body body (bodyRead rt) in
      let done := EvLoop attempt :: waited ++ [EvDo attempt req sent] in
      match outcome rt with
      | DoFailed err =>
          (Continue backoff (Some (EWrap "request failed: " err)) body, done)
      | ReadFailed resp err =>
          (Continue backoff
             (Some (EWrap "failed to read response: " err)) body, done)
      | Received resp respBody =>
          let '(ctl, evs) := handle_response backoff body resp respBody in
          (ctl, done ++ evs)
      end
  end.

(** The error of [request] when all retries are exhausted (lines
    153-157). *)
Definition exhausted (lastErr : option error) : error :=
  match lastErr with
  | Some err =>
      EWrap ("request failed after " +:+ itoa MaxRetries +:+ " retries: ") err
  | None => EText ("request failed after " +:+ itoa MaxRetries +:+ " retries")
  end.

(** The loop [for attempt := 0; attempt <= MaxRetries; attempt++], from
    the values of its variables at the loop test. *)
Equations loop (c : Client) (method endpoint : string)
    (attempt : Z) (backoff : Duration) (lastErr : option error)
    (body : option string) : (string + error) * list event
  by wf (Z.to_nat (MaxRetries + 1 - attempt)) lt :=
  loop c method endpoint attempt backoff lastErr body with decide (attempt ≤ MaxRetries) := {
    | left _ with iteration c method endpoint attempt backoff body := {
      | (Return res, evs) => (res, evs)
      | (Continue backoff' lastErr' body', evs) =>
          let '(res, evs') :=
            loop c method endpoint (attempt + 1) backoff' lastErr' body' in
          (res, evs ++ evs') }
    | right _ => (inr (exhausted lastErr), []) }.
Next Obligation. lia. Qed.

(** [request] performs an HTTP request with retry logic and rate limit
    handling: its result and the trace of its effects. *)
Definition request (c : Client) (method endpoint : string)
    (body : option string) : (string + error) * list event :=
  loop c method endpoint 0 InitialBackoff None body.

(** *** Vocabulary for the properties *)

(** The [*YNABError] that [request] makes of a response outside 2xx. *)
Definition classified (resp : Response.t) (respBody : string) : YNABError :=
  if Response.StatusCode resp =? StatusTooManyRequests
  then NewRateLimitError (retryAfter_of resp)
  else if Response.StatusCode resp =? StatusUnauthorized then NewAuthError
  else ynabErr_of resp respBody.

Definition is_2xx (resp : Response.t) : bool :=
  (200 <=? Response.StatusCode resp) && (Response.StatusCode resp <? 300).

(** The exchanges after which another attempt is due: the failures of the
    transport ([Do] failed, or the body could not be read) and the
    responses outside 2xx whose error [IsRetryable]. *)
Definition retryable (o : exchange) : bool :=
  match o with
  | DoFailed _ => true
  | ReadFailed _ _ => true
  | Received resp respBody =>
      negb (is_2xx resp) && IsRetryable (classified resp respBody)
  end.

(** The error an exchange that is retried leaves in [lastErr]. *)
Definition lastErr_of (o : exchange) : error :=
  match o with
  | DoFailed err => EWrap "request failed: " err
  | ReadFailed _ err => EWrap "failed to read response: " err
  | Received resp respBody => EYNAB (classified resp respBody)
  end.

(** What [request] returns after an exchange that is not retried. *)
Definition result_of (o : exchange) : string + error :=
  match o with
  | Received resp respBody =>
      if is_2xx resp then inl respBody
      else inr (EYNAB (classified resp respBody))
  | _ => inr (lastErr_of o)
  end.

(** What every attempt of a run leads to, by its exchange [o]: when [o]
    is not retried, its result is returned and the attempt is the last
    event and the last attempt; when [o] is retried, the next attempt
    follows if the ceiling allows one, and otherwise the error of [o] is
    returned as exhausted. *)
Definition attempt_outcome (c : Client) (first : Z)
    (r : (string + error) * list event) : Prop :=
  ∀ n req sent,
    EvDo n req sent ∈ r.2 →
    let o := outcome (httpClient c n req) in
    first ≤ n ≤ MaxRetries
    ∧ (retryable o = false →
       r.1 = result_of o
       ∧ last r.2 = Some (EvDo n req sent)
       ∧ ∀ n' req' sent', EvDo n' req' sent' ∈ r.2 → n' ≤ n)
    ∧ (retryable o = true → n < MaxRetries →
       ∃ req' sent', EvDo (n + 1) req' sent' ∈ r.2)
    ∧ (retryable o = true → n = MaxRetries →
       r.1 = inr (exhausted (Some (lastErr_of o)))).

End request.

(** The request of an attempt, as sent: created from the method, the URL
    and the body reader, with the three headers set. *)
Definition request_sent (c : Client) (method endpoint : string)
    (body : option string) : Request.t :=
  Request.mk (if String.eqb method "" then "GET" else method)
    (baseURL c +:+ endpoint)
    (Header_Set
       (Header_Set
          (Header_Set ∅ "Authorization" ("Bearer " +:+ token c))
          "Content-Type" "application/json")
       "User-Agent" "Via-YNAB/2.0")
    body.

(** The wait at the top of the iteration [attempt], and [backoff] after it. *)
Definition waited (attempt : Z) (backoff : Duration) : list event :=
  if 0 <? attempt then [EvSleep backoff] else [].

Definition next_backoff (attempt : Z) (backoff : Duration) : Duration :=
  if 0 <? attempt then wrap64 (backoff * 2) else backoff.

(** The wait [request] takes inside the handling of a response: the
    rate-limit wait of a 429. *)
Definition rate_limit_wait (resp : Response.t) : list event :=
  if Response.StatusCode resp =? StatusTooManyRequests
  then [EvSleep (wrap64 (retryAfter_of resp * Second))] else [].

(** ** Observations on a trace *)

Definition attempt_of (ev : event) : option Z :=
  match ev with EvDo n _ _ => Some n | _ => None end.

Definition sleep_of (ev : event) : option Duration :=
  match ev with EvSleep d => Some d | _ => None end.

Definition sent_of (ev : event) : option string :=
  match ev with EvDo _ _ sent => Some sent | _ => None end.

(** The attempts made (by their number), the durations slept and the
    request bodies sent, in order. *)
Definition attempts (tr : list event) : list Z := omap attempt_of tr.
Definition sleeps (tr : list event) : list Duration := omap sleep_of tr.
Definition bodies_sent (tr : list event) : list string := omap sent_of tr.

(** The time the sleeps of a trace take in total. *)
Definition slept (tr : list event) : Z :=
  foldr (λ d acc, paused d + acc) 0 (sleeps tr).

(** [adjacent R tr]: every two events of [tr] that follow each other are
    related by [R]. *)
Definition adjacent (R : event → event → Prop) (tr : list event) : Prop :=
  ∀ i x y, tr !! i = Some x → tr !! S i = Some y → R x y.

(** The event is the start of a loop iteration with [attempt > 0]. *)
Definition top_of_loop (ev : event) : Prop :=
  match ev with EvLoop n => 0 < n | _ => False end.

(** The event is an attempt whose response was read and has status 429. *)
Definition rate_limited (c : Client) (ev : event) : Prop :=
  match ev with
  | EvDo n req _ =>
      ∃ resp respBody,
        outcome (httpClient c n req) = Received resp respBody
        ∧ Response.StatusCode resp = StatusTooManyRequests
  | _ => False
  end.

(** A sleep [y] that follows the event [x] is the wait at the top of an
    iteration with [attempt > 0] or the rate-limit wait of a 429. *)
Definition sleep_justified (c : Client) (x y : event) : Prop :=
  (∃ d, y = EvSleep d) → top_of_loop x ∨ rate_limited c x.

(** A trace that ends with a sleep ends with the rate-limit wait of a
    429. *)
Definition ends_justified (c : Client) (tr : list event) : Prop :=
  ∀ d, last tr = Some (EvSleep d) →
       ∃ pre x, tr = pre ++ [x; EvSleep d] ∧ rate_limited c x.

(** A sleep between the events [x] and [z] is the rate-limit wait of a
    429 before the retry: [x] is an attempt answered by 429 and [z] the
    start of the next iteration. *)
Definition wait_before_retry (c : Client) (x z : event) : Prop :=
  ∃ n req sent,
    x = EvDo n req sent ∧ rate_limited c x ∧ z = EvLoop (n + 1).

(** The property C2 claims: every sleep comes right after the start of a
    loop iteration with [attempt > 0], and the trace neither starts nor
    ends with a sleep. *)
Definition sleeps_only_at_top_of_loop (tr : list event) : Prop :=
  (∀ d, head tr ≠ Some (EvSleep d))
  ∧ adjacent (λ x y, (∃ d, y = EvSleep d) → top_of_loop x) tr
  ∧ (∀ d, last tr ≠ Some (EvSleep d)).

(** The event after the start of an iteration with [attempt > 0] is the
    sleep of the backoff schedule. *)
Definition backoff_wait (delay : Z → Duration) (x y : event) : Prop :=
  ∀ n, x = EvLoop n → 0 < n → y = EvSleep (delay n).

(** The statuses of the kinds that are not retried (Auth, BadRequest,
    NotFound, Unknown): outside 2xx, not 429 and not 5xx. *)
Definition not_retried_status (code : Z) : Prop :=
  (code < 200 ∨ 300 ≤ code) ∧ code ≠ 429 ∧ ¬ (500 ≤ code < 600).

(** The body reader is handed from attempt to attempt as it is: an attempt
    sends what the transport reads from the reader of its request, the
    first attempt of the loop has the reader [body], and the next attempt
    has the reader as the transport left it. *)
Definition reader_threaded (c : Client) (body : option string) (first : Z)
    (tr : list event) : Prop :=
  ∀ n req sent,
    EvDo n req sent ∈ tr →
    let rt := httpClient c n req in
    sent = (read_body (Request.Body req) (bodyRead rt)).1
    ∧ (n = first → Request.Body req = body)
    ∧ ∀ req' sent',
        EvDo (n + 1) req' sent' ∈ tr →
        Request.Body req' = (read_body (Request.Body req) (bodyRead rt)).2.

(** The rule of the error envelope: [e] has the name, the identifier and
    the detail of the envelope [decoded] from the body when there is one
    with a non-empty name, and otherwise the message made of the status
    line, with no identifier and no detail. *)
Definition envelope_rule (decoded : option errorResp.t) (status : string)
    (e : YNABError) : Prop :=
  (∀ r, decoded = Some r →
        errorResp.Name (errorResp.Error r) ≠ "" →
        Message e = errorResp.Name (errorResp.Error r)
        ∧ ErrorID e = errorResp.ID (errorResp.Error r)
        ∧ Detail e = errorResp.Detail (errorResp.Error r))
  ∧ ((decoded = None
      ∨ ∃ r, decoded = Some r ∧ errorResp.Name (errorResp.Error r) = "") →
     Message e = "HTTP request failed: " +:+ status
     ∧ ErrorID e = "" ∧ Detail e = "").

(** The value of [backoff] at the loop test of the iteration [attempt]. *)
Definition backoff_at (attempt : Z) : Duration :=
  Second * 2 ^ Z.max 0 (attempt - 1).

(** The backoff schedule of the specification:
    [base_delay * 2^(attemptIndex - 1)]. *)
Definition delay (attemptIndex : Z) : Duration :=
  Second * 2 ^ (attemptIndex - 1).

(** ** Inputs of the examples

    The servers of [retry_test.go], as clients: the [n]-th exchange is
    answered by [server n], and the transport reads the whole body of the
    request it sends. *)

(** JSON text is written with apostrophes for its double quotes. *)
Fixpoint json_text (s : string) : string :=
  match s with
  | EmptyString => EmptyString
  | String c r =>
      String (if Ascii.eqb c "'"%char then ascii_of_nat 34 else c) (json_text r)
  end.

(** A method and a URL that [http.NewRequest] accepts. *)
Definition accepted (method url : string) : option error := None.

Definition whole_body (req : Request.t) : nat :=
  match Request.Body req with
  | Some s => String.length s
  | None => 0%nat
  end.

Definition test_client (server : Z → exchange) : Client :=
  {| token := "test-token";
     baseURL := "http://127.0.0.1:8080";
     httpClient := λ n req, mkRoundTrip (whole_body req) (server n);
     defaultBudgetID := "" |}.

Definition response (code : Z) (status : string) (body : string) : exchange :=
  Received (Response.mk status code ∅) (json_text body).

Definition ok_budgets : exchange :=
  response 200 "200 OK" "{'data': {'budgets': []}}".

Definition internal_server_error : exchange :=
  response 500 "500 Internal Server Error"
    "{'error': {'id': '500', 'name': 'Internal Server Error', 'detail': 'Server error'}}".

(** A 429 with the given [Retry-After] header, or without one for [""]. *)
Definition throttled (retryAfter : string) : Response.t :=
  Response.mk "429 Too Many Requests" 429
    (if String.eqb retryAfter "" then ∅
     else {["Retry-After" := [retryAfter]]}).

Definition too_many_requests (retryAfter : string) : exchange :=
  Received (throttled retryAfter)
    (json_text "{'error': {'name': 'Too Many Requests'}}").

(** [TestClient_MaxRetriesExhausted]: always 500. *)
Definition always_500 : Client := test_client (λ _, internal_server_error).

(** [TestClient_RetryAfterHeaderParsing]: 429 first, then 200. *)
Definition rate_limited_once (retryAfter : string) : Client :=
  test_client (λ n, if n =? 0 then too_many_requests retryAfter
                    else ok_budgets).

(** A 429, then a 500, then 200. *)
Definition rate_limited_then_500 (retryAfter : string) : Client :=
  test_client (λ n, if n =? 0 then too_many_requests retryAfter
                    else if n =? 1 then internal_server_error
                    else ok_budgets).

(** [TestClient_RetryOnServerError] with one failure: 500 first, then 200. *)
Definition error_500_once : Client :=
  test_client (λ n, if n =? 0 then internal_server_error else ok_budgets).

(** Always 429. *)
Definition always_429 (retryAfter : string) : Client :=
  test_client (λ _, too_many_requests retryAfter).

(** A response of any status whose body cannot be read, every time. *)
Definition unreadable (code : Z) (status : string) : Client :=
  test_client (λ _, ReadFailed (Response.mk status code ∅)
                      (EText "unexpected EOF")).

(** The bodies of [TestClient_ParseErrorResponse] and of the example of
    the specification. *)
Definition bad_request_envelope : string :=
  json_text "{'error':{'id':'e1','name':'Bad Request','detail':'missing field'}}".

Definition unauthorized_envelope : string :=
  json_text "{'error': {'id': '401', 'name': 'Unauthorized', 'detail': 'Invalid token'}}".

Definition bad_request : Response.t := Response.mk "400 Bad Request" 400 ∅.
Definition unauthorized : Response.t := Response.mk "401 Unauthorized" 401 ∅.
Definition server_error : Response.t :=
  Response.mk "500 Internal Server Error" 500 ∅.

(** One response with the given body, every time. *)
Definition answering (resp : Response.t) (respBody : string) : Client :=
  test_client (λ _, Received resp respBody).

(** The request of the examples that have no body: [GetBudgets]. *)
Definition get_budgets (c : Client) : Request.t :=
  request_sent c "GET" "/budgets" None.

(** [request] with the decoder of [encoding/json], for a method and a URL
    that are accepted. *)
Definition std_request (c : Client) (method endpoint : string)
    (body : option string) : (string + error) * list event :=
  request json_decode.Unmarshal accepted c method endpoint body.

(** ** errors.go: the helpers on [error] values *)

(** [IsAuthError(err)] returns true if the error is a YNAB authentication
    error: the [*YNABError] that [errors.As] finds in the chain, if any, is
    asked. *)
Definition api_IsAuthError (err : error) : bool :=
  match errors_As err with
  | Some ynabErr => IsAuthError ynabErr
  | None => false
  end.

Definition api_IsRateLimitError (err : error) : bool :=
  match errors_As err with
  | Some ynabErr => IsRateLimitError ynabErr
  | None => false
  end.

Definition api_IsServerError (err : error) : bool :=
  match errors_As err with
  | Some ynabErr => IsServerError ynabErr
  | None => false
  end.

Definition api_IsNotFoundError (err : error) : bool :=
  match errors_As err with
  | Some ynabErr => IsNotFoundError ynabErr
  | None => false
  end.

(** ** client.go: creating the client *)

(** [NewClient] creates a new YNAB API client.  If [token] is empty, it
    reads the environment variable [YNAB_ACCESS_TOKEN]; [os_Getenv] is the
    environment and [transport] the network behind the [http.Client] it
    creates. *)
Definition NewClient (os_Getenv : string → string)
    (transport : Z → Request.t → roundTrip) (token : string) : Client + error :=
  let token :=
    if String.eqb token "" then os_Getenv "YNAB_ACCESS_TOKEN" else token in
  if String.eqb token "" then inr (EText "YNAB_ACCESS_TOKEN is required")
  else
    inl {| token := token;
           baseURL := BaseURL;
           httpClient := transport;
           defaultBudgetID := "" |}.

(** [SetDefaultBudgetID] sets the default budget ID. *)
Definition SetDefaultBudgetID (c : Client) (id : string) : Client :=
  {| token := token c;
     baseURL := baseURL c;
     httpClient := httpClient c;
     defaultBudgetID := id |}.

(** ** The methods of the client that go through [request]

    A method may call [request] more than once (to load the default budget,
    then for its own endpoint).  The transport of a [Client] answers the
    exchanges of one call of [request], counted from 0; the exchanges of the
    next call are those that come after, so each method returns the client
    as it is left: with its cached budget, and with the transport moved on
    by the exchanges done. *)

(** The number of exchanges of a trace. *)
Definition exchanges (tr : list event) : Z := Z.of_nat (length (attempts tr)).

(** The client after [k] exchanges. *)
Definition later (k : Z) (c : Client) : Client :=
  {| token := token c;
     baseURL := baseURL c;
     httpClient := λ n req, httpClient c (k + n) req;
     defaultBudgetID := defaultBudgetID c |}.

(** What a call does: it returns, or it panics on a nil pointer. *)
Inductive go (A : Type) : Type :=
| Returns (a : A)
| Panics.
Arguments Returns {A} a.
Arguments Panics {A}.

(** The values of a [map[string]interface{}] of the methods. *)
Inductive any :=
| AString (s : string)
| AInt64 (n : Z)
| ABool (b : bool).

(** [TransactionRequest] represents a request to create a transaction. *)
Module TransactionRequest.
Record t := mk {
  BudgetID : string;
  AccountID : string;
  Date : string;
  Amount : Z;
  PayeeName : string;
  CategoryID : string;
  Memo : string;
  Cleared : string;
  Approved : bool
}.
End TransactionRequest.

(** [Validate] validates the transaction request.  The receiver is a
    pointer: the request is returned as the call leaves it. *)
Definition Validate (r : TransactionRequest.t)
    : TransactionRequest.t * option error :=
  if String.eqb (TransactionRequest.AccountID r) "" then
    (r, Some (EText "account_id is required"))
  else if String.eqb (TransactionRequest.Date r) "" then
    (r, Some (EText "date is required"))
  else
    let r :=
      if String.eqb (TransactionRequest.Cleared r) "" then
        TransactionRequest.mk
          (TransactionRequest.BudgetID r) (TransactionRequest.AccountID r)
          (TransactionRequest.Date r) (TransactionRequest.Amount r)
          (TransactionRequest.PayeeName r) (TransactionRequest.CategoryID r)
          (TransactionRequest.Memo r) "uncleared"
          (TransactionRequest.Approved r)
      else r in
    (r, None).

(** The transaction object that [CreateTransaction] builds from a request:
    the map literal, then the three optional keys. *)
Definition transaction_object (req : TransactionRequest.t) : gmap string any :=
  let txn : gmap string any :=
    {[ "account_id" := AString (TransactionRequest.AccountID req);
       "date" := AString (TransactionRequest.Date req);
       "amount" := AInt64 (TransactionRequest.Amount req);
       "cleared" := AString (TransactionRequest.Cleared req);
       "approved" := ABool (TransactionRequest.Approved req) ]} in
  let txn :=
    if negb (String.eqb (TransactionRequest.PayeeName req) "")
    then <["payee_name" := AString (TransactionRequest.PayeeName req)]> txn
    else txn in
  let txn :=
    if negb (String.eqb (TransactionRequest.CategoryID req) "")
    then <["category_id" := AString (TransactionRequest.CategoryID req)]> txn
    else txn in
  let txn :=
    if negb (String.eqb (TransactionRequest.Memo req) "")
    then <["memo" := AString (TransactionRequest.Memo req)]> txn
    else txn in
  txn.

Section methods.

Variable json_Unmarshal : string → option errorResp.t.
Variable NewRequest_error : string → string → option error.

(** The types of the responses, and [json.Unmarshal] into each response
    struct: the field the method returns, or the error.  A [null] element of
    a JSON array is a nil pointer. *)
Variables Budget Account Transaction : Type.
Variable Budget_ID : Budget → string.
Variable Unmarshal_BudgetsResponse : string → list (option Budget) + error.
Variable Unmarshal_AccountsResponse : string → list (option Account) + error.
Variable Unmarshal_TransactionResponse : string → option Transaction + error.

(** [json.Marshal] of a request body, a map of one object. *)
Variable json_Marshal : gmap string (gmap string any) → string + error.

(** [GetBudgets] retrieves all budgets for the authenticated user. *)
Definition GetBudgets (c : Client)
    : (list (option Budget) + error) * Client * list event :=
  let '(res, tr) :=
    request json_Unmarshal NewRequest_error c "GET" "/budgets" None in
  let c := later (exchanges tr) c in
  match res with
  | inr err => (inr err, c, tr)
  | inl respBody =>
      match Unmarshal_BudgetsResponse respBody with
      | inr err =>
          (inr (EWrap "failed to parse budgets response: " err), c, tr)
      | inl budgets => (inl budgets, c, tr)
      end
  end.

(** [GetDefaultBudgetID] lazily loads and returns the default budget ID. *)
Definition GetDefaultBudgetID (c : Client)
    : go (string + error) * Client * list event :=
  if negb (String.eqb (defaultBudgetID c) "") then
    (Returns (inl (defaultBudgetID c)), c, [])
  else
    let '(res, c, tr) := GetBudgets c in
    match res with
    | inr err => (Returns (inr (EWrap "failed to get budgets: " err)), c, tr)
    | inl [] =>
        (Returns (inr (EText "no budgets found for this account")), c, tr)
    | inl (None :: _) => (Panics, c, tr)
    | inl (Some budget :: _) =>
        let c := SetDefaultBudgetID c (Budget_ID budget) in
        (Returns (inl (defaultBudgetID c)), c, tr)
    end.

(** The budget of a method: the one given, or the default one. *)
Definition budget_of (c : Client) (budgetID : string)
    : go (string + error) * Client * list event :=
  if String.eqb budgetID "" then GetDefaultBudgetID c
  else (Returns (inl budgetID), c, []).

(** [GetAccounts] retrieves all accounts for a budget. *)
Definition GetAccounts (c : Client) (budgetID : string)
    : go (list (option Account) + error) * Client * list event :=
  let '(id, c, tr0) := budget_of c budgetID in
  match id with
  | Panics => (Panics, c, tr0)
  | Returns (inr err) => (Returns (inr err), c, tr0)
  | Returns (inl budgetID) =>
      let endpoint := "/budgets/" +:+ budgetID +:+ "/accounts" in
      let '(res, tr) :=
        request json_Unmarshal NewRequest_error c "GET" endpoint None in
      let c := later (exchanges tr) c in
      match res with
      | inr err => (Returns (inr err), c, tr0 ++ tr)
      | inl respBody =>
          match Unmarshal_AccountsResponse respBody with
          | inr err =>
              (Returns (inr (EWrap "failed to parse accounts response: " err)),
               c, tr0 ++ tr)
          | inl accounts => (Returns (inl accounts), c, tr0 ++ tr)
          end
      end
  end.

(** [CreateTransaction] creates a new transaction.  The request is a
    pointer, and [Validate] may change it: it is returned as well. *)
Definition CreateTransaction (c : Client) (req : TransactionRequest.t)
    : go (option Transaction + error) * TransactionRequest.t * Client
      * list event :=
  let '(req, invalid) := Validate req in
  match invalid with
  | Some err => (Returns (inr err), req, c, [])
  | None =>
      let '(id, c, tr0) := budget_of c (TransactionRequest.BudgetID req) in
      match id with
      | Panics => (Panics, req, c, tr0)
      | Returns (inr err) => (Returns (inr err), req, c, tr0)
      | Returns (inl budgetID) =>
          let endpoint := "/budgets/" +:+ budgetID +:+ "/transactions" in
          let txn := transaction_object req in
          let requestBody : gmap string (gmap string any) :=
            {[ "transaction" := txn ]} in
          match json_Marshal requestBody with
          | inr err =>
              (Returns (inr (EWrap "failed to marshal request body: " err)),
               req, c, tr0)
          | inl bodyBytes =>
              let '(res, tr) :=
                request json_Unmarshal NewRequest_error c "POST" endpoint
                  (Some bodyBytes) in
              let c := later (exchanges tr) c in
              match res with
              | inr err => (Returns (inr err), req, c, tr0 ++ tr)
              | inl respBody =>
                  match Unmarshal_TransactionResponse respBody with
                  | inr err =>
                      (Returns
                         (inr (EWrap "failed to parse transaction response: "
                                 err)),
                       req, c, tr0 ++ tr)
                  | inl transaction =>
                      (Returns (inl transaction), req, c, tr0 ++ tr)
                  end
              end
          end
      end
  end.

End methods.

(** ** Inputs of the examples of the methods *)

(** A server that cannot be reached. *)
Definition unreachable : Client :=
  test_client (λ _, DoFailed (EText "dial tcp 127.0.0.1:8080: connection refused")).

(** [http.NewRequest] refusing a method that is not a token. *)
Definition token_methods (method url : string) : option error :=
  if String.eqb method "GET /" then Some (EText "net/http: invalid method")
  else None.

(** An environment that holds a token. *)
Definition env_token (key : string) : string :=
  if String.eqb key "YNAB_ACCESS_TOKEN" then "env-token" else "".

(** Decoders of the examples: budgets are given by their ID; the response
    holds one budget, or none. *)
Definition one_budget (respBody : string) : list (option string) + error :=
  inl [Some "budget-1"].

Definition no_budget (respBody : string) : list (option string) + error :=
  inl [].

Definition no_account (respBody : string) : list (option string) + error :=
  inl [].

Definition no_transaction (respBody : string) : option string + error :=
  inl None.

Definition marshalled (requestBody : gmap string (gmap string any))
    : string + error :=
  inl (json_text "{'transaction':{}}").

(** A request for the budget [b1], with no payee and no status. *)
Definition groceries : TransactionRequest.t :=
  TransactionRequest.mk "b1" "account-1" "2024-01-15" (-50000) ""
    "category-1" "Groceries" "" false.

(** The client [NewClient] creates from the token of the environment. *)
Definition env_client : Client :=
  {| token := "env-token";
     baseURL := BaseURL;
     httpClient := httpClient always_500;
     defaultBudgetID := "" |}.

(** The methods at the test server: budgets are given by their ID. *)
Abbreviation GetDefaultBudgetID_at decode :=
  (GetDefaultBudgetID json_decode.Unmarshal accepted string id decode).

Abbreviation GetAccounts_at decode :=
  (GetAccounts json_decode.Unmarshal accepted string string id decode
     no_account).

Abbreviation CreateTransaction_at :=
  (CreateTransaction json_decode.Unmarshal accepted string string id
     one_budget no_transaction marshalled).

(** ** Theorems *)

Example itoa_examples :
  itoa 0 = "0" /\ itoa 3 = "3" /\ itoa 60 = "60" /\ itoa (-5) = "-5"
  /\ itoa 1024 = "1024" /\ itoa maxInt64 = "9223372036854775807".
Proof. repeat split; reflexivity. Qed.

Example Atoi_examples :
  Atoi "5" = Some 5 /\ Atoi "+5" = Some 5 /\ Atoi "-5" = Some (-5)
  /\ Atoi "" = None /\ Atoi "-" = None /\ Atoi "invalid" = None
  /\ Atoi "5s" = None /\ Atoi " 5" = None
  /\ Atoi "9223372036854775807" = Some maxInt64
  /\ Atoi "9223372036854775808" = None
  /\ Atoi "-9223372036854775808" = Some minInt64.
Proof. repeat split; reflexivity. Qed.

Section properties.

Variable json_Unmarshal : string → option errorResp.t.
Variable NewRequest_error : string → string → option error.

Local Abbreviation loop := (loop json_Unmarshal NewRequest_error).
Local Abbreviation iteration := (iteration json_Unmarshal NewRequest_error).
Local Abbreviation request := (request json_Unmarshal NewRequest_error).
Local Abbreviation handle_response := (handle_response json_Unmarshal).
Local Abbreviation ynabErr_of := (ynabErr_of json_Unmarshal).

(** The loop, unfolded once. *)
Lemma loop_once c method endpoint attempt backoff lastErr body :
  loop c method endpoint attempt backoff lastErr body =
  if decide (attempt ≤ MaxRetries) then
    match iteration c method endpoint attempt backoff body with
    | (Return res, evs) => (res, evs)
    | (Continue backoff' lastErr' body', evs) =>
        let '(res, evs') :=
          loop c method endpoint (attempt + 1) backoff' lastErr' body' in
        (res, evs ++ evs')
    end
  else (inr (exhausted lastErr), []).
Proof.
  rewrite loop_equation_1. unfold loop_unfold_clause_1.
  destruct (decide (attempt ≤ MaxRetries)); [|reflexivity].
  destruct (iteration c method endpoint attempt backoff body) as [[] ?];
    reflexivity.
Qed.

Local Abbreviation classified := (classified json_Unmarshal).
Local Abbreviation retryable := (retryable json_Unmarshal).

(** *** One iteration *)

Lemma handle_response_events backoff body resp respBody :
  (handle_response backoff body resp respBody).2 = rate_limit_wait resp.
Proof.
  unfold handle_response, rate_limit_wait.
  repeat case_match; reflexivity.
Qed.

Lemma classified_StatusCode resp respBody :
  StatusCode (classified resp respBody) = Response.StatusCode resp.
Proof.
  unfold classified, ynabErr_of.
  repeat case_match; simpl; try reflexivity;
    symmetry; apply Z.eqb_eq; assumption.
Qed.

(** The control after a response: success returns the body, an error that
    [IsRetryable] continues, any other error is returned. *)
Lemma handle_response_control backoff body resp respBody :
  (handle_response backoff body resp respBody).1 =
  if is_2xx resp then Return (inl respBody)
  else if IsRetryable (classified resp respBody)
       then Continue backoff (Some (EYNAB (classified resp respBody))) body
       else Return (inr (EYNAB (classified resp respBody))).
Proof.
  unfold handle_response, classified, is_2xx, IsRetryable,
    IsRateLimitError, IsServerError, StatusTooManyRequests,
    StatusUnauthorized.
  destruct (Response.StatusCode resp =? 429) eqn:H429.
  { apply Z.eqb_eq in H429. rewrite H429. reflexivity. }
  destruct (Response.StatusCode resp =? 401) eqn:H401.
  { apply Z.eqb_eq in H401. rewrite H401. reflexivity. }
  assert (Hc : StatusCode (ynabErr_of resp respBody)
               = Response.StatusCode resp).
  { unfold ynabErr_of. repeat case_match; reflexivity. }
  rewrite Hc, H429. simpl.
  destruct (200 <=? Response.StatusCode resp) eqn:H200;
    destruct (Response.StatusCode resp <? 300) eqn:H300;
    destruct (Response.StatusCode resp <? 200) eqn:H200';
    destruct (300 <=? Response.StatusCode resp) eqn:H300';
    destruct (500 <=? Response.StatusCode resp) eqn:H500;
    destruct (Response.StatusCode resp <? 600) eqn:H600;
    simpl; try reflexivity; lia.
Qed.

(** An iteration whose request is created: the request is sent once, and
    the exchange decides the rest. *)
Lemma iteration_sent c method endpoint attempt backoff body :
  NewRequest_error method (baseURL c +:+ endpoint) = None →
  iteration c method endpoint attempt backoff body =
  let req := request_sent c method endpoint body in
  let rt := httpClient c attempt req in
  let sent := (read_body body (bodyRead rt)).1 in
  let body' := (read_body body (bodyRead rt)).2 in
  let backoff' := next_backoff attempt backoff in
  let done := EvLoop attempt :: waited attempt backoff
                ++ [EvDo attempt req sent] in
  match outcome rt with
  | DoFailed err =>
      (Continue backoff' (Some (EWrap "request failed: " err)) body', done)
  | ReadFailed resp err =>
      (Continue backoff' (Some (EWrap "failed to read response: " err)) body',
       done)
  | Received resp respBody =>
      ((handle_response backoff' body' resp respBody).1,
       done ++ rate_limit_wait resp)
  end.
Proof.
  intros Hnew. unfold iteration, NewRequest, waited, next_backoff.
  rewrite Hnew.
  change (set_header (set_header (set_header _ _ _) _ _) _ _)
    with (request_sent c method endpoint body).
  destruct (0 <? attempt); cbv zeta;
    destruct (read_body body _) as [sent body']; simpl;
    destruct (outcome _) as [err|resp err|resp respBody]; try reflexivity.
  all: match goal with
       | |- context [handle_response ?b ?bd ?r ?rb] =>
           pose proof (handle_response_events b bd r rb) as Hev;
           destruct (handle_response b bd r rb) as [ctl evs];
           simpl in Hev; rewrite Hev; reflexivity
       end.
Qed.

(** An iteration whose request cannot be created returns that error. *)
Lemma iteration_rejected c method endpoint attempt backoff body err :
  NewRequest_error method (baseURL c +:+ endpoint) = Some err →
  iteration c method endpoint attempt backoff body =
  (Return (inr (EWrap "failed to create request: " err)),
   EvLoop attempt :: waited attempt backoff).
Proof.
  intros Hnew. unfold iteration, NewRequest, waited.
  rewrite Hnew. destruct (0 <? attempt); reflexivity.
Qed.

(** The iteration by the kind of the exchange. *)
Section by_outcome.
Variables (c : Client) (method endpoint : string).
Variables (attempt : Z) (backoff : Duration) (body : option string).
Hypothesis Hnew : NewRequest_error method (baseURL c +:+ endpoint) = None.

Let req := request_sent c method endpoint body.
Let rt := httpClient c attempt req.
Let sent := (read_body body (bodyRead rt)).1.
Let body' := (read_body body (bodyRead rt)).2.
Let done := EvLoop attempt :: waited attempt backoff
              ++ [EvDo attempt req sent].

Lemma iteration_do_failed err :
  outcome rt = DoFailed err →
  iteration c method endpoint attempt backoff body =
  (Continue (next_backoff attempt backoff)
     (Some (EWrap "request failed: " err)) body', done).
Proof.
  intros Ho. rewrite (iteration_sent _ _ _ _ _ _ Hnew). cbv zeta.
  fold req. fold rt. rewrite Ho. reflexivity.
Qed.

Lemma iteration_read_failed resp err :
  outcome rt = ReadFailed resp err →
  iteration c method endpoint attempt backoff body =
  (Continue (next_backoff attempt backoff)
     (Some (EWrap "failed to read response: " err)) body', done).
Proof.
  intros Ho. rewrite (iteration_sent _ _ _ _ _ _ Hnew). cbv zeta.
  fold req. fold rt. rewrite Ho. reflexivity.
Qed.

Lemma iteration_received resp respBody :
  outcome rt = Received resp respBody →
  iteration c method endpoint attempt backoff body =
  ((if is_2xx resp then Return (inl respBody)
    else if IsRetryable (classified resp respBody)
         then Continue (next_backoff attempt backoff)
                (Some (EYNAB (classified resp respBody))) body'
         else Return (inr (EYNAB (classified resp respBody)))),
   done ++ rate_limit_wait resp).
Proof.
  intros Ho. rewrite (iteration_sent _ _ _ _ _ _ Hnew). cbv zeta.
  fold req. fold rt. rewrite Ho, handle_response_control. reflexivity.
Qed.

Lemma iteration_success resp respBody :
  outcome rt = Received resp respBody →
  is_2xx resp = true →
  iteration c method endpoint attempt backoff body =
  (Return (inl respBody), done).
Proof.
  intros Ho H2xx. rewrite (iteration_received _ _ Ho), H2xx.
  unfold rate_limit_wait, is_2xx, StatusTooManyRequests in *.
  destruct (Response.StatusCode resp =? 429) eqn:H; [lia|].
  rewrite app_nil_r. reflexivity.
Qed.

Lemma iteration_server_error resp respBody :
  outcome rt = Received resp respBody →
  500 ≤ Response.StatusCode resp < 600 →
  iteration c method endpoint attempt backoff body =
  (Continue (next_backoff attempt backoff)
     (Some (EYNAB (ynabErr_of resp respBody))) body', done).
Proof.
  intros Ho Hcode. rewrite (iteration_received _ _ Ho).
  assert (Hcl : classified resp respBody = ynabErr_of resp respBody).
  { unfold classified, StatusTooManyRequests, StatusUnauthorized.
    destruct (Response.StatusCode resp =? 429) eqn:H429; [lia|].
    destruct (Response.StatusCode resp =? 401) eqn:H401; [lia|].
    reflexivity. }
  assert (Hretry : IsRetryable (classified resp respBody) = true).
  { unfold IsRetryable, IsServerError.
    rewrite classified_StatusCode.
    destruct (500 <=? Response.StatusCode resp) eqn:H500; [|lia].
    destruct (Response.StatusCode resp <? 600) eqn:H600; [|lia].
    apply orb_true_r. }
  rewrite Hretry, Hcl.
  unfold rate_limit_wait, is_2xx, StatusTooManyRequests.
  destruct (Response.StatusCode resp =? 429) eqn:H429; [lia|].
  destruct (200 <=? Response.StatusCode resp) eqn:H200; [|lia].
  destruct (Response.StatusCode resp <? 300) eqn:H300; [lia|].
  simpl. rewrite app_nil_r. reflexivity.
Qed.

Lemma iteration_rate_limited resp respBody :
  outcome rt = Received resp respBody →
  Response.StatusCode resp = 429 →
  iteration c method endpoint attempt backoff body =
  (Continue (next_backoff attempt backoff)
     (Some (EYNAB (NewRateLimitError (retryAfter_of resp)))) body',
   done ++ [EvSleep (wrap64 (retryAfter_of resp * Second))]).
Proof.
  intros Ho Hcode. rewrite (iteration_received _ _ Ho).
  unfold rate_limit_wait, is_2xx, classified, StatusTooManyRequests.
  rewrite Hcode. reflexivity.
Qed.

Lemma iteration_not_retryable resp respBody :
  outcome rt = Received resp respBody →
  is_2xx resp = false →
  IsRetryable (classified resp respBody) = false →
  iteration c method endpoint attempt backoff body =
  (Return (inr (EYNAB (classified resp respBody))), done).
Proof.
  intros Ho H2xx Hretry. rewrite (iteration_received _ _ Ho), H2xx, Hretry.
  unfold rate_limit_wait. unfold IsRetryable, IsRateLimitError in Hretry.
  rewrite classified_StatusCode in Hretry.
  destruct (Response.StatusCode resp =? StatusTooManyRequests);
    [discriminate|].
  rewrite app_nil_r. reflexivity.
Qed.

End by_outcome.

(** The events of an iteration: the start of the iteration, the wait at
    the top of the loop, and, when the request is created, the attempt
    and the rate-limit wait of a 429. *)
Lemma iteration_events c method endpoint attempt backoff body :
  (iteration c method endpoint attempt backoff body).2 =
  EvLoop attempt :: waited attempt backoff ++
    match NewRequest_error method (baseURL c +:+ endpoint) with
    | Some _ => []
    | None =>
        let req := request_sent c method endpoint body in
        let rt := httpClient c attempt req in
        EvDo attempt req (read_body body (bodyRead rt)).1 ::
          match outcome rt with
          | Received resp _ => rate_limit_wait resp
          | _ => []
          end
    end.
Proof.
  destruct (NewRequest_error method (baseURL c +:+ endpoint)) as [err|] eqn:Hnew.
  - rewrite (iteration_rejected _ _ _ _ _ _ _ Hnew), app_nil_r. reflexivity.
  - rewrite (iteration_sent _ _ _ _ _ _ Hnew). cbv zeta.
    destruct (outcome _); simpl; rewrite <- ?app_assoc; reflexivity.
Qed.

Local Abbreviation attempt_outcome := (attempt_outcome json_Unmarshal).
Local Abbreviation lastErr_of := (lastErr_of json_Unmarshal).
Local Abbreviation result_of := (result_of json_Unmarshal).

(** An iteration whose request is created, in one equation: the exchange
    is retried or its result is returned. *)
Lemma iteration_created c method endpoint attempt backoff body :
  NewRequest_error method (baseURL c +:+ endpoint) = None →
  iteration c method endpoint attempt backoff body =
  let req := request_sent c method endpoint body in
  let rt := httpClient c attempt req in
  ((if retryable (outcome rt)
    then Continue (next_backoff attempt backoff)
           (Some (lastErr_of (outcome rt)))
           (read_body body (bodyRead rt)).2
    else Return (result_of (outcome rt))),
   EvLoop attempt :: waited attempt backoff ++
     EvDo attempt req (read_body body (bodyRead rt)).1 ::
     match outcome rt with
     | Received resp _ => rate_limit_wait resp
     | _ => []
     end).
Proof.
  intros Hnew. cbv zeta.
  rewrite (surjective_pairing (iteration c method endpoint attempt backoff body)).
  f_equal.
  - destruct (outcome (httpClient c attempt (request_sent c method endpoint body)))
      as [err|resp err|resp respBody] eqn:Ho.
    + rewrite (iteration_do_failed _ _ _ _ _ _ Hnew _ Ho). reflexivity.
    + rewrite (iteration_read_failed _ _ _ _ _ _ Hnew _ _ Ho). reflexivity.
    + rewrite (iteration_received _ _ _ _ _ _ Hnew _ _ Ho). simpl.
      destruct (is_2xx resp); [reflexivity|]. simpl.
      destruct (IsRetryable (classified resp respBody)); reflexivity.
  - rewrite iteration_events, Hnew. reflexivity.
Qed.

Lemma iteration_continue c method endpoint attempt backoff body
    backoff' lastErr' body' evs :
  iteration c method endpoint attempt backoff body
    = (Continue backoff' lastErr' body', evs) →
  let req := request_sent c method endpoint body in
  let rt := httpClient c attempt req in
  NewRequest_error method (baseURL c +:+ endpoint) = None
  ∧ retryable (outcome rt) = true
  ∧ backoff' = next_backoff attempt backoff
  ∧ lastErr' = Some (lastErr_of (outcome rt))
  ∧ body' = (read_body body (bodyRead rt)).2.
Proof.
  intros Hit. cbv zeta.
  destruct (NewRequest_error method (baseURL c +:+ endpoint)) as [err|] eqn:Hnew.
  { rewrite (iteration_rejected _ _ _ _ _ _ _ Hnew) in Hit. discriminate. }
  rewrite (iteration_created _ _ _ _ _ _ Hnew) in Hit. cbv zeta in Hit.
  destruct (retryable _); [|discriminate].
  injection Hit as <- <- <- _. repeat split; reflexivity.
Qed.

Lemma iteration_return c method endpoint attempt backoff body res evs :
  iteration c method endpoint attempt backoff body = (Return res, evs) →
  NewRequest_error method (baseURL c +:+ endpoint) = None →
  let req := request_sent c method endpoint body in
  let rt := httpClient c attempt req in
  retryable (outcome rt) = false ∧ res = result_of (outcome rt).
Proof.
  intros Hit Hnew. cbv zeta.
  rewrite (iteration_created _ _ _ _ _ _ Hnew) in Hit. cbv zeta in Hit.
  destruct (retryable _); [discriminate|].
  injection Hit as <- _. split; reflexivity.
Qed.

(** Induction over the iterations of the loop. *)
Lemma loop_induction c method endpoint
    (P : Z → Duration → option error → option string →
         (string + error) * list event → Prop) :
  (∀ attempt backoff lastErr body,
      MaxRetries < attempt →
      P attempt backoff lastErr body (inr (exhausted lastErr), [])) →
  (∀ attempt backoff lastErr body res evs,
      attempt ≤ MaxRetries →
      iteration c method endpoint attempt backoff body = (Return res, evs) →
      P attempt backoff lastErr body (res, evs)) →
  (∀ attempt backoff lastErr body backoff' lastErr' body' evs res evs',
      attempt ≤ MaxRetries →
      iteration c method endpoint attempt backoff body
        = (Continue backoff' lastErr' body', evs) →
      loop c method endpoint (attempt + 1) backoff' lastErr' body'
        = (res, evs') →
      P (attempt + 1) backoff' lastErr' body' (res, evs') →
      P attempt backoff lastErr body (res, evs ++ evs')) →
  ∀ attempt backoff lastErr body,
    P attempt backoff lastErr body
      (loop c method endpoint attempt backoff lastErr body).
Proof.
  intros Hexit Hret Hcont attempt.
  remember (Z.to_nat (MaxRetries + 1 - attempt)) as n eqn:Hn.
  revert attempt Hn.
  induction n as [|n IH]; intros attempt Hn backoff lastErr body;
    rewrite loop_once; destruct (decide (attempt ≤ MaxRetries)) as [Hle|Hgt].
  - lia.
  - apply Hexit. lia.
  - destruct (iteration c method endpoint attempt backoff body)
      as [[backoff' lastErr' body'|res] evs] eqn:Hit.
    + destruct (loop c method endpoint (attempt + 1) backoff' lastErr' body')
        as [res evs'] eqn:Hloop.
      eapply Hcont; eauto. rewrite <- Hloop. apply IH. lia.
    + apply Hret; auto.
  - apply Hexit. lia.
Qed.

(** *** Observations on the events of an iteration *)

Lemma attempts_app tr1 tr2 : attempts (tr1 ++ tr2) = attempts tr1 ++ attempts tr2.
Proof. apply omap_app. Qed.

Lemma sleeps_app tr1 tr2 : sleeps (tr1 ++ tr2) = sleeps tr1 ++ sleeps tr2.
Proof. apply omap_app. Qed.

Lemma attempts_waited attempt backoff : attempts (waited attempt backoff) = [].
Proof. unfold waited. destruct (0 <? attempt); reflexivity. Qed.

Lemma attempts_rate_limit_wait resp : attempts (rate_limit_wait resp) = [].
Proof. unfold rate_limit_wait. case_match; reflexivity. Qed.

(** The events of an iteration hold at most one attempt, its own; an
    iteration that goes on to the next has made one. *)
Lemma iteration_attempts c method endpoint attempt backoff body ctl evs :
  iteration c method endpoint attempt backoff body = (ctl, evs) →
  (NewRequest_error method (baseURL c +:+ endpoint) = None
   ∧ attempts evs = [attempt])
  ∨ ((∃ err, NewRequest_error method (baseURL c +:+ endpoint) = Some err)
     ∧ attempts evs = [] ∧ ∃ res, ctl = Return res).
Proof.
  destruct (NewRequest_error method (baseURL c +:+ endpoint)) as [err|] eqn:Hnew.
  - rewrite (iteration_rejected _ _ _ _ _ _ _ Hnew). intros [= <- <-].
    right. split; [eauto|]. split; [|eauto].
    change (attempts (waited attempt backoff) = []). apply attempts_waited.
  - rewrite (iteration_sent _ _ _ _ _ _ Hnew). cbv zeta.
    intros Heq. left. split; [reflexivity|].
    destruct (outcome _); injection Heq as <- <-;
      change (attempts (?x :: ?l)) with (attempts l);
      rewrite ?attempts_app, attempts_waited, ?attempts_rate_limit_wait;
      reflexivity.
Qed.

(** The attempts of the loop entered with [attempt] are numbered
    [attempt], [attempt + 1], ... and stay below the ceiling. *)
Lemma loop_attempts c method endpoint attempt backoff lastErr body :
  attempt ≤ MaxRetries + 1 →
  ∃ k, 0 ≤ k ∧ attempt + k ≤ MaxRetries + 1 ∧
       attempts (loop c method endpoint attempt backoff lastErr body).2
       = seqZ attempt k.
Proof.
  revert attempt backoff lastErr body.
  apply (loop_induction c method endpoint
           (λ attempt _ _ _ r,
              attempt ≤ MaxRetries + 1 →
              ∃ k, 0 ≤ k ∧ attempt + k ≤ MaxRetries + 1 ∧
                   attempts r.2 = seqZ attempt k)).
  - intros attempt backoff lastErr body Hgt Hle. exists 0. repeat split; lia.
  - intros attempt backoff lastErr body res evs Hle Hit _. simpl.
    destruct (iteration_attempts _ _ _ _ _ _ _ _ Hit)
      as [[_ ->]|(_ & -> & _)].
    + exists 1. repeat split; lia.
    + exists 0. repeat split; lia.
  - intros attempt backoff lastErr body backoff' lastErr' body' evs res evs'
      Hle Hit _ IH _. simpl.
    destruct (iteration_attempts _ _ _ _ _ _ _ _ Hit)
      as [[_ Hev]|(_ & _ & res' & [=])].
    destruct IH as (k & Hk & Hbound & Hatt); [lia|].
    exists (k + 1). split; [lia|]. split; [lia|].
    rewrite attempts_app, Hev. simpl in Hatt. rewrite Hatt.
    rewrite (seqZ_cons attempt (k + 1)) by lia.
    replace (Z.pred (k + 1)) with k by lia. reflexivity.
Qed.

(** *** Events that follow each other *)

Lemma adjacent_nil R : adjacent R [].
Proof. intros i x y Hx. rewrite lookup_nil in Hx. discriminate. Qed.

Lemma adjacent_singleton R x : adjacent R [x].
Proof. intros [|i] x' y _ Hy; simpl in Hy; discriminate. Qed.

Lemma adjacent_cons R x y tr :
  R x y → adjacent R (y :: tr) → adjacent R (x :: y :: tr).
Proof.
  intros Hxy Htr [|i] x' y' Hx Hy; simpl in *.
  - congruence.
  - eapply Htr; eassumption.
Qed.

Lemma adjacent_app R tr1 tr2 :
  adjacent R tr1 → adjacent R tr2 →
  (∀ x y, last tr1 = Some x → head tr2 = Some y → R x y) →
  adjacent R (tr1 ++ tr2).
Proof.
  intros H1 H2 Hmid i x y Hx Hy.
  destruct (decide (S i < length tr1)%nat) as [Hlt|Hge].
  - rewrite lookup_app_l in Hx, Hy by lia. eapply H1; eassumption.
  - destruct (decide (S i = length tr1)) as [Heq|Hne].
    + rewrite lookup_app_l in Hx by lia.
      rewrite lookup_app_r in Hy by lia.
      apply Hmid.
      * rewrite last_lookup, <- Heq. exact Hx.
      * rewrite head_lookup. replace (S i - length tr1)%nat with 0%nat in Hy by lia.
        exact Hy.
    + rewrite lookup_app_r in Hx, Hy by lia.
      replace (S i - length tr1)%nat with (S (i - length tr1)) in Hy by lia.
      eapply H2; eassumption.
Qed.

(** The trace of the loop entered with [attempt] is empty (the ceiling is
    reached) or starts with that iteration. *)
Lemma loop_head c method endpoint attempt backoff lastErr body :
  (loop c method endpoint attempt backoff lastErr body).2 = []
  ∨ head (loop c method endpoint attempt backoff lastErr body).2
    = Some (EvLoop attempt).
Proof.
  rewrite loop_once. destruct (decide (attempt ≤ MaxRetries)); [|left; reflexivity].
  right.
  destruct (iteration c method endpoint attempt backoff body)
    as [ctl evs] eqn:Hit.
  assert (Hhd : head evs = Some (EvLoop attempt)).
  { destruct (NewRequest_error method (baseURL c +:+ endpoint)) as [err|] eqn:Hnew.
    - rewrite (iteration_rejected _ _ _ _ _ _ _ Hnew) in Hit.
      injection Hit as <- <-. reflexivity.
    - rewrite (iteration_sent _ _ _ _ _ _ Hnew) in Hit. cbv zeta in Hit.
      destruct (outcome _); injection Hit as <- <-; reflexivity. }
  destruct ctl as [backoff' lastErr' body'|res]; [|exact Hhd].
  destruct (loop c method endpoint (attempt + 1) backoff' lastErr' body').
  simpl. destruct evs; [discriminate|exact Hhd].
Qed.

(** An iteration that continues has created its request. *)
Lemma iteration_continue_created c method endpoint attempt backoff body
    backoff' lastErr' body' evs :
  iteration c method endpoint attempt backoff body
    = (Continue backoff' lastErr' body', evs) →
  NewRequest_error method (baseURL c +:+ endpoint) = None.
Proof.
  intros Hit.
  destruct (NewRequest_error method (baseURL c +:+ endpoint)) as [err|] eqn:Hnew;
    [|reflexivity].
  rewrite (iteration_rejected _ _ _ _ _ _ _ Hnew) in Hit. discriminate.
Qed.

(** ** The points where the executor sleeps *)

Lemma iteration_sleeps_justified c method endpoint attempt backoff body :
  adjacent (sleep_justified c)
    (iteration c method endpoint attempt backoff body).2.
Proof.
  rewrite iteration_events. unfold waited.
  destruct (0 <? attempt) eqn:Hpos; simpl.
  - apply adjacent_cons; [intros _; left; simpl; lia|].
    destruct (NewRequest_error _ _); [apply adjacent_singleton|].
    apply adjacent_cons; [intros [d [=]]|].
    destruct (outcome _) as [| |resp respBody] eqn:Ho;
      try apply adjacent_singleton.
    unfold rate_limit_wait.
    destruct (Response.StatusCode resp =? StatusTooManyRequests) eqn:Hc;
      [|apply adjacent_singleton].
    apply adjacent_cons; [|apply adjacent_singleton].
    intros _. right. simpl. exists resp, respBody.
    split; [exact Ho|lia].
  - destruct (NewRequest_error _ _); [apply adjacent_singleton|].
    apply adjacent_cons; [intros [d [=]]|].
    destruct (outcome _) as [| |resp respBody] eqn:Ho;
      try apply adjacent_singleton.
    unfold rate_limit_wait.
    destruct (Response.StatusCode resp =? StatusTooManyRequests) eqn:Hc;
      [|apply adjacent_singleton].
    apply adjacent_cons; [|apply adjacent_singleton].
    intros _. right. simpl. exists resp, respBody.
    split; [exact Ho|lia].
Qed.

Lemma loop_sleeps_justified c method endpoint attempt backoff lastErr body :
  adjacent (sleep_justified c)
    (loop c method endpoint attempt backoff lastErr body).2.
Proof.
  revert attempt backoff lastErr body.
  apply (loop_induction c method endpoint
           (λ _ _ _ _ r, adjacent (sleep_justified c) r.2)).
  - intros. apply adjacent_nil.
  - intros attempt backoff lastErr body res evs _ Hit. simpl.
    replace evs with (iteration c method endpoint attempt backoff body).2
      by (rewrite Hit; reflexivity).
    apply iteration_sleeps_justified.
  - intros attempt backoff lastErr body backoff' lastErr' body' evs res evs'
      _ Hit Hloop IH. simpl in *.
    apply adjacent_app; [|exact IH|].
    + replace evs with (iteration c method endpoint attempt backoff body).2
        by (rewrite Hit; reflexivity).
      apply iteration_sleeps_justified.
    + intros x y _ Hy [d ->].
      destruct (loop_head c method endpoint (attempt + 1) backoff' lastErr' body')
        as [Hnil|Hhd]; rewrite Hloop in *; simpl in *.
      * rewrite Hnil in Hy. discriminate.
      * rewrite Hhd in Hy. discriminate.
Qed.

Lemma iteration_ends_justified c method endpoint attempt backoff body :
  (0 < attempt → NewRequest_error method (baseURL c +:+ endpoint) = None) →
  ends_justified c (iteration c method endpoint attempt backoff body).2.
Proof.
  intros Hcreated d. rewrite iteration_events. unfold waited.
  destruct (NewRequest_error _ _) as [err|] eqn:Hnew.
  - destruct (0 <? attempt) eqn:Hpos; [|discriminate].
    specialize (Hcreated ltac:(lia)). discriminate.
  - cbv zeta.
    set (req := request_sent c method endpoint body).
    set (ev := EvDo attempt req _).
    destruct (outcome (httpClient c attempt req))
      as [| |resp respBody] eqn:Ho.
    1,2: destruct (0 <? attempt); discriminate.
    unfold rate_limit_wait.
    destruct (Response.StatusCode resp =? StatusTooManyRequests) eqn:Hc;
      [|destruct (0 <? attempt); discriminate].
    intros Hlast.
    assert (Hd : d = wrap64 (retryAfter_of resp * Second)).
    { destruct (0 <? attempt); simpl in Hlast; congruence. }
    subst d.
    exists (EvLoop attempt :: (if 0 <? attempt then [EvSleep backoff] else [])),
      ev.
    split; [destruct (0 <? attempt); reflexivity|].
    simpl. exists resp, respBody. split; [exact Ho|lia].
Qed.

Lemma loop_ends_justified c method endpoint attempt backoff lastErr body :
  (0 < attempt → NewRequest_error method (baseURL c +:+ endpoint) = None) →
  ends_justified c (loop c method endpoint attempt backoff lastErr body).2.
Proof.
  revert attempt backoff lastErr body.
  apply (loop_induction c method endpoint
           (λ attempt _ _ _ r,
              (0 < attempt →
               NewRequest_error method (baseURL c +:+ endpoint) = None) →
              ends_justified c r.2)).
  - intros attempt backoff lastErr body _ _ d [=].
  - intros attempt backoff lastErr body res evs _ Hit Hcreated. simpl.
    replace evs with (iteration c method endpoint attempt backoff body).2
      by (rewrite Hit; reflexivity).
    apply iteration_ends_justified, Hcreated.
  - intros attempt backoff lastErr body backoff' lastErr' body' evs res evs'
      _ Hit Hloop IH Hcreated d. simpl in *.
    pose proof (iteration_continue_created _ _ _ _ _ _ _ _ _ _ Hit) as Hnew.
    destruct evs' as [|ev' evs''].
    + rewrite app_nil_r.
      replace evs with (iteration c method endpoint attempt backoff body).2
        by (rewrite Hit; reflexivity).
      apply iteration_ends_justified, Hcreated.
    + rewrite last_app. intros Hlast.
      destruct (last (ev' :: evs'')) as [z|] eqn:Hz;
        [|apply last_None in Hz; discriminate].
      destruct (IH (λ _, Hnew) d) as (pre & x & Heq & Hx); [congruence|].
      exists (evs ++ pre), x. split; [|exact Hx].
      rewrite Heq, <- app_assoc. reflexivity.
Qed.

(** What surrounds a sleep that another event follows: the start of an
    iteration with [attempt > 0] before it, or an attempt answered by 429
    before it and the start of the next iteration after it. *)
Lemma loop_sleeps_between c method endpoint attempt backoff lastErr body :
  ∀ i x d z,
    (loop c method endpoint attempt backoff lastErr body).2 !! i = Some x →
    (loop c method endpoint attempt backoff lastErr body).2 !! S i
    = Some (EvSleep d) →
    (loop c method endpoint attempt backoff lastErr body).2 !! S (S i)
    = Some z →
    top_of_loop x ∨ wait_before_retry c x z.
Proof.
  revert attempt backoff lastErr body.
  apply (loop_induction c method endpoint
           (λ _ _ _ _ r,
              ∀ i x d z,
                r.2 !! i = Some x → r.2 !! S i = Some (EvSleep d) →
                r.2 !! S (S i) = Some z →
                top_of_loop x ∨ wait_before_retry c x z)).
  - intros attempt backoff lastErr body _ i x d z Hx. discriminate Hx.
  - intros attempt backoff lastErr body res evs _ Hit i x d z. simpl.
    replace evs with (iteration c method endpoint attempt backoff body).2
      by (rewrite Hit; reflexivity).
    rewrite iteration_events. unfold waited, rate_limit_wait.
    destruct (0 <? attempt) eqn:Hpos;
      destruct (NewRequest_error _ _);
      try destruct (outcome _) as [| |resp respBody];
      try destruct (Response.StatusCode resp =? StatusTooManyRequests);
      destruct i as [|[|[|[|i]]]]; simpl; intros Hx Hy Hz;
      try discriminate;
      injection Hx as <-; left; simpl; lia.
  - intros attempt backoff lastErr body backoff' lastErr' body' evs res evs'
      _ Hit Hloop IH i x d z. simpl in IH |- *.
    pose proof (iteration_continue_created _ _ _ _ _ _ _ _ _ _ Hit) as Hnew.
    assert (Hhead : ∀ y, evs' !! 0%nat = Some y → y = EvLoop (attempt + 1)).
    { intros y Hy.
      destruct (loop_head c method endpoint (attempt + 1) backoff' lastErr'
                  body') as [Hnil|Hhd]; rewrite Hloop in *; simpl in *.
      - rewrite Hnil in Hy. discriminate.
      - rewrite head_lookup in Hhd. congruence. }
    replace evs with (iteration c method endpoint attempt backoff body).2
      by (rewrite Hit; reflexivity).
    rewrite iteration_events, Hnew. unfold waited, rate_limit_wait. cbv zeta.
    set (req := request_sent c method endpoint body).
    set (sent := (read_body body (bodyRead (httpClient c attempt req))).1).
    destruct (0 <? attempt) eqn:Hpos;
      destruct (outcome (httpClient c attempt req))
        as [| |resp respBody] eqn:Ho;
      try destruct (Response.StatusCode resp =? StatusTooManyRequests)
        eqn:Hcode;
      destruct i as [|[|[|[|i]]]]; simpl; intros Hx Hy Hz;
      try discriminate;
      try (apply Hhead in Hy; discriminate);
      try (eapply IH; eassumption);
      try (injection Hx as <-; left; simpl; lia);
      (injection Hx as <-; right; exists attempt, req, sent;
       split; [reflexivity|]; split; [|apply Hhead; exact Hz];
       simpl; exists resp, respBody; split; [exact Ho|lia]).
Qed.

(** C2, as the code has it.  Execution suspends at two points: the wait at
    the top of a loop iteration with [attempt > 0], and the rate-limit
    wait inside the handling of an attempt whose response is a 429, before
    the next attempt.  So a trace never starts with a sleep, and every
    sleep that another event follows comes right after the start of an
    iteration with [attempt > 0], or right after an attempt answered by
    429 and right before the start of the next iteration.  In a run whose
    last attempt is not answered by 429 every sleep is followed by another
    event: the trace does not end with a sleep, nothing is slept after
    the final attempt.  What follows a last attempt answered by 429 is not
    part of the statement. *)
Theorem C2_suspension_points c method endpoint body :
  (∀ d, head (request c method endpoint body).2 ≠ Some (EvSleep d))
  ∧ (∀ i x d z,
        (request c method endpoint body).2 !! i = Some x →
        (request c method endpoint body).2 !! S i = Some (EvSleep d) →
        (request c method endpoint body).2 !! S (S i) = Some z →
        top_of_loop x ∨ wait_before_retry c x z)
  ∧ ((∀ n req sent,
         EvDo n req sent ∈ (request c method endpoint body).2 →
         (∀ n' req' sent',
             EvDo n' req' sent' ∈ (request c method endpoint body).2 →
             n' ≤ n) →
         ¬ rate_limited c (EvDo n req sent)) →
     ∀ d, last (request c method endpoint body).2 ≠ Some (EvSleep d)).
Proof.
  unfold request.
  set (tr := (loop c method endpoint 0 InitialBackoff None body).2).
  split; [|split].
  - intros d Hd.
    destruct (loop_head c method endpoint 0 InitialBackoff None body)
      as [Hnil|Hhd]; fold tr in Hnil || fold tr in Hhd.
    + rewrite Hnil in Hd. discriminate.
    + rewrite Hhd in Hd. discriminate.
  - apply loop_sleeps_between.
  - intros Hfinal d Hlast.
    destruct (loop_ends_justified c method endpoint 0 InitialBackoff None
                body) with (d := d) as (pre & x & Heq & Hx);
      [lia|exact Hlast|].
    fold tr in Heq.
    destruct x as [|?|n req sent]; try contradiction.
    apply (Hfinal n req sent); [| |exact Hx].
    + rewrite Heq. apply elem_of_app. right. left.
    + destruct (loop_attempts c method endpoint 0 InitialBackoff None body)
        as (k & Hk & _ & Hatt); [unfold MaxRetries; lia|].
      fold tr in Hatt.
      assert (Hpre : attempts tr = attempts pre ++ [n]).
      { rewrite Heq, attempts_app. reflexivity. }
      assert (Hn : seqZ 0 k !! length (attempts pre) = Some n).
      { rewrite <- Hatt, Hpre, lookup_app_r by lia.
        rewrite Nat.sub_diag. reflexivity. }
      apply lookup_seqZ in Hn as [Hn Hlt].
      assert (Hlen : length (seqZ 0 k) = S (length (attempts pre))).
      { rewrite <- Hatt, Hpre, length_app. simpl. lia. }
      rewrite length_seqZ in Hlen.
      intros n' req' sent' Hin'.
      assert (Hn' : n' ∈ attempts tr).
      { apply list_elem_of_omap. eexists. split; [exact Hin'|reflexivity]. }
      rewrite Hatt in Hn'. apply elem_of_seqZ in Hn'. lia.
Qed.

(** ** The backoff schedule *)

Lemma backoff_at_delay attempt : 0 < attempt → backoff_at attempt = delay attempt.
Proof.
  intros Hpos. unfold backoff_at, delay.
  rewrite Z.max_r by lia. reflexivity.
Qed.

Lemma next_backoff_at attempt :
  0 ≤ attempt ≤ MaxRetries →
  next_backoff attempt (backoff_at attempt) = backoff_at (attempt + 1).
Proof.
  unfold MaxRetries. intros Hrange.
  assert (Hcases : attempt = 0 ∨ attempt = 1 ∨ attempt = 2 ∨ attempt = 3)
    by lia.
  destruct Hcases as [-> | [-> | [-> | ->]]]; vm_compute; reflexivity.
Qed.

Lemma sleeps_waited attempt backoff :
  sleeps (waited attempt backoff) = if 0 <? attempt then [backoff] else [].
Proof. unfold waited. destruct (0 <? attempt); reflexivity. Qed.

Lemma iteration_backoff_wait c method endpoint attempt backoff body :
  backoff = backoff_at attempt →
  adjacent (backoff_wait delay)
    (iteration c method endpoint attempt backoff body).2
  ∧ ∀ n, last (iteration c method endpoint attempt backoff body).2
         = Some (EvLoop n) → n ≤ 0.
Proof.
  intros ->. rewrite iteration_events. unfold waited.
  assert (Htriv : ∀ tr req sent,
             adjacent (backoff_wait delay) tr →
             adjacent (backoff_wait delay) (EvDo attempt req sent :: tr)).
  { intros tr req sent Htr. destruct tr as [|y tr];
      [apply adjacent_singleton|].
    apply adjacent_cons; [intros n [=]|exact Htr]. }
  assert (Hpost : ∀ o : exchange,
             adjacent (backoff_wait delay)
               match o with
               | Received resp _ => rate_limit_wait resp
               | _ => []
               end).
  { intros [| |resp rb]; try apply adjacent_nil.
    unfold rate_limit_wait. case_match;
      [apply adjacent_singleton|apply adjacent_nil]. }
  assert (Hlast : ∀ (o : exchange) req sent pre n,
             last (pre ++ EvDo attempt req sent ::
                   match o with
                   | Received resp _ => rate_limit_wait resp
                   | _ => []
                   end) ≠ Some (EvLoop n)).
  { intros o req sent pre n. rewrite last_app.
    destruct o as [| |resp rb]; simpl; try congruence.
    unfold rate_limit_wait.
    destruct (Response.StatusCode resp =? StatusTooManyRequests);
      simpl; congruence. }
  destruct (0 <? attempt) eqn:Hpos; simpl.
  - split.
    + apply adjacent_cons.
      * intros n [= <-] _. rewrite backoff_at_delay by lia. reflexivity.
      * destruct (NewRequest_error _ _); [apply adjacent_singleton|].
        apply adjacent_cons; [intros n [=]|]. apply Htriv, Hpost.
    + intros n. destruct (NewRequest_error _ _); [discriminate|].
      intros Hl. exfalso.
      apply (Hlast _ _ _ [EvLoop attempt; EvSleep (backoff_at attempt)] n Hl).
  - split.
    + destruct (NewRequest_error _ _); [apply adjacent_singleton|].
      apply adjacent_cons; [intros n [= <-]; lia|]. apply Htriv, Hpost.
    + intros n. destruct (NewRequest_error _ _).
      * intros [= <-]. lia.
      * intros Hl. exfalso. apply (Hlast _ _ _ [EvLoop attempt] n Hl).
Qed.

Lemma loop_backoff_wait c method endpoint attempt backoff lastErr body :
  0 ≤ attempt → backoff = backoff_at attempt →
  adjacent (backoff_wait delay)
    (loop c method endpoint attempt backoff lastErr body).2
  ∧ ∀ n, last (loop c method endpoint attempt backoff lastErr body).2
         = Some (EvLoop n) → n ≤ 0.
Proof.
  revert attempt backoff lastErr body.
  apply (loop_induction c method endpoint
           (λ attempt backoff _ _ r,
              0 ≤ attempt → backoff = backoff_at attempt →
              adjacent (backoff_wait delay) r.2
              ∧ ∀ n, last r.2 = Some (EvLoop n) → n ≤ 0)).
  - intros attempt backoff lastErr body _ _ _. simpl.
    split; [apply adjacent_nil|discriminate].
  - intros attempt backoff lastErr body res evs _ Hit _ Hb. simpl.
    replace evs with (iteration c method endpoint attempt backoff body).2
      by (rewrite Hit; reflexivity).
    apply iteration_backoff_wait, Hb.
  - intros attempt backoff lastErr body backoff' lastErr' body' evs res evs'
      Hle Hit Hloop IH Hpos Hb. simpl in *.
    destruct (iteration_continue _ _ _ _ _ _ _ _ _ _ Hit)
      as (_ & _ & Hb' & _ & _).
    destruct IH as [IHadj IHlast]; [lia| |].
    { rewrite Hb', Hb. apply next_backoff_at. lia. }
    destruct (iteration_backoff_wait c method endpoint attempt backoff body Hb)
      as [Hadj Hlast].
    rewrite Hit in Hadj, Hlast. simpl in Hadj, Hlast.
    split.
    + apply adjacent_app; [exact Hadj|exact IHadj|].
      intros x y Hx _ n -> Hn. specialize (Hlast n Hx). lia.
    + intros n. rewrite last_app.
      destruct (last evs') as [z|] eqn:Hz.
      * intros [= ->]. apply IHlast. reflexivity.
      * apply Hlast.
Qed.

Lemma loop_sleeps c method endpoint attempt backoff lastErr body :
  0 ≤ attempt → backoff = backoff_at attempt →
  (0 < attempt → NewRequest_error method (baseURL c +:+ endpoint) = None) →
  (∀ n req resp respBody,
      outcome (httpClient c n req) = Received resp respBody →
      Response.StatusCode resp ≠ StatusTooManyRequests) →
  sleeps (loop c method endpoint attempt backoff lastErr body).2
  = omap (λ n, if 0 <? n then Some (delay n) else None)
      (attempts (loop c method endpoint attempt backoff lastErr body).2).
Proof.
  intros Hpos Hb Hcreated Hno429.
  revert attempt backoff lastErr body Hpos Hb Hcreated.
  assert (Hiter : ∀ attempt backoff body,
             0 ≤ attempt → backoff = backoff_at attempt →
             (0 < attempt →
              NewRequest_error method (baseURL c +:+ endpoint) = None) →
             sleeps (iteration c method endpoint attempt backoff body).2
             = omap (λ n, if 0 <? n then Some (delay n) else None)
                 (attempts (iteration c method endpoint attempt backoff body).2)).
  { intros attempt backoff body Hpos -> Hcreated.
    rewrite iteration_events.
    change (sleeps (EvLoop attempt :: ?l)) with (sleeps l).
    change (attempts (EvLoop attempt :: ?l)) with (attempts l).
    rewrite sleeps_app, attempts_app, attempts_waited, sleeps_waited. simpl.
    destruct (NewRequest_error _ _) as [err|] eqn:Hnew.
    - destruct (0 <? attempt) eqn:Hp; [|reflexivity].
      specialize (Hcreated ltac:(lia)). discriminate.
    - cbv zeta.
      set (req := request_sent c method endpoint body).
      change (sleeps (EvDo attempt req ?s :: ?l)) with (sleeps l).
      change (attempts (EvDo attempt req ?s :: ?l)) with (attempt :: attempts l).
      assert (Hpost : ∀ tr,
                 tr = match outcome (httpClient c attempt req) with
                      | Received resp _ => rate_limit_wait resp
                      | _ => []
                      end → tr = []).
      { intros tr ->.
        destruct (outcome (httpClient c attempt req))
          as [| |resp rb] eqn:Ho; try reflexivity.
        unfold rate_limit_wait.
        destruct (Response.StatusCode resp =? StatusTooManyRequests) eqn:Hc;
          [|reflexivity].
        exfalso. apply (Hno429 _ _ _ _ Ho). lia. }
      rewrite (Hpost _ eq_refl). simpl.
      destruct (0 <? attempt) eqn:Hp; simpl; [|reflexivity].
      rewrite backoff_at_delay by lia. reflexivity. }
  apply (loop_induction c method endpoint
           (λ attempt backoff _ _ r,
              0 ≤ attempt → backoff = backoff_at attempt →
              (0 < attempt →
               NewRequest_error method (baseURL c +:+ endpoint) = None) →
              sleeps r.2
              = omap (λ n, if 0 <? n then Some (delay n) else None)
                  (attempts r.2))).
  - intros. reflexivity.
  - intros attempt backoff lastErr body res evs _ Hit Hpos Hb Hcreated. simpl.
    replace evs with (iteration c method endpoint attempt backoff body).2
      by (rewrite Hit; reflexivity).
    apply Hiter; assumption.
  - intros attempt backoff lastErr body backoff' lastErr' body' evs res evs'
      Hle Hit Hloop IH Hpos Hb Hcreated. simpl in *.
    destruct (iteration_continue _ _ _ _ _ _ _ _ _ _ Hit)
      as (Hnew & _ & Hb' & _ & _).
    rewrite sleeps_app, attempts_app, omap_app.
    rewrite IH; [|lia| |intros _; exact Hnew].
    2: { rewrite Hb', Hb. apply next_backoff_at. lia. }
    f_equal.
    replace evs with (iteration c method endpoint attempt backoff body).2
      by (rewrite Hit; reflexivity).
    apply Hiter; assumption.
Qed.

(** C7. The sleep at the top of the iteration [n >= 1], the one before the
    overall attempt [n + 1], is [delay n = 1s * 2^(n-1)]: 1, 2 and 4
    seconds before the attempts 2, 3 and 4, each the double of the one
    before.  When no response is a 429 (the retries are driven by server
    errors and transport failures), these are the only sleeps: a run of
    [k] attempts sleeps [delay 1], ..., [delay (k - 1)]. *)
Theorem C7_backoff_schedule c method endpoint body :
  (delay 1 = 1 * Second ∧ delay 2 = 2 * Second ∧ delay 3 = 4 * Second
   ∧ ∀ n, 1 ≤ n → delay (n + 1) = 2 * delay n)
  ∧ (∀ i n, (request c method endpoint body).2 !! i = Some (EvLoop n) →
            0 < n →
            (request c method endpoint body).2 !! S i
            = Some (EvSleep (delay n)))
  ∧ ((∀ n req resp respBody,
         outcome (httpClient c n req) = Received resp respBody →
         Response.StatusCode resp ≠ StatusTooManyRequests) →
     ∃ k, 0 ≤ k ≤ MaxRetries + 1
          ∧ attempts (request c method endpoint body).2 = seqZ 0 k
          ∧ sleeps (request c method endpoint body).2
            = delay <$> seqZ 1 (k - 1)).
Proof.
  split; [|split].
  - repeat split; try reflexivity.
    intros n Hn. unfold delay.
    replace (n + 1 - 1) with (Z.succ (n - 1)) by lia.
    rewrite Z.pow_succ_r by lia. lia.
  - unfold request. intros i n Hi Hn.
    destruct (loop_backoff_wait c method endpoint 0 InitialBackoff None body)
      as [Hadj Hlast]; [lia|reflexivity|].
    set (tr := (loop c method endpoint 0 InitialBackoff None body).2) in *.
    destruct (tr !! S i) as [y|] eqn:Hy.
    + rewrite (Hadj i _ _ Hi Hy n eq_refl Hn). reflexivity.
    + exfalso. specialize (Hlast n).
      rewrite last_lookup in Hlast.
      apply lookup_ge_None in Hy. apply lookup_lt_Some in Hi as Hlt.
      replace (pred (length tr)) with i in Hlast by lia.
      specialize (Hlast Hi). lia.
  - intros Hno429. unfold request.
    destruct (loop_attempts c method endpoint 0 InitialBackoff None body)
      as (k & Hk & Hbound & Hatt); [unfold MaxRetries; lia|].
    exists k. split; [lia|]. split; [exact Hatt|].
    rewrite loop_sleeps; [|lia|reflexivity|lia|exact Hno429].
    rewrite Hatt.
    destruct (decide (k = 0)) as [->|Hk0]; [reflexivity|].
    rewrite (seqZ_cons 0 k) by lia. simpl.
    replace (Z.pred k) with (k - 1) by lia.
    change (Z.succ 0) with 1.
    assert (Hall : Forall (λ n, 0 < n) (seqZ 1 (k - 1))).
    { apply Forall_forall. intros n Hn. apply elem_of_seqZ in Hn. lia. }
    induction Hall as [|n l Hn _ IH]; [reflexivity|].
    simpl. destruct (0 <? n) eqn:Hp; [|lia]. simpl. rewrite IH. reflexivity.
Qed.

(** ** The attempts of a run and their outcomes *)

(** The only attempt among the events of an iteration is its own. *)
Lemma iteration_elem_of_Do c method endpoint attempt backoff body n req sent :
  EvDo n req sent ∈ (iteration c method endpoint attempt backoff body).2 →
  NewRequest_error method (baseURL c +:+ endpoint) = None
  ∧ n = attempt
  ∧ req = request_sent c method endpoint body
  ∧ sent = (read_body body (bodyRead (httpClient c attempt req))).1.
Proof.
  rewrite iteration_events. unfold waited, rate_limit_wait.
  rewrite elem_of_cons, elem_of_app.
  intros [[=]|[Hin|Hin]].
  { destruct (0 <? attempt); [|inversion Hin].
    apply list_elem_of_singleton in Hin. discriminate. }
  destruct (NewRequest_error _ _); [inversion Hin|].
  cbv zeta in Hin. apply elem_of_cons in Hin as [Heq|Hin].
  { injection Heq as -> -> ->. repeat split; reflexivity. }
  destruct (outcome _) as [| |resp rb]; try solve [inversion Hin].
  destruct (Response.StatusCode resp =? StatusTooManyRequests);
    [|inversion Hin].
  apply list_elem_of_singleton in Hin. discriminate.
Qed.

(** An iteration whose request is created makes its attempt. *)
Lemma iteration_makes_attempt c method endpoint attempt backoff body :
  NewRequest_error method (baseURL c +:+ endpoint) = None →
  ∃ sent, EvDo attempt (request_sent c method endpoint body) sent
          ∈ (iteration c method endpoint attempt backoff body).2.
Proof.
  intros Hnew. rewrite iteration_events, Hnew. cbv zeta.
  eexists. rewrite elem_of_cons, elem_of_app. right. right. left.
Qed.

(** After an exchange that is not retried nothing follows the attempt. *)
Lemma iteration_last c method endpoint attempt backoff body :
  NewRequest_error method (baseURL c +:+ endpoint) = None →
  let req := request_sent c method endpoint body in
  let rt := httpClient c attempt req in
  retryable (outcome rt) = false →
  last (iteration c method endpoint attempt backoff body).2
  = Some (EvDo attempt req (read_body body (bodyRead rt)).1).
Proof.
  intros Hnew. cbv zeta. intros Hretry.
  rewrite iteration_events, Hnew. cbv zeta.
  set (req := request_sent c method endpoint body) in *.
  assert (Hpost : match outcome (httpClient c attempt req) with
                  | Received resp _ => rate_limit_wait resp
                  | _ => []
                  end = []).
  { destruct (outcome (httpClient c attempt req)) as [| |resp rb];
      try reflexivity.
    unfold rate_limit_wait.
    destruct (Response.StatusCode resp =? StatusTooManyRequests) eqn:Hc;
      [|reflexivity].
    exfalso. simpl in Hretry.
    unfold is_2xx, IsRetryable, IsRateLimitError in Hretry.
    rewrite classified_StatusCode, Hc in Hretry.
    unfold StatusTooManyRequests in Hc.
    destruct (200 <=? Response.StatusCode resp) eqn:H200;
      destruct (Response.StatusCode resp <? 300) eqn:H300;
      simpl in Hretry; try discriminate; lia. }
  rewrite Hpost.
  change (EvLoop attempt :: ?l ++ [?x]) with ((EvLoop attempt :: l) ++ [x]).
  apply last_snoc.
Qed.

(** The loop entered below the ceiling makes the attempt it is entered
    with. *)
Lemma loop_makes_attempt c method endpoint attempt backoff lastErr body :
  attempt ≤ MaxRetries →
  NewRequest_error method (baseURL c +:+ endpoint) = None →
  ∃ req sent, EvDo attempt req sent
              ∈ (loop c method endpoint attempt backoff lastErr body).2.
Proof.
  intros Hle Hnew. rewrite loop_once.
  destruct (decide (attempt ≤ MaxRetries)); [|lia].
  destruct (iteration_makes_attempt c method endpoint attempt backoff body Hnew)
    as [sent Hin].
  exists (request_sent c method endpoint body), sent.
  destruct (iteration c method endpoint attempt backoff body)
    as [[backoff' lastErr' body'|res] evs]; simpl in *; [|exact Hin].
  destruct (loop c method endpoint (attempt + 1) backoff' lastErr' body').
  simpl. apply elem_of_app. left. exact Hin.
Qed.

Lemma loop_attempt_outcome c method endpoint attempt backoff lastErr body :
  attempt_outcome c attempt
    (loop c method endpoint attempt backoff lastErr body).
Proof.
  revert attempt backoff lastErr body.
  apply (loop_induction c method endpoint
           (λ attempt _ _ _ r, attempt_outcome c attempt r)).
  - intros attempt backoff lastErr body _ n req sent Hin. inversion Hin.
  - intros attempt backoff lastErr body res evs Hle Hit n req sent Hin.
    simpl in Hin.
    assert (Hevs : evs = (iteration c method endpoint attempt backoff body).2)
      by (rewrite Hit; reflexivity).
    rewrite Hevs in Hin.
    destruct (iteration_elem_of_Do _ _ _ _ _ _ _ _ _ Hin)
      as (Hnew & -> & -> & ->).
    destruct (iteration_return _ _ _ _ _ _ _ _ Hit Hnew) as [Hretry ->].
    cbv zeta. simpl fst. simpl snd.
    split; [lia|]. split; [|split]; [|congruence|congruence].
    intros _. split; [reflexivity|]. split.
    + rewrite Hevs. apply iteration_last; assumption.
    + intros n' req' sent' Hin'. rewrite Hevs in Hin'.
      destruct (iteration_elem_of_Do _ _ _ _ _ _ _ _ _ Hin') as (_ & -> & _).
      lia.
  - intros attempt backoff lastErr body backoff' lastErr' body' evs res evs'
      Hle Hit Hloop IH n req sent Hin.
    assert (Hevs : evs = (iteration c method endpoint attempt backoff body).2)
      by (rewrite Hit; reflexivity).
    destruct (iteration_continue _ _ _ _ _ _ _ _ _ _ Hit)
      as (Hnew & Hretry & _ & HlastErr & _).
    simpl in Hin. cbv zeta. simpl fst. simpl snd.
    apply elem_of_app in Hin as [Hin|Hin].
    + rewrite Hevs in Hin.
      destruct (iteration_elem_of_Do _ _ _ _ _ _ _ _ _ Hin)
        as (_ & -> & -> & ->).
      split; [lia|]. split; [congruence|]. split.
      * intros _ Hlt.
        destruct (loop_makes_attempt c method endpoint (attempt + 1)
                    backoff' lastErr' body') as (req' & sent' & Hin');
          [lia|exact Hnew|].
        rewrite Hloop in Hin'. exists req', sent'.
        apply elem_of_app. right. exact Hin'.
      * intros _ ->. rewrite loop_once in Hloop.
        destruct (decide (MaxRetries + 1 ≤ MaxRetries)); [lia|].
        injection Hloop as <- <-. rewrite HlastErr. reflexivity.
    + destruct (IH n req sent Hin) as (Hrange & Hstop & Hnext & Hexh).
      simpl fst in *. simpl snd in *.
      split; [lia|]. split; [|split]; [| |exact Hexh].
      * intros Hno. destruct (Hstop Hno) as (Hres & Hlast & Hmax).
        split; [exact Hres|]. split.
        -- rewrite last_app, Hlast. reflexivity.
        -- intros n' req' sent' Hin'.
           apply elem_of_app in Hin' as [Hin'|Hin'];
             [|eapply Hmax; exact Hin'].
           rewrite Hevs in Hin'.
           destruct (iteration_elem_of_Do _ _ _ _ _ _ _ _ _ Hin')
             as (_ & -> & _).
           lia.
      * intros Hyes Hlt. destruct (Hnext Hyes Hlt) as (req' & sent' & Hin').
        exists req', sent'. apply elem_of_app. right. exact Hin'.
Qed.

(** A run in which every exchange is retried makes all the attempts and
    returns the error of the last one as exhausted. *)
Lemma request_all_retried c method endpoint body :
  NewRequest_error method (baseURL c +:+ endpoint) = None →
  (∀ n req, retryable (outcome (httpClient c n req)) = true) →
  attempts (request c method endpoint body).2 = [0; 1; 2; 3]
  ∧ ∃ req sent,
      EvDo 3 req sent ∈ (request c method endpoint body).2
      ∧ (request c method endpoint body).1
        = inr (exhausted (Some (lastErr_of (outcome (httpClient c 3 req))))).
Proof.
  intros Hnew Hall. unfold request.
  pose proof (loop_attempt_outcome c method endpoint 0 InitialBackoff None body)
    as Hout.
  set (r := loop c method endpoint 0 InitialBackoff None body) in *.
  destruct (loop_makes_attempt c method endpoint 0 InitialBackoff None body)
    as (req0 & sent0 & Hin0); [unfold MaxRetries; lia|exact Hnew|].
  fold r in Hin0.
  destruct (Hout _ _ _ Hin0) as (_ & _ & Hnext0 & _).
  destruct (Hnext0 (Hall _ _)) as (req1 & sent1 & Hin1);
    [unfold MaxRetries; lia|].
  destruct (Hout _ _ _ Hin1) as (_ & _ & Hnext1 & _).
  destruct (Hnext1 (Hall _ _)) as (req2 & sent2 & Hin2);
    [unfold MaxRetries; lia|].
  destruct (Hout _ _ _ Hin2) as (_ & _ & Hnext2 & _).
  destruct (Hnext2 (Hall _ _)) as (req3 & sent3 & Hin3);
    [unfold MaxRetries; lia|].
  destruct (Hout _ _ _ Hin3) as (_ & _ & _ & Hexh).
  split; [|exists req3, sent3; split; [exact Hin3|]].
  - destruct (loop_attempts c method endpoint 0 InitialBackoff None body)
      as (k & Hk & Hbound & Hatt); [unfold MaxRetries; lia|].
    fold r in Hatt.
    assert (H3 : 3 ∈ attempts r.2).
    { apply list_elem_of_omap. eexists. split; [exact Hin3|reflexivity]. }
    rewrite Hatt in H3. apply elem_of_seqZ in H3.
    unfold MaxRetries in Hbound.
    assert (k = 4) as -> by lia. exact Hatt.
  - apply Hexh; [apply Hall|reflexivity].
Qed.

(** ** Success *)

(** C8. An attempt that receives a 2xx response ends the call: the body
    of that response is returned with no error, the attempt is the last
    event of the trace (no delay follows) and no attempt comes after it.
    In particular 500 on the first attempt and 200 on the second gives
    exactly 2 attempts and the body of the second response. *)
Theorem C8_success_short_circuits c method endpoint body :
  (∀ n req sent resp respBody,
      EvDo n req sent ∈ (request c method endpoint body).2 →
      outcome (httpClient c n req) = Received resp respBody →
      200 ≤ Response.StatusCode resp < 300 →
      (request c method endpoint body).1 = inl respBody
      ∧ last (request c method endpoint body).2 = Some (EvDo n req sent)
      ∧ ∀ n' req' sent',
          EvDo n' req' sent' ∈ (request c method endpoint body).2 → n' ≤ n)
  ∧ (NewRequest_error method (baseURL c +:+ endpoint) = None →
     (∀ req, ∃ resp respBody,
         outcome (httpClient c 0 req) = Received resp respBody
         ∧ Response.StatusCode resp = 500) →
     ∀ okBody,
       (∀ req, ∃ resp,
           outcome (httpClient c 1 req) = Received resp okBody
           ∧ Response.StatusCode resp = 200) →
       (request c method endpoint body).1 = inl okBody
       ∧ attempts (request c method endpoint body).2 = [0; 1]
       ∧ sleeps (request c method endpoint body).2 = [1 * Second]).
Proof.
  split.
  - intros n req sent resp respBody Hin Ho Hcode.
    destruct (loop_attempt_outcome c method endpoint 0 InitialBackoff None
                body n req sent Hin) as (_ & Hstop & _).
    assert (H2xx : is_2xx resp = true).
    { unfold is_2xx.
      destruct (200 <=? Response.StatusCode resp) eqn:H200; [|lia].
      destruct (Response.StatusCode resp <? 300) eqn:H300; [|lia].
      reflexivity. }
    rewrite Ho in Hstop. simpl in Hstop. rewrite H2xx in Hstop.
    apply Hstop. reflexivity.
  - intros Hnew H0 okBody H1. unfold request.
    destruct (H0 (request_sent c method endpoint body))
      as (resp0 & rb0 & Ho0 & Hc0).
    rewrite loop_once.
    destruct (decide (0 ≤ MaxRetries)) as [_|Hn]; [|unfold MaxRetries in Hn; lia].
    rewrite (iteration_server_error _ _ _ _ _ _ Hnew _ _ Ho0) by lia.
    set (body1 := (read_body body _).2).
    destruct (H1 (request_sent c method endpoint body1))
      as (resp1 & Ho1 & Hc1).
    rewrite loop_once.
    destruct (decide (0 + 1 ≤ MaxRetries)) as [_|Hn];
      [|unfold MaxRetries in Hn; lia].
    rewrite (iteration_success _ _ _ _ _ _ Hnew _ _ Ho1)
      by (unfold is_2xx; rewrite Hc1; reflexivity).
    repeat split; reflexivity.
Qed.

(** ** Errors that are not retried *)

Lemma not_retried_status_retryable resp respBody :
  not_retried_status (Response.StatusCode resp) →
  is_2xx resp = false ∧ IsRetryable (classified resp respBody) = false.
Proof.
  unfold not_retried_status, is_2xx, IsRetryable, IsRateLimitError,
    IsServerError, StatusTooManyRequests.
  rewrite classified_StatusCode. intros (Hout & H429 & H5xx).
  destruct (200 <=? Response.StatusCode resp) eqn:H200;
    destruct (Response.StatusCode resp <? 300) eqn:H300;
    destruct (Response.StatusCode resp =? 429) eqn:Hc;
    destruct (500 <=? Response.StatusCode resp) eqn:H500;
    destruct (Response.StatusCode resp <? 600) eqn:H600;
    simpl; split; try reflexivity; lia.
Qed.

Lemma retryable_kinds o :
  retryable o = true ↔
  match o with
  | DoFailed _ | ReadFailed _ _ => True
  | Received resp _ =>
      Response.StatusCode resp = 429 ∨ 500 ≤ Response.StatusCode resp < 600
  end.
Proof.
  destruct o as [err|resp err|resp respBody]; simpl; [tauto|tauto|].
  unfold is_2xx, IsRetryable, IsRateLimitError, IsServerError,
    StatusTooManyRequests.
  rewrite classified_StatusCode.
  destruct (200 <=? Response.StatusCode resp) eqn:H200;
    destruct (Response.StatusCode resp <? 300) eqn:H300;
    destruct (Response.StatusCode resp =? 429) eqn:Hc;
    destruct (500 <=? Response.StatusCode resp) eqn:H500;
    destruct (Response.StatusCode resp <? 600) eqn:H600;
    simpl; split; intros H; try reflexivity; try discriminate; lia.
Qed.

(** C6. A response of a kind that is not retried (401, 400, 404, and any
    status outside 2xx other than 429 and 5xx) ends the call: its error is
    returned, the attempt is the last event of the trace (no sleep, no
    further attempt), and when it answers the first attempt the trace is
    that one attempt.  Another attempt follows an attempt exactly when
    the ceiling allows one and the exchange was a transport failure or a
    response whose error [IsRetryable] (429 or 5xx). *)
Theorem C6_no_retry c method endpoint body :
  (not_retried_status 401 ∧ not_retried_status 400 ∧ not_retried_status 404)
  ∧ (∀ n req sent resp respBody,
        EvDo n req sent ∈ (request c method endpoint body).2 →
        outcome (httpClient c n req) = Received resp respBody →
        not_retried_status (Response.StatusCode resp) →
        IsRetryable (classified resp respBody) = false
        ∧ (request c method endpoint body).1
          = inr (EYNAB (classified resp respBody))
        ∧ last (request c method endpoint body).2 = Some (EvDo n req sent)
        ∧ ∀ n' req' sent',
            EvDo n' req' sent' ∈ (request c method endpoint body).2 → n' ≤ n)
  ∧ (NewRequest_error method (baseURL c +:+ endpoint) = None →
     ∀ resp respBody,
       let req := request_sent c method endpoint body in
       outcome (httpClient c 0 req) = Received resp respBody →
       not_retried_status (Response.StatusCode resp) →
       request c method endpoint body
       = (inr (EYNAB (classified resp respBody)),
          [EvLoop 0;
           EvDo 0 req (read_body body (bodyRead (httpClient c 0 req))).1]))
  ∧ (∀ n req sent,
        EvDo n req sent ∈ (request c method endpoint body).2 →
        (∃ req' sent',
            EvDo (n + 1) req' sent' ∈ (request c method endpoint body).2)
        ↔ n < MaxRetries ∧ retryable (outcome (httpClient c n req)) = true)
  ∧ (∀ o, retryable o = true ↔
          match o with
          | DoFailed _ | ReadFailed _ _ => True
          | Received resp _ =>
              Response.StatusCode resp = 429
              ∨ 500 ≤ Response.StatusCode resp < 600
          end).
Proof.
  split; [|split; [|split; [|split]]].
  - unfold not_retried_status. lia.
  - intros n req sent resp respBody Hin Ho Hcode.
    destruct (not_retried_status_retryable resp respBody Hcode)
      as [H2xx Hretry].
    split; [exact Hretry|].
    destruct (loop_attempt_outcome c method endpoint 0 InitialBackoff None
                body n req sent Hin) as (_ & Hstop & _).
    rewrite Ho in Hstop. simpl in Hstop. rewrite H2xx, Hretry in Hstop.
    apply Hstop. reflexivity.
  - intros Hnew resp respBody req Ho Hcode.
    destruct (not_retried_status_retryable resp respBody Hcode)
      as [H2xx Hretry].
    unfold request. rewrite loop_once.
    destruct (decide (0 ≤ MaxRetries)) as [_|Hn];
      [|unfold MaxRetries in Hn; lia].
    rewrite (iteration_not_retryable _ _ _ _ _ _ Hnew _ _ Ho H2xx Hretry).
    reflexivity.
  - intros n req sent Hin.
    destruct (loop_attempt_outcome c method endpoint 0 InitialBackoff None
                body n req sent Hin) as (Hrange & Hstop & Hnext & _).
    split.
    + intros (req' & sent' & Hin').
      destruct (loop_attempt_outcome c method endpoint 0 InitialBackoff None
                  body _ req' sent' Hin') as (Hrange' & _).
      split; [lia|].
      destruct (retryable (outcome (httpClient c n req))) eqn:Hr;
        [reflexivity|].
      destruct (Hstop eq_refl) as (_ & _ & Hmax).
      specialize (Hmax _ _ _ Hin'). lia.
    + intros [Hlt Hr]. apply Hnext; assumption.
  - apply retryable_kinds.
Qed.

(** ** Responses whose body cannot be read *)

(** C10. An attempt whose response arrives but whose body cannot be read
    records the error "failed to read response", consumes the attempt and
    continues the loop, whatever the status code of the response: nothing
    of the response is looked at, and nothing is slept after the attempt.
    The next attempt follows if the ceiling allows one; if the last
    attempt fails so, and hence if every attempt does, the caller gets
    that read failure wrapped as "request failed after 3 retries". *)
Theorem C10_unreadable_body_retried c method endpoint body :
  (NewRequest_error method (baseURL c +:+ endpoint) = None →
   ∀ attempt backoff body resp err,
     let req := request_sent c method endpoint body in
     let rt := httpClient c attempt req in
     outcome rt = ReadFailed resp err →
     iteration c method endpoint attempt backoff body
     = (Continue (next_backoff attempt backoff)
          (Some (EWrap "failed to read response: " err))
          (read_body body (bodyRead rt)).2,
        EvLoop attempt :: waited attempt backoff
          ++ [EvDo attempt req (read_body body (bodyRead rt)).1]))
  ∧ (∀ n req sent resp err,
        EvDo n req sent ∈ (request c method endpoint body).2 →
        outcome (httpClient c n req) = ReadFailed resp err →
        (n < MaxRetries →
         ∃ req' sent',
           EvDo (n + 1) req' sent' ∈ (request c method endpoint body).2)
        ∧ (n = MaxRetries →
           (request c method endpoint body).1
           = inr (EWrap "request failed after 3 retries: "
                    (EWrap "failed to read response: " err))))
  ∧ (NewRequest_error method (baseURL c +:+ endpoint) = None →
     (∀ n req, ∃ resp err,
         outcome (httpClient c n req) = ReadFailed resp err) →
     attempts (request c method endpoint body).2 = [0; 1; 2; 3]
     ∧ sleeps (request c method endpoint body).2
       = [1 * Second; 2 * Second; 4 * Second]
     ∧ ∃ req sent resp err,
         EvDo 3 req sent ∈ (request c method endpoint body).2
         ∧ outcome (httpClient c 3 req) = ReadFailed resp err
         ∧ (request c method endpoint body).1
           = inr (EWrap "request failed after 3 retries: "
                    (EWrap "failed to read response: " err))).
Proof.
  split; [|split].
  - intros Hnew attempt backoff body0 resp err req rt Ho.
    apply (iteration_read_failed _ _ _ _ _ _ Hnew _ _ Ho).
  - intros n req sent resp err Hin Ho.
    destruct (loop_attempt_outcome c method endpoint 0 InitialBackoff None
                body n req sent Hin) as (_ & _ & Hnext & Hexh).
    rewrite Ho in Hnext, Hexh. simpl in Hnext, Hexh.
    split; [apply Hnext; reflexivity|apply Hexh; reflexivity].
  - intros Hnew Hall.
    destruct (request_all_retried c method endpoint body Hnew)
      as (Hatt & req & sent & Hin & Hres).
    { intros n req. destruct (Hall n req) as (resp & err & ->). reflexivity. }
    split; [exact Hatt|]. split.
    + unfold request in *.
      rewrite loop_sleeps, Hatt; [reflexivity|lia|reflexivity|lia|].
      intros n req' resp respBody Ho.
      destruct (Hall n req') as (resp' & err & Ho'). congruence.
    + destruct (Hall 3 req) as (resp & err & Ho).
      exists req, sent, resp, err. split; [exact Hin|]. split; [exact Ho|].
      rewrite Hres, Ho. reflexivity.
Qed.

(** ** The body reader *)

Lemma substring_whole s n :
  (String.length s ≤ n)%nat → String.substring 0 n s = s.
Proof.
  revert n. induction s as [|ch s IH]; intros [|n] Hlen; simpl in *;
    try reflexivity; try lia.
  rewrite IH by lia. reflexivity.
Qed.

Lemma substring_nothing s n : String.substring n 0 s = "".
Proof.
  revert n. induction s as [|ch s IH]; intros [|n]; simpl;
    try reflexivity. apply IH.
Qed.

(** A transport that reads the whole body leaves the reader empty. *)
Lemma read_body_whole s n :
  (String.length s ≤ n)%nat → read_body (Some s) n = (s, Some "").
Proof.
  intros Hlen. unfold read_body.
  rewrite substring_whole by exact Hlen.
  replace (String.length s - n)%nat with 0%nat by lia.
  rewrite substring_nothing. reflexivity.
Qed.

Lemma loop_reader_threaded c method endpoint attempt backoff lastErr body :
  reader_threaded c body attempt
    (loop c method endpoint attempt backoff lastErr body).2.
Proof.
  revert attempt backoff lastErr body.
  apply (loop_induction c method endpoint
           (λ attempt _ _ body r, reader_threaded c body attempt r.2)).
  - intros attempt backoff lastErr body _ n req sent Hin. inversion Hin.
  - intros attempt backoff lastErr body res evs _ Hit n req sent Hin.
    simpl in Hin.
    assert (Hevs : evs = (iteration c method endpoint attempt backoff body).2)
      by (rewrite Hit; reflexivity).
    rewrite Hevs in Hin.
    destruct (iteration_elem_of_Do _ _ _ _ _ _ _ _ _ Hin)
      as (_ & -> & -> & ->).
    cbv zeta. split; [reflexivity|]. split; [reflexivity|].
    intros req' sent' Hin'. simpl in Hin'. rewrite Hevs in Hin'.
    destruct (iteration_elem_of_Do _ _ _ _ _ _ _ _ _ Hin') as (_ & Heq & _).
    lia.
  - intros attempt backoff lastErr body backoff' lastErr' body' evs res evs'
      _ Hit Hloop IH n req sent Hin.
    assert (Hevs : evs = (iteration c method endpoint attempt backoff body).2)
      by (rewrite Hit; reflexivity).
    destruct (iteration_continue _ _ _ _ _ _ _ _ _ _ Hit)
      as (_ & _ & _ & _ & Hbody').
    pose proof (loop_attempt_outcome c method endpoint (attempt + 1)
                  backoff' lastErr' body') as Hout.
    rewrite Hloop in Hout. simpl in Hin, IH. cbv zeta.
    apply elem_of_app in Hin as [Hin|Hin].
    + rewrite Hevs in Hin.
      destruct (iteration_elem_of_Do _ _ _ _ _ _ _ _ _ Hin)
        as (_ & -> & -> & ->).
      split; [reflexivity|]. split; [reflexivity|].
      intros req' sent' Hin'. simpl in Hin'.
      apply elem_of_app in Hin' as [Hin'|Hin'].
      * rewrite Hevs in Hin'.
        destruct (iteration_elem_of_Do _ _ _ _ _ _ _ _ _ Hin')
          as (_ & Heq & _).
        lia.
      * destruct (IH _ _ _ Hin') as (_ & Hfirst & _).
        rewrite (Hfirst eq_refl), Hbody'. reflexivity.
    + destruct (IH _ _ _ Hin) as (Hsent & _ & Hnext).
      destruct (Hout _ _ _ Hin) as (Hrange & _).
      split; [exact Hsent|]. split; [intros ->; lia|].
      intros req' sent' Hin'. simpl in Hin'.
      apply elem_of_app in Hin' as [Hin'|Hin'].
      * rewrite Hevs in Hin'.
        destruct (iteration_elem_of_Do _ _ _ _ _ _ _ _ _ Hin')
          as (_ & Heq & _).
        lia.
      * apply (Hnext req' sent'). exact Hin'.
Qed.

(** Once the reader is empty, every attempt sends an empty body. *)
Lemma loop_reader_drained c method endpoint attempt backoff lastErr n req sent :
  EvDo n req sent
    ∈ (loop c method endpoint attempt backoff lastErr (Some "")).2 →
  sent = "" ∧ Request.Body req = Some "".
Proof.
  revert attempt backoff lastErr.
  assert (Hgen : ∀ attempt backoff lastErr body,
             body = Some "" →
             EvDo n req sent
               ∈ (loop c method endpoint attempt backoff lastErr body).2 →
             sent = "" ∧ Request.Body req = Some "");
    [|intros; eapply Hgen; [reflexivity|eassumption]].
  apply (loop_induction c method endpoint
           (λ _ _ _ body r,
              body = Some "" → EvDo n req sent ∈ r.2 →
              sent = "" ∧ Request.Body req = Some "")).
  - intros attempt backoff lastErr body _ _ Hin. inversion Hin.
  - intros attempt backoff lastErr body res evs _ Hit -> Hin. simpl in Hin.
    replace evs with (iteration c method endpoint attempt backoff (Some "")).2
      in Hin by (rewrite Hit; reflexivity).
    destruct (iteration_elem_of_Do _ _ _ _ _ _ _ _ _ Hin)
      as (_ & -> & -> & ->).
    rewrite read_body_whole by (simpl; lia). split; reflexivity.
  - intros attempt backoff lastErr body backoff' lastErr' body' evs res evs'
      _ Hit _ IH -> Hin. simpl in Hin, IH.
    apply elem_of_app in Hin as [Hin|Hin].
    + replace evs with (iteration c method endpoint attempt backoff (Some "")).2
        in Hin by (rewrite Hit; reflexivity).
      destruct (iteration_elem_of_Do _ _ _ _ _ _ _ _ _ Hin)
        as (_ & -> & -> & ->).
      rewrite read_body_whole by (simpl; lia). split; reflexivity.
    + apply IH; [|exact Hin].
      destruct (iteration_continue _ _ _ _ _ _ _ _ _ _ Hit)
        as (_ & _ & _ & _ & ->).
      rewrite read_body_whole by (simpl; lia). reflexivity.
Qed.

(** C9. Every attempt is handed the same body reader, never reset: the
    first attempt has the reader the caller passed, each later attempt has
    it as the transport of the attempt before left it, and an attempt
    sends what its transport reads from it.  So when the first attempt of
    a call with a non-empty body reads the whole body and is retried, a
    second attempt is made, and the second and every later attempt send
    an empty body, not the bytes of the first. *)
Theorem C9_body_reader_not_reset c method endpoint body :
  reader_threaded c body 0 (request c method endpoint body).2
  ∧ ∀ s,
      body = Some s → s ≠ "" →
      NewRequest_error method (baseURL c +:+ endpoint) = None →
      let rt := httpClient c 0 (request_sent c method endpoint body) in
      retryable (outcome rt) = true →
      (String.length s ≤ bodyRead rt)%nat →
      (∃ req sent, EvDo 1 req sent ∈ (request c method endpoint body).2)
      ∧ ∀ n req sent,
          EvDo n req sent ∈ (request c method endpoint body).2 →
          (n = 0 → sent = s) ∧ (n ≠ 0 → sent = "" ∧ sent ≠ s).
Proof.
  split; [apply loop_reader_threaded|].
  intros s -> Hs Hnew rt Hretry Hread. unfold request.
  pose proof (loop_once c method endpoint 0 InitialBackoff None (Some s))
    as Hloop.
  destruct (decide (0 ≤ MaxRetries)) as [_|Hn];
    [|unfold MaxRetries in Hn; lia].
  rewrite (iteration_created _ _ _ _ _ _ Hnew) in Hloop. cbv zeta in Hloop.
  fold rt in Hloop. rewrite Hretry, (read_body_whole _ _ Hread) in Hloop.
  cbn [fst snd] in Hloop.
  set (next := loop c method endpoint (0 + 1) _ _ (Some "")) in Hloop.
  pose proof (loop_makes_attempt c method endpoint (0 + 1)
                (next_backoff 0 InitialBackoff)
                (Some (lastErr_of (outcome rt))) (Some "")) as Hsecond.
  pose proof (loop_reader_drained c method endpoint (0 + 1)
                (next_backoff 0 InitialBackoff)
                (Some (lastErr_of (outcome rt)))) as Hdrained.
  fold next in Hsecond, Hdrained.
  pose proof (loop_attempt_outcome c method endpoint (0 + 1)
                (next_backoff 0 InitialBackoff)
                (Some (lastErr_of (outcome rt))) (Some "")) as Hout.
  fold next in Hout.
  destruct next as [res evs']. rewrite Hloop. cbn [fst snd] in *.
  split.
  - destruct Hsecond as (req & sent & Hin);
      [unfold MaxRetries; lia|exact Hnew|].
    exists req, sent. apply elem_of_app. right. exact Hin.
  - intros n req sent Hin.
    apply elem_of_app in Hin as [Hin|Hin].
    + assert (Hn : n = 0 ∧ sent = s).
      { apply elem_of_cons in Hin as [[=]|Hin].
        apply elem_of_app in Hin as [Hin|Hin]; [inversion Hin|].
        apply elem_of_cons in Hin as [[= -> -> ->]|Hin];
          [split; reflexivity|].
        exfalso. destruct (outcome rt) as [| |resp rb];
          try solve [inversion Hin].
        unfold rate_limit_wait in Hin.
        destruct (Response.StatusCode resp =? StatusTooManyRequests);
          [|inversion Hin].
        apply list_elem_of_singleton in Hin. discriminate. }
      destruct Hn as [-> ->]. split; [reflexivity|intros H; lia].
    + destruct (Hdrained _ _ _ Hin) as [-> _].
      destruct (Hout _ _ _ Hin) as (Hrange & _).
      split; [intros ->; lia|]. intros _. split; [reflexivity|].
      intros <-. apply Hs. reflexivity.
Qed.

(** ** The error envelope *)

Lemma ynabErr_of_envelope resp respBody :
  StatusCode (ynabErr_of resp respBody) = Response.StatusCode resp
  ∧ envelope_rule (json_Unmarshal respBody) (Response.Status resp)
      (ynabErr_of resp respBody).
Proof.
  unfold ynabErr_of, envelope_rule.
  destruct (json_Unmarshal respBody) as [r|].
  - destruct (String.eqb_spec (errorResp.Name (errorResp.Error r)) "")
      as [Hname|Hname]; simpl.
    + split; [reflexivity|]. split.
      * intros r' [= <-] Hne. contradiction.
      * intros _. repeat split; reflexivity.
    + split; [reflexivity|]. split.
      * intros r' [= <-] _. repeat split; reflexivity.
      * intros [[=]|(r' & [= <-] & Hempty)]. contradiction.
  - simpl. split; [reflexivity|]. split.
    + intros r [=].
    + intros _. repeat split; reflexivity.
Qed.

(** C4, as the code has it.  The error [request] makes of a response
    outside 2xx has the status code of the response.  When the status is
    neither 429 nor 401 it follows the rule of the envelope: name,
    identifier and detail of the envelope when the body decodes to one
    with a non-empty name, and otherwise the message
    "HTTP request failed: " followed by the status line, with an empty
    identifier and detail.  A 401 gives the fixed authentication error and
    a 429 the rate-limit error of the wait, whatever the body.  That error
    is the one [request] returns at once, or records for the retry when it
    [IsRetryable] (429 and 5xx): in a run it is the one returned when the
    response is not retried, and the one returned wrapped as exhausted
    when a response that is retried answers the last attempt. *)
Theorem C4_error_envelope c method endpoint body resp respBody :
  (Response.StatusCode resp < 200 ∨ 300 ≤ Response.StatusCode resp) →
  let e := classified resp respBody in
  StatusCode e = Response.StatusCode resp
  ∧ (Response.StatusCode resp ≠ 429 → Response.StatusCode resp ≠ 401 →
     e = ynabErr_of resp respBody
     ∧ envelope_rule (json_Unmarshal respBody) (Response.Status resp) e)
  ∧ (Response.StatusCode resp = 401 → e = NewAuthError)
  ∧ (Response.StatusCode resp = 429 →
     e = NewRateLimitError (retryAfter_of resp))
  ∧ (IsRetryable e = true ↔
     Response.StatusCode resp = 429 ∨ 500 ≤ Response.StatusCode resp < 600)
  ∧ (∀ backoff body,
        handle_response backoff body resp respBody =
        (if IsRetryable e
         then Continue backoff (Some (EYNAB e)) body
         else Return (inr (EYNAB e)),
         rate_limit_wait resp))
  ∧ (∀ n req sent,
        EvDo n req sent ∈ (request c method endpoint body).2 →
        outcome (httpClient c n req) = Received resp respBody →
        (IsRetryable e = false →
         (request c method endpoint body).1 = inr (EYNAB e))
        ∧ (IsRetryable e = true → n = MaxRetries →
           (request c method endpoint body).1
           = inr (EWrap "request failed after 3 retries: " (EYNAB e)))).
Proof.
  intros Hout e.
  pose proof (classified_StatusCode resp respBody) as Hcode. fold e in Hcode.
  assert (H2xx : is_2xx resp = false).
  { unfold is_2xx.
    destruct (200 <=? Response.StatusCode resp) eqn:H200;
      destruct (Response.StatusCode resp <? 300) eqn:H300;
      try reflexivity; lia. }
  split; [exact Hcode|]. split; [|split; [|split; [|split; [|split]]]].
  - intros H429 H401.
    assert (Hcl : e = ynabErr_of resp respBody).
    { unfold e, classified, StatusTooManyRequests, StatusUnauthorized.
      destruct (Response.StatusCode resp =? 429) eqn:E1; [lia|].
      destruct (Response.StatusCode resp =? 401) eqn:E2; [lia|].
      reflexivity. }
    split; [exact Hcl|]. rewrite Hcl.
    apply ynabErr_of_envelope.
  - intros H401. unfold e, classified, StatusTooManyRequests,
      StatusUnauthorized.
    rewrite H401. reflexivity.
  - intros H429. unfold e, classified, StatusTooManyRequests.
    rewrite H429. reflexivity.
  - unfold IsRetryable, IsRateLimitError, IsServerError,
      StatusTooManyRequests.
    rewrite Hcode, orb_true_iff, andb_true_iff, Z.eqb_eq, Z.leb_le, Z.ltb_lt.
    reflexivity.
  - intros backoff body0.
    rewrite (surjective_pairing (handle_response backoff body0 resp respBody)).
    rewrite handle_response_control, handle_response_events, H2xx.
    fold e. destruct (IsRetryable e); reflexivity.
  - intros n req sent Hin Ho.
    destruct (loop_attempt_outcome c method endpoint 0 InitialBackoff None
                body n req sent Hin) as (_ & Hstop & _ & Hexh).
    rewrite Ho in Hstop, Hexh. simpl in Hstop, Hexh.
    rewrite H2xx in Hstop, Hexh. simpl in Hstop, Hexh.
    fold e in Hstop, Hexh.
    split.
    + intros Hs. apply Hstop. exact Hs.
    + intros Hs Hn. apply Hexh; assumption.
Qed.

(** ** The retry bound *)

(** C5. A server that returns 500 on every attempt is tried exactly
    [MaxRetries + 1 = 4] times, the waits between the attempts are 1, 2 and
    4 seconds (7 in total), and the caller gets the error of the last
    response wrapped as "request failed after 3 retries".  In every
    execution the attempts are numbered 0, 1, 2, ... without gaps or
    repetitions, and there are at most [MaxRetries + 1] of them. *)
Theorem C5_retry_bound c method endpoint body :
  (∃ k, 0 ≤ k ≤ MaxRetries + 1 ∧
        attempts (request c method endpoint body).2 = seqZ 0 k)
  ∧ (NewRequest_error method (baseURL c +:+ endpoint) = None →
     (∀ n req, ∃ resp respBody,
         outcome (httpClient c n req) = Received resp respBody
         ∧ Response.StatusCode resp = 500) →
     attempts (request c method endpoint body).2 = [0; 1; 2; 3]
     ∧ Z.of_nat (length (attempts (request c method endpoint body).2))
       = MaxRetries + 1
     ∧ sleeps (request c method endpoint body).2
       = [1 * Second; 2 * Second; 4 * Second]
     ∧ slept (request c method endpoint body).2 = (1 + 2 + 4) * Second
     ∧ ∃ req sent resp respBody,
         last (request c method endpoint body).2 = Some (EvDo 3 req sent)
         ∧ outcome (httpClient c 3 req) = Received resp respBody
         ∧ (request c method endpoint body).1
           = inr (EWrap "request failed after 3 retries: "
                    (EYNAB (ynabErr_of resp respBody)))).
Proof.
  split.
  { destruct (loop_attempts c method endpoint 0 InitialBackoff None body)
      as (k & Hk & Hbound & Hatt); [unfold MaxRetries; lia|].
    exists k. split; [lia|]. exact Hatt. }
  intros Hnew Hsrv. unfold request.
  assert (Hstep : ∀ attempt backoff lastErr body,
             attempt ≤ MaxRetries →
             ∃ req sent resp respBody body',
               outcome (httpClient c attempt req) = Received resp respBody
               ∧ loop c method endpoint attempt backoff lastErr body
                 = let r := loop c method endpoint (attempt + 1)
                              (next_backoff attempt backoff)
                              (Some (EYNAB (ynabErr_of resp respBody)))
                              body' in
                   (r.1, (EvLoop attempt :: waited attempt backoff
                            ++ [EvDo attempt req sent]) ++ r.2)).
  { intros attempt backoff lastErr body0 Hle.
    destruct (Hsrv attempt (request_sent c method endpoint body0))
      as (resp & respBody & Ho & Hcode).
    set (req := request_sent c method endpoint body0) in *.
    exists req, (read_body body0 (bodyRead (httpClient c attempt req))).1,
      resp, respBody,
      (read_body body0 (bodyRead (httpClient c attempt req))).2.
    split; [exact Ho|].
    rewrite loop_once. destruct (decide (attempt ≤ MaxRetries)); [|lia].
    rewrite (iteration_server_error _ _ _ _ _ _ Hnew _ _ Ho) by lia.
    cbv zeta. destruct (loop _ _ _ _ _ _ _). reflexivity. }
  destruct (Hstep 0 InitialBackoff None body)
    as (req0 & sent0 & resp0 & rb0 & body0 & _ & ->); [unfold MaxRetries; lia|].
  destruct (Hstep (0 + 1) (next_backoff 0 InitialBackoff)
              (Some (EYNAB (ynabErr_of resp0 rb0))) body0)
    as (req1 & sent1 & resp1 & rb1 & body1 & _ & ->); [unfold MaxRetries; lia|].
  destruct (Hstep (0 + 1 + 1) (next_backoff (0 + 1) (next_backoff 0 InitialBackoff))
              (Some (EYNAB (ynabErr_of resp1 rb1))) body1)
    as (req2 & sent2 & resp2 & rb2 & body2 & _ & ->); [unfold MaxRetries; lia|].
  destruct (Hstep (0 + 1 + 1 + 1)
              (next_backoff (0 + 1 + 1)
                 (next_backoff (0 + 1) (next_backoff 0 InitialBackoff)))
              (Some (EYNAB (ynabErr_of resp2 rb2))) body2)
    as (req3 & sent3 & resp3 & rb3 & body3 & Ho3 & ->); [unfold MaxRetries; lia|].
  rewrite loop_once.
  destruct (decide (0 + 1 + 1 + 1 + 1 ≤ MaxRetries)) as [Hle|_];
    [unfold MaxRetries in Hle; lia|].
  cbv zeta. simpl fst. simpl snd.
  repeat split; try reflexivity.
  exists req3, sent3, resp3, rb3. repeat split; try reflexivity.
  exact Ho3.
Qed.

(** ** The rate-limit wait *)

(** The wait of a 429 is the value [strconv.Atoi] reads in the header, of
    either sign, and 60 when there is no header or [Atoi] fails. *)
Lemma retryAfter_of_header resp :
  retryAfter_of resp =
  match Atoi (Header_Get (Response.Header resp) "Retry-After") with
  | Some val => val
  | None => 60
  end.
Proof.
  unfold retryAfter_of.
  destruct (String.eqb_spec (Header_Get (Response.Header resp) "Retry-After") "")
    as [Hempty|Hsome]; [rewrite Hempty|]; reflexivity.
Qed.

(** A 429 on the first attempt and a success on the second: the executor
    sleeps the rate-limit wait and then the initial backoff. *)
Lemma rate_limited_then_success c method endpoint body resp0 body0 resp1 body1 :
  NewRequest_error method (baseURL c +:+ endpoint) = None →
  outcome (httpClient c 0 (request_sent c method endpoint body))
  = Received resp0 body0 →
  Response.StatusCode resp0 = 429 →
  (∀ req, outcome (httpClient c 1 req) = Received resp1 body1) →
  is_2xx resp1 = true →
  (request c method endpoint body).1 = inl body1
  ∧ attempts (request c method endpoint body).2 = [0; 1]
  ∧ sleeps (request c method endpoint body).2
    = [wrap64 (retryAfter_of resp0 * Second); InitialBackoff].
Proof.
  intros Hnew Ho0 Hc0 Ho1 H2xx. unfold request.
  rewrite loop_once.
  destruct (decide (0 ≤ MaxRetries)) as [_|Hn]; [|unfold MaxRetries in Hn; lia].
  rewrite (iteration_rate_limited _ _ _ _ _ _ Hnew _ _ Ho0 Hc0).
  rewrite loop_once.
  destruct (decide (0 + 1 ≤ MaxRetries)) as [_|Hn];
    [|unfold MaxRetries in Hn; lia].
  rewrite (iteration_success _ _ _ _ _ _ Hnew _ _ (Ho1 _) H2xx).
  repeat split; reflexivity.
Qed.

End properties.

(** ** The theorems at the inputs of the tests *)

Example Unmarshal_examples :
  json_decode.Unmarshal bad_request_envelope
  = Some (errorResp.mk (errorResp.mkError "e1" "Bad Request" "missing field"))
  ∧ json_decode.Unmarshal "invalid json" = None
  ∧ json_decode.Unmarshal (json_text "{'error': {}}") = Some errorResp.zero
  ∧ json_decode.Unmarshal (json_text "{'Error': {'NAME': 'x', 'id': null}}")
    = Some (errorResp.mk (errorResp.mkError "" "x" ""))
  ∧ json_decode.Unmarshal (json_text "{'error': {'name': 'x', 'id': 5}}") = None
  ∧ json_decode.Unmarshal (json_text "{'error': {'name': 'x'}} x") = None
  ∧ json_decode.Unmarshal (json_text "{'data': [1, -2.5e3, true, {'a': null}]}")
    = Some errorResp.zero
  ∧ json_decode.Unmarshal "null" = Some errorResp.zero
  ∧ json_decode.Unmarshal "[]" = None.
Proof. repeat split; vm_compute; reflexivity. Qed.

(** C5 at the server of [TestClient_MaxRetriesExhausted]. *)
Lemma C5_retry_bound_witness :
  attempts (std_request always_500 "GET" "/budgets" None).2 = [0; 1; 2; 3]
  ∧ slept (std_request always_500 "GET" "/budgets" None).2 = 7 * Second
  ∧ (std_request always_500 "GET" "/budgets" None).1
    = inr (EWrap "request failed after 3 retries: "
             (EYNAB {| Message := "Internal Server Error";
                       StatusCode := 500;
                       ErrorID := "500";
                       Detail := "Server error" |})).
Proof.
  unfold std_request.
  destruct (C5_retry_bound json_decode.Unmarshal accepted always_500
              "GET" "/budgets" None) as [_ H].
  destruct H as (Hatt & _ & _ & Hslept & req & sent & resp & rb & _ & Ho & Hres).
  - reflexivity.
  - intros n req. eexists _, _. split; reflexivity.
  - split; [exact Hatt|]. split; [exact Hslept|].
    injection Ho as <- <-. rewrite Hres. vm_compute. reflexivity.
Defined.

(** The event at position [i] of a computed trace. *)
Ltac attempt_at i :=
  apply list_elem_of_lookup; exists i; vm_compute; reflexivity.

(** C2 at the server of [TestClient_RetryAfterHeaderParsing], a 429 with
    [Retry-After: 5] and then a 200: the sleep of 5 seconds is the
    rate-limit wait between the attempt answered by 429 and the start of
    the next iteration, and nothing is slept after the last attempt. *)
Lemma C2_suspension_points_witness :
  wait_before_retry (rate_limited_once "5")
    (EvDo 0 (get_budgets (rate_limited_once "5")) "") (EvLoop 1)
  ∧ last (std_request (rate_limited_once "5") "GET" "/budgets" None).2
    ≠ Some (EvSleep (1 * Second))
  ∧ last (std_request (rate_limited_once "5") "GET" "/budgets" None).2
    ≠ Some (EvSleep (5 * Second)).
Proof.
  unfold std_request.
  destruct (C2_suspension_points json_decode.Unmarshal accepted
              (rate_limited_once "5") "GET" "/budgets" None)
    as (_ & Hsleep & Hfinal).
  split.
  - destruct (Hsleep 1%nat
                (EvDo 0 (get_budgets (rate_limited_once "5")) "")
                (5 * Second) (EvLoop 1)) as [Htop|Hwait].
    + vm_compute. reflexivity.
    + vm_compute. reflexivity.
    + vm_compute. reflexivity.
    + destruct Htop.
    + exact Hwait.
  - assert (Hlast : ∀ d,
               last (request json_decode.Unmarshal accepted
                       (rate_limited_once "5") "GET" "/budgets" None).2
               ≠ Some (EvSleep d)).
    { apply Hfinal. intros n req sent Hin Hmax (resp & respBody & Ho & Hcode).
      assert (Hn : 1 ≤ n).
      { apply (Hmax 1 (get_budgets (rate_limited_once "5")) "").
        attempt_at 5%nat. }
      simpl in Ho. destruct (n =? 0) eqn:Hzero; [lia|].
      injection Ho as <- _. discriminate Hcode. }
    split; apply Hlast.
Defined.

(** C2 as claimed fails for a 429 with [Retry-After: 5] followed by a 200:
    the second and third events of the trace are the first exchange and a
    sleep of 5 seconds, taken inside the handling of that exchange. *)
Lemma C2_counterexample :
  ¬ sleeps_only_at_top_of_loop
      (std_request (rate_limited_once "5") "GET" "/budgets" None).2.
Proof.
  intros (_ & Hadj & _).
  assert (H1 : (std_request (rate_limited_once "5") "GET" "/budgets" None).2
               !! 1%nat
               = Some (EvDo 0 (get_budgets (rate_limited_once "5")) ""))
    by (vm_compute; reflexivity).
  assert (H2 : (std_request (rate_limited_once "5") "GET" "/budgets" None).2
               !! 2%nat
               = Some (EvSleep (5 * Second)))
    by (vm_compute; reflexivity).
  exact (Hadj 1%nat _ _ H1 H2 (ex_intro _ _ eq_refl)).
Qed.

(** C4 at the example of the specification (400 with a well-formed
    envelope), at a 500 with a body that is not JSON, and at a 401 with a
    well-formed envelope. *)
Lemma C4_error_envelope_witness :
  (std_request (answering bad_request bad_request_envelope)
     "GET" "/budgets" None).1
  = inr (EYNAB {| Message := "Bad Request";
                  StatusCode := 400;
                  ErrorID := "e1";
                  Detail := "missing field" |})
  ∧ (std_request (answering server_error "invalid json")
       "GET" "/budgets" None).1
    = inr (EWrap "request failed after 3 retries: "
             (EYNAB {| Message := "HTTP request failed: 500 Internal Server Error";
                       StatusCode := 500;
                       ErrorID := "";
                       Detail := "" |}))
  ∧ (std_request (answering unauthorized unauthorized_envelope)
       "GET" "/budgets" None).1
    = inr (EYNAB NewAuthError).
Proof.
  unfold std_request. split; [|split].
  - destruct (C4_error_envelope json_decode.Unmarshal accepted
                (answering bad_request bad_request_envelope)
                "GET" "/budgets" None bad_request bad_request_envelope)
      as (_ & _ & _ & _ & _ & _ & Hrun); [simpl; lia|].
    destruct (Hrun 0 (get_budgets (answering bad_request bad_request_envelope))
                "") as [Hret _]; [attempt_at 1%nat|reflexivity|].
    rewrite Hret by reflexivity. vm_compute. reflexivity.
  - destruct (C4_error_envelope json_decode.Unmarshal accepted
                (answering server_error "invalid json")
                "GET" "/budgets" None server_error "invalid json")
      as (_ & _ & _ & _ & _ & _ & Hrun); [simpl; lia|].
    destruct (Hrun 3 (get_budgets (answering server_error "invalid json"))
                "") as [_ Hexh]; [attempt_at 10%nat|reflexivity|].
    rewrite Hexh by reflexivity. vm_compute. reflexivity.
  - destruct (C4_error_envelope json_decode.Unmarshal accepted
                (answering unauthorized unauthorized_envelope)
                "GET" "/budgets" None unauthorized unauthorized_envelope)
      as (_ & _ & H401 & _ & _ & _ & Hrun); [simpl; lia|].
    destruct (Hrun 0
                (get_budgets (answering unauthorized unauthorized_envelope))
                "") as [Hret _]; [attempt_at 1%nat|reflexivity|].
    rewrite Hret by reflexivity. rewrite (H401 eq_refl). reflexivity.
Defined.

(** C4 as claimed fails for 401 and for 429: the body decodes to an
    envelope with a non-empty name, but the error returned is the fixed
    authentication error, and the rate-limit error, whose messages are not
    that name. *)
Lemma C4_counterexample :
  json_decode.Unmarshal unauthorized_envelope
  = Some (errorResp.mk (errorResp.mkError "401" "Unauthorized" "Invalid token"))
  ∧ (std_request (answering unauthorized unauthorized_envelope)
       "GET" "/budgets" None).1
    = inr (EYNAB NewAuthError)
  ∧ ¬ envelope_rule (json_decode.Unmarshal unauthorized_envelope)
        (Response.Status unauthorized) NewAuthError
  ∧ (std_request (always_429 "1") "GET" "/budgets" None).1
    = inr (EWrap "request failed after 3 retries: "
             (EYNAB (NewRateLimitError 1)))
  ∧ ¬ envelope_rule
        (json_decode.Unmarshal (json_text "{'error': {'name': 'Too Many Requests'}}"))
        (Response.Status (throttled "1")) (NewRateLimitError 1).
Proof.
  split; [vm_compute; reflexivity|].
  split; [vm_compute; reflexivity|].
  split; [|split; [vm_compute; reflexivity|]].
  - intros [Hrule _].
    destruct (Hrule (errorResp.mk
                       (errorResp.mkError "401" "Unauthorized" "Invalid token")))
      as [Hmsg _]; [vm_compute; reflexivity|discriminate|].
    vm_compute in Hmsg. discriminate.
  - intros [Hrule _].
    destruct (Hrule (errorResp.mk
                       (errorResp.mkError "" "Too Many Requests" "")))
      as [Hmsg _]; [vm_compute; reflexivity|discriminate|].
    vm_compute in Hmsg. discriminate.
Qed.

(** C6 at servers that always answer 404 and 401: one attempt, no sleep. *)
Lemma C6_no_retry_witness :
  std_request (answering (Response.mk "404 Not Found" 404 ∅)
                 (json_text "{'error': {}}")) "GET" "/budgets" None
  = (inr (EYNAB {| Message := "HTTP request failed: 404 Not Found";
                   StatusCode := 404;
                   ErrorID := "";
                   Detail := "" |}),
     [EvLoop 0;
      EvDo 0 (get_budgets (answering (Response.mk "404 Not Found" 404 ∅)
                             (json_text "{'error': {}}"))) ""])
  ∧ std_request (answering unauthorized unauthorized_envelope)
      "GET" "/budgets" None
    = (inr (EYNAB NewAuthError),
       [EvLoop 0;
        EvDo 0 (get_budgets (answering unauthorized unauthorized_envelope)) ""]).
Proof.
  unfold std_request. split.
  - destruct (C6_no_retry json_decode.Unmarshal accepted
                (answering (Response.mk "404 Not Found" 404 ∅)
                   (json_text "{'error': {}}")) "GET" "/budgets" None)
      as (_ & _ & Hfirst & _).
    rewrite (Hfirst eq_refl (Response.mk "404 Not Found" 404 ∅)
               (json_text "{'error': {}}") eq_refl);
      [vm_compute; reflexivity|].
    unfold not_retried_status. simpl. lia.
  - destruct (C6_no_retry json_decode.Unmarshal accepted
                (answering unauthorized unauthorized_envelope)
                "GET" "/budgets" None)
      as (_ & _ & Hfirst & _).
    rewrite (Hfirst eq_refl unauthorized unauthorized_envelope eq_refl);
      [vm_compute; reflexivity|].
    unfold not_retried_status. simpl. lia.
Defined.

(** C7 at the server of [TestClient_ExponentialBackoffTiming]. *)
Lemma C7_backoff_schedule_witness :
  (std_request always_500 "GET" "/budgets" None).2 !! 3%nat
  = Some (EvSleep (1 * Second))
  ∧ ∃ k, 0 ≤ k ≤ MaxRetries + 1
         ∧ attempts (std_request always_500 "GET" "/budgets" None).2 = seqZ 0 k
         ∧ sleeps (std_request always_500 "GET" "/budgets" None).2
           = delay <$> seqZ 1 (k - 1).
Proof.
  unfold std_request.
  destruct (C7_backoff_schedule json_decode.Unmarshal accepted always_500
              "GET" "/budgets" None) as (_ & Htop & Honly).
  split.
  - apply (Htop 2%nat 1); [vm_compute; reflexivity|lia].
  - apply Honly. intros n req resp respBody [= <- _]. discriminate.
Defined.

(** C8 at a server that answers 500 and then 200. *)
Lemma C8_success_short_circuits_witness :
  (std_request error_500_once "GET" "/budgets" None).1
  = inl (json_text "{'data': {'budgets': []}}")
  ∧ attempts (std_request error_500_once "GET" "/budgets" None).2 = [0; 1]
  ∧ sleeps (std_request error_500_once "GET" "/budgets" None).2 = [1 * Second].
Proof.
  unfold std_request.
  destruct (C8_success_short_circuits json_decode.Unmarshal accepted
              error_500_once "GET" "/budgets" None) as [_ H].
  apply H.
  - reflexivity.
  - intros req. eexists _, _. split; reflexivity.
  - intros req. eexists. split; reflexivity.
Defined.

(** C9 at a POST with the body [{}] to a server that always answers 500:
    the body is sent once, the three retries send nothing. *)
Lemma C9_body_reader_not_reset_witness :
  bodies_sent (std_request always_500 "POST" "/budgets/b/transactions"
                 (Some "{}")).2
  = ["{}"; ""; ""; ""]
  ∧ (∃ req sent,
        EvDo 1 req sent
          ∈ (std_request always_500 "POST" "/budgets/b/transactions"
               (Some "{}")).2)
  ∧ ∀ n req sent,
      EvDo n req sent
        ∈ (std_request always_500 "POST" "/budgets/b/transactions"
             (Some "{}")).2 →
      (n = 0 → sent = "{}") ∧ (n ≠ 0 → sent = "" ∧ sent ≠ "{}").
Proof.
  unfold std_request. split; [vm_compute; reflexivity|].
  destruct (C9_body_reader_not_reset json_decode.Unmarshal accepted always_500
              "POST" "/budgets/b/transactions" (Some "{}")) as [_ H].
  apply (H "{}").
  - reflexivity.
  - discriminate.
  - reflexivity.
  - vm_compute. reflexivity.
  - vm_compute. lia.
Defined.

(** C10 at responses with status 200, 401 and 429 whose body cannot be
    read. *)
Lemma C10_unreadable_body_retried_witness :
  attempts (std_request (unreadable 200 "200 OK") "GET" "/budgets" None).2
  = [0; 1; 2; 3]
  ∧ (std_request (unreadable 200 "200 OK") "GET" "/budgets" None).1
    = inr (EWrap "request failed after 3 retries: "
             (EWrap "failed to read response: " (EText "unexpected EOF")))
  ∧ (std_request (unreadable 401 "401 Unauthorized") "GET" "/budgets" None).1
    = inr (EWrap "request failed after 3 retries: "
             (EWrap "failed to read response: " (EText "unexpected EOF")))
  ∧ sleeps (std_request (unreadable 429 "429 Too Many Requests")
              "GET" "/budgets" None).2
    = [1 * Second; 2 * Second; 4 * Second].
Proof.
  unfold std_request.
  assert (Hall : ∀ code status n req,
             ∃ resp err,
               outcome (httpClient (unreadable code status) n req)
               = ReadFailed resp err)
    by (intros; eexists _, _; reflexivity).
  destruct (C10_unreadable_body_retried json_decode.Unmarshal accepted
              (unreadable 200 "200 OK") "GET" "/budgets" None)
    as (_ & _ & H200).
  destruct (H200 eq_refl (Hall _ _))
    as (Hatt & _ & req & sent & resp & err & _ & Ho & Hres).
  split; [exact Hatt|]. split.
  { rewrite Hres. injection Ho as _ <-. reflexivity. }
  destruct (C10_unreadable_body_retried json_decode.Unmarshal accepted
              (unreadable 401 "401 Unauthorized") "GET" "/budgets" None)
    as (_ & _ & H401).
  destruct (H401 eq_refl (Hall _ _))
    as (_ & _ & req' & sent' & resp' & err' & _ & Ho' & Hres').
  split.
  { rewrite Hres'. injection Ho' as _ <-. reflexivity. }
  destruct (C10_unreadable_body_retried json_decode.Unmarshal accepted
              (unreadable 429 "429 Too Many Requests") "GET" "/budgets" None)
    as (_ & _ & H429).
  destruct (H429 eq_refl (Hall _ _)) as (_ & Hsleeps & _).
  exact Hsleeps.
Defined.

(** C1, evaluated: a 429 with [Retry-After: 5] and then a 200.  Two
    attempts are made, and before the second the executor sleeps the 5
    seconds of the server and then the 1 second of the backoff schedule, 6
    seconds in all; the backoff is doubled by that retry, so a 500 that
    follows the 429 is retried after 2 seconds, not 1. *)
Theorem C1_rate_limit_wait_then_backoff :
  (std_request (rate_limited_once "5") "GET" "/budgets" None).1
  = inl (json_text "{'data': {'budgets': []}}")
  ∧ attempts (std_request (rate_limited_once "5") "GET" "/budgets" None).2
    = [0; 1]
  ∧ sleeps (std_request (rate_limited_once "5") "GET" "/budgets" None).2
    = [5 * Second; 1 * Second]
  ∧ slept (std_request (rate_limited_once "5") "GET" "/budgets" None).2
    = 6 * Second
  ∧ ¬ (slept (std_request (rate_limited_once "5") "GET" "/budgets" None).2
       < 6 * Second)
  ∧ sleeps (std_request (rate_limited_then_500 "5") "GET" "/budgets" None).2
    = [5 * Second; 1 * Second; 2 * Second]
  ∧ sleeps (std_request error_500_once "GET" "/budgets" None).2
    = [1 * Second].
Proof.
  repeat split; try (vm_compute; reflexivity).
  vm_compute. discriminate.
Qed.

(** C3, evaluated: the header values the code takes as the wait.  A
    missing header and one that is not a number give the default of 60
    seconds and [5] gives 5; but [-5] is taken as it is, so that the
    executor sleeps a negative duration, that is not at all, instead of the
    default, and a value that overflows the duration in nanoseconds also
    gives a negative sleep. *)
Theorem C3_retry_after_values :
  retryAfter_of (throttled "") = 60
  ∧ retryAfter_of (throttled "invalid") = 60
  ∧ retryAfter_of (throttled "5") = 5
  ∧ retryAfter_of (throttled "-5") = -5
  ∧ sleeps (std_request (rate_limited_once "-5") "GET" "/budgets" None).2
    = [-5 * Second; 1 * Second]
  ∧ slept (std_request (rate_limited_once "-5") "GET" "/budgets" None).2
    = 1 * Second
  ∧ retryAfter_of (throttled "10000000000") = 10000000000
  ∧ sleeps (std_request (rate_limited_once "10000000000")
              "GET" "/budgets" None).2
    = [-8446744073709551616; 1 * Second].
Proof. repeat split; vm_compute; reflexivity. Qed.

(** ** More on [request] *)

Section more_on_request.

Variable json_Unmarshal : string → option errorResp.t.
Variable NewRequest_error : string → string → option error.

Local Abbreviation request := (request json_Unmarshal NewRequest_error).
Local Abbreviation loop := (loop json_Unmarshal NewRequest_error).
Local Abbreviation retryable := (retryable json_Unmarshal).
Local Abbreviation lastErr_of := (lastErr_of json_Unmarshal).
Local Abbreviation result_of := (result_of json_Unmarshal).
Local Abbreviation classified := (classified json_Unmarshal).

(** A call whose request is created makes a last attempt. *)
Lemma request_last_attempt c method endpoint body :
  NewRequest_error method (baseURL c +:+ endpoint) = None →
  ∃ n req sent,
    EvDo n req sent ∈ (request c method endpoint body).2
    ∧ ∀ n' req' sent',
        EvDo n' req' sent' ∈ (request c method endpoint body).2 → n' ≤ n.
Proof.
  intros Hnew. unfold request.
  destruct (loop_attempts json_Unmarshal NewRequest_error c method endpoint 0
              InitialBackoff None body)
    as (k & Hk & Hbound & Hatt); [unfold MaxRetries; lia|].
  destruct (loop_makes_attempt json_Unmarshal NewRequest_error c method
              endpoint 0 InitialBackoff None body)
    as (req0 & sent0 & Hin0); [unfold MaxRetries; lia|exact Hnew|].
  set (tr := (loop c method endpoint 0 InitialBackoff None body).2) in *.
  assert (H0 : 0 ∈ attempts tr).
  { apply list_elem_of_omap. eexists. split; [exact Hin0|reflexivity]. }
  rewrite Hatt in H0. apply elem_of_seqZ in H0.
  assert (Hlast : k - 1 ∈ attempts tr).
  { rewrite Hatt. apply elem_of_seqZ. lia. }
  apply list_elem_of_omap in Hlast as (ev & Hev & Hn).
  destruct ev as [|?|n req sent]; try discriminate.
  injection Hn as ->.
  exists (k - 1), req, sent. split; [exact Hev|].
  intros n' req' sent' Hin'.
  assert (Hn' : n' ∈ attempts tr).
  { apply list_elem_of_omap. eexists. split; [exact Hin'|reflexivity]. }
  rewrite Hatt in Hn'. apply elem_of_seqZ in Hn'. lia.
Qed.

(** The last attempt of a call and what the call returns. *)
Lemma request_last_outcome c method endpoint body :
  NewRequest_error method (baseURL c +:+ endpoint) = None →
  ∃ n req sent,
    EvDo n req sent ∈ (request c method endpoint body).2
    ∧ (∀ n' req' sent',
          EvDo n' req' sent' ∈ (request c method endpoint body).2 → n' ≤ n)
    ∧ (request c method endpoint body).1
      = (if retryable (outcome (httpClient c n req))
         then inr (exhausted (Some (lastErr_of (outcome (httpClient c n req)))))
         else result_of (outcome (httpClient c n req)))
    ∧ (retryable (outcome (httpClient c n req)) = true → n = MaxRetries).
Proof.
  intros Hnew.
  destruct (request_last_attempt c method endpoint body Hnew)
    as (n & req & sent & Hin & Hmax).
  exists n, req, sent. split; [exact Hin|]. split; [exact Hmax|].
  destruct (loop_attempt_outcome json_Unmarshal NewRequest_error c method
              endpoint 0 InitialBackoff None body n req sent Hin)
    as (Hrange & Hstop & Hnext & Hexh).
  assert (Hn : retryable (outcome (httpClient c n req)) = true →
               n = MaxRetries).
  { intros Hyes.
    destruct (decide (n < MaxRetries)) as [Hlt|Hge]; [|lia].
    destruct (Hnext Hyes Hlt) as (req' & sent' & Hin').
    specialize (Hmax _ _ _ Hin'). lia. }
  split; [|exact Hn].
  destruct (retryable (outcome (httpClient c n req))) eqn:Hr.
  - apply Hexh; [reflexivity|apply Hn; reflexivity].
  - apply Hstop. reflexivity.
Qed.

(** A request that is not created ends the call in its first iteration. *)
Lemma request_rejected c method endpoint body err :
  NewRequest_error method (baseURL c +:+ endpoint) = Some err →
  loop c method endpoint 0 InitialBackoff None body
  = (inr (EWrap "failed to create request: " err), [EvLoop 0]).
Proof.
  intros Hnew.
  rewrite (loop_once json_Unmarshal NewRequest_error).
  destruct (decide (0 ≤ MaxRetries)) as [_|Hn]; [|unfold MaxRetries in Hn; lia].
  rewrite (iteration_rejected json_Unmarshal NewRequest_error _ _ _ _ _ _ _ Hnew).
  reflexivity.
Qed.

(** X1. The result of a call is decided by its last attempt alone: when
    the exchange of the last attempt is not retried, the call returns what
    that exchange gives (the body of a 2xx response, or the error of the
    response); when it is retried, the attempt is the one at the ceiling
    and the call returns the error of that exchange wrapped as "request
    failed after 3 retries".  The errors of the earlier attempts are
    dropped. *)
Theorem request_result_of_last_attempt c method endpoint body :
  NewRequest_error method (baseURL c +:+ endpoint) = None →
  ∃ n req sent,
    EvDo n req sent ∈ (request c method endpoint body).2
    ∧ (∀ n' req' sent',
          EvDo n' req' sent' ∈ (request c method endpoint body).2 → n' ≤ n)
    ∧ (retryable (outcome (httpClient c n req)) = false →
       (request c method endpoint body).1
       = result_of (outcome (httpClient c n req)))
    ∧ (retryable (outcome (httpClient c n req)) = true →
       n = MaxRetries
       ∧ (request c method endpoint body).1
         = inr (EWrap "request failed after 3 retries: "
                  (lastErr_of (outcome (httpClient c n req))))).
Proof.
  intros Hnew.
  destruct (request_last_outcome c method endpoint body Hnew)
    as (n & req & sent & Hin & Hmax & Hres & Hn).
  exists n, req, sent. split; [exact Hin|]. split; [exact Hmax|].
  split; intros Hr; rewrite Hr in Hres.
  - exact Hres.
  - split; [apply Hn; exact Hr|exact Hres].
Qed.

(** X2. A request that [http.NewRequest] rejects is not attempted and not
    retried: the error is returned at once, wrapped as "failed to create
    request", with no exchange and no sleep. *)
Theorem request_not_created c method endpoint body err :
  NewRequest_error method (baseURL c +:+ endpoint) = Some err →
  request c method endpoint body
  = (inr (EWrap "failed to create request: " err), [EvLoop 0]).
Proof.
  intros Hnew. unfold request. apply request_rejected. exact Hnew.
Qed.

(** X3. [request] never returns the error "request failed after 3 retries"
    without a cause: when the loop is left at the ceiling, [lastErr] is
    set. *)
Theorem request_exhausted_has_cause c method endpoint body :
  (request c method endpoint body).1 ≠ inr (exhausted None)
  ∧ (request c method endpoint body).1
    ≠ inr (EText "request failed after 3 retries").
Proof.
  assert (H : (request c method endpoint body).1 ≠ inr (exhausted None));
    [|split; [exact H|exact H]].
  destruct (NewRequest_error method (baseURL c +:+ endpoint)) as [err|] eqn:Hnew.
  { unfold request.
    rewrite (request_rejected c method endpoint body err Hnew). discriminate. }
  destruct (request_last_outcome c method endpoint body Hnew)
    as (n & req & sent & _ & _ & -> & _).
  destruct (retryable (outcome (httpClient c n req))) eqn:Hr.
  - discriminate.
  - destruct (outcome (httpClient c n req)) as [| |resp rb];
      try discriminate.
    simpl. destruct (is_2xx resp); discriminate.
Qed.

(** X4. A transport that fails on every attempt (the server cannot be
    reached) is tried [MaxRetries + 1] times with the waits 1, 2 and 4
    seconds, and the caller gets the error of the last attempt, wrapped as
    "request failed" and as "request failed after 3 retries". *)
Theorem request_transport_always_fails c method endpoint body :
  NewRequest_error method (baseURL c +:+ endpoint) = None →
  (∀ n req, ∃ err, outcome (httpClient c n req) = DoFailed err) →
  attempts (request c method endpoint body).2 = [0; 1; 2; 3]
  ∧ sleeps (request c method endpoint body).2
    = [1 * Second; 2 * Second; 4 * Second]
  ∧ ∃ req sent err,
      EvDo 3 req sent ∈ (request c method endpoint body).2
      ∧ outcome (httpClient c 3 req) = DoFailed err
      ∧ (request c method endpoint body).1
        = inr (EWrap "request failed after 3 retries: "
                 (EWrap "request failed: " err)).
Proof.
  intros Hnew Hall.
  destruct (request_all_retried json_Unmarshal NewRequest_error c method
              endpoint body Hnew)
    as (Hatt & req & sent & Hin & Hres).
  { intros n req. destruct (Hall n req) as (err & ->). reflexivity. }
  split; [exact Hatt|]. split.
  - unfold request in *.
    rewrite (loop_sleeps json_Unmarshal NewRequest_error), Hatt;
      [reflexivity|lia|reflexivity|lia|].
    intros n req' resp respBody Ho.
    destruct (Hall n req') as (err & Ho'). congruence.
  - destruct (Hall 3 req) as (err & Ho).
    exists req, sent, err. split; [exact Hin|]. split; [exact Ho|].
    rewrite Hres, Ho. reflexivity.
Qed.

(** Every attempt of the loop sends the request built from the method, the
    URL and the reader as it is then. *)
Lemma loop_requests c method endpoint attempt backoff lastErr body n req sent :
  EvDo n req sent ∈ (loop c method endpoint attempt backoff lastErr body).2 →
  ∃ b, req = request_sent c method endpoint b.
Proof.
  revert attempt backoff lastErr body.
  apply (loop_induction json_Unmarshal NewRequest_error c method endpoint
           (λ _ _ _ _ r,
              EvDo n req sent ∈ r.2 →
              ∃ b, req = request_sent c method endpoint b)).
  - intros attempt backoff lastErr body _ Hin. inversion Hin.
  - intros attempt backoff lastErr body res evs _ Hit Hin. simpl in Hin.
    replace evs with (iteration json_Unmarshal NewRequest_error c method
                        endpoint attempt backoff body).2 in Hin
      by (rewrite Hit; reflexivity).
    destruct (iteration_elem_of_Do _ _ _ _ _ _ _ _ _ _ _ Hin)
      as (_ & _ & -> & _).
    eauto.
  - intros attempt backoff lastErr body backoff' lastErr' body' evs res evs'
      _ Hit _ IH Hin. simpl in Hin, IH.
    apply elem_of_app in Hin as [Hin|Hin]; [|apply IH; exact Hin].
    replace evs with (iteration json_Unmarshal NewRequest_error c method
                        endpoint attempt backoff body).2 in Hin
      by (rewrite Hit; reflexivity).
    destruct (iteration_elem_of_Do _ _ _ _ _ _ _ _ _ _ _ Hin)
      as (_ & _ & -> & _).
    eauto.
Qed.

(** X5. Every attempt of a call, the first and the retries, is made with
    the same method ([GET] for the empty method) and a header map of three
    entries and no other: the bearer token, the content type
    [application/json], which is set whether or not there is a body, and
    the user agent. *)
Theorem request_same_request_line c method endpoint body n req sent :
  EvDo n req sent ∈ (request c method endpoint body).2 →
  Request.Method req = (if String.eqb method "" then "GET" else method)
  ∧ Header_Get (Request.Header req) "Authorization" = "Bearer " +:+ token c
  ∧ Header_Get (Request.Header req) "Content-Type" = "application/json"
  ∧ Header_Get (Request.Header req) "User-Agent" = "Via-YNAB/2.0"
  ∧ ∀ key,
      key ≠ "Authorization" → key ≠ "Content-Type" → key ≠ "User-Agent" →
      Request.Header req !! key = None.
Proof.
  intros Hin. destruct (loop_requests _ _ _ _ _ _ _ _ _ _ Hin) as [b ->].
  unfold request_sent, Header_Get, Header_Set. simpl.
  split; [reflexivity|].
  split; [|split; [|split]].
  - rewrite lookup_insert_ne by discriminate.
    rewrite lookup_insert_ne by discriminate.
    rewrite lookup_insert_eq. reflexivity.
  - rewrite lookup_insert_ne by discriminate.
    rewrite lookup_insert_eq. reflexivity.
  - rewrite lookup_insert_eq. reflexivity.
  - intros key H1 H2 H3.
    rewrite !lookup_insert_ne by congruence.
    apply lookup_empty.
Qed.

(** X6. Without 429 responses the sleeps of a call are bounded: whatever the
    server and the network do, a call sleeps at most 1 + 2 + 4 = 7 seconds
    in all. *)
Theorem request_sleep_bound c method endpoint body :
  (∀ n req resp respBody,
      outcome (httpClient c n req) = Received resp respBody →
      Response.StatusCode resp ≠ StatusTooManyRequests) →
  slept (request c method endpoint body).2 ≤ 7 * Second
  ∧ (length (sleeps (request c method endpoint body).2) ≤ 3)%nat.
Proof.
  intros Hno429. unfold request.
  destruct (loop_attempts json_Unmarshal NewRequest_error c method endpoint 0
              InitialBackoff None body)
    as (k & Hk & Hbound & Hatt); [unfold MaxRetries; lia|].
  unfold slept.
  rewrite (loop_sleeps json_Unmarshal NewRequest_error);
    [|lia|reflexivity|lia|exact Hno429].
  rewrite Hatt. unfold MaxRetries in Hbound.
  assert (Hcases : k = 0 ∨ k = 1 ∨ k = 2 ∨ k = 3 ∨ k = 4) by lia.
  destruct Hcases as [-> | [-> | [-> | [-> | ->]]]];
    split; vm_compute; try discriminate; lia.
Qed.

(** X7. The helpers [IsAuthError], [IsRateLimitError], [IsServerError] and
    [IsNotFoundError] on the error a call returns tell the status of the
    response to its last attempt.  When the errors of the transport are no
    [*YNABError], the error of a call is a YNAB error exactly when its last
    attempt got a response and read its body; that response is outside
    2xx, the error has its status code, and so each helper answers for
    that status, also through the wrapping of an exhausted call. *)
Theorem request_error_kind c method endpoint body :
  NewRequest_error method (baseURL c +:+ endpoint) = None →
  (∀ n req e, outcome (httpClient c n req) = DoFailed e → errors_As e = None) →
  (∀ n req resp e,
      outcome (httpClient c n req) = ReadFailed resp e → errors_As e = None) →
  ∀ err,
    (request c method endpoint body).1 = inr err →
    ∃ n req sent,
      EvDo n req sent ∈ (request c method endpoint body).2
      ∧ (∀ n' req' sent',
            EvDo n' req' sent' ∈ (request c method endpoint body).2 → n' ≤ n)
      ∧ match outcome (httpClient c n req) with
        | Received resp respBody =>
            is_2xx resp = false
            ∧ errors_As err = Some (classified resp respBody)
            ∧ StatusCode (classified resp respBody) = Response.StatusCode resp
            ∧ api_IsAuthError err = (Response.StatusCode resp =? 401)
            ∧ api_IsRateLimitError err = (Response.StatusCode resp =? 429)
            ∧ api_IsNotFoundError err = (Response.StatusCode resp =? 404)
            ∧ api_IsServerError err
              = (500 <=? Response.StatusCode resp)
                && (Response.StatusCode resp <? 600)
        | _ => IsYNABError err = false
        end.
Proof.
  intros Hnew Hdo Hread err Herr.
  destruct (request_last_outcome c method endpoint body Hnew)
    as (n & req & sent & Hin & Hmax & Hres & _).
  exists n, req, sent. split; [exact Hin|]. split; [exact Hmax|].
  rewrite Hres in Herr. clear Hres.
  destruct (outcome (httpClient c n req)) as [e|resp e|resp respBody] eqn:Ho.
  - simpl in Herr. injection Herr as <-. unfold IsYNABError. simpl.
    rewrite (Hdo _ _ _ Ho). reflexivity.
  - simpl in Herr. injection Herr as <-. unfold IsYNABError. simpl.
    rewrite (Hread _ _ _ _ Ho). reflexivity.
  - pose proof (classified_StatusCode json_Unmarshal resp respBody) as Hcode.
    assert (Has : is_2xx resp = false
                  ∧ errors_As err = Some (classified resp respBody)).
    { destruct (retryable (Received resp respBody)) eqn:Hr.
      - injection Herr as <-. simpl in Hr.
        destruct (is_2xx resp); [discriminate|]. split; reflexivity.
      - simpl in Herr.
        destruct (is_2xx resp); [discriminate|].
        injection Herr as <-. split; reflexivity. }
    destruct Has as [H2xx Has].
    unfold api_IsAuthError, api_IsRateLimitError, api_IsNotFoundError,
      api_IsServerError.
    rewrite Has.
    unfold IsAuthError, IsRateLimitError, IsNotFoundError, IsServerError.
    rewrite Hcode. repeat split; try reflexivity; assumption.
Qed.

(** X8. The kinds of a [*YNABError] exclude each other: at most one of
    [IsAuthError], [IsRateLimitError], [IsServerError], [IsNotFoundError]
    and [IsBadRequestError] holds, so an error that [IsRetryable] is none
    of the authentication, not-found and bad-request errors.  The
    constructors give the kind they name, except that [NewServerError]
    does not check its argument: its error is a server error, and
    retryable, only for a status code from 500 to 599. *)
Theorem error_kinds_exclusive e :
  Z.b2z (IsAuthError e) + Z.b2z (IsRateLimitError e) + Z.b2z (IsServerError e)
  + Z.b2z (IsNotFoundError e) + Z.b2z (IsBadRequestError e) ≤ 1
  ∧ (IsRetryable e = true →
     IsAuthError e = false ∧ IsNotFoundError e = false
     ∧ IsBadRequestError e = false)
  ∧ (IsAuthError NewAuthError = true ∧ IsRetryable NewAuthError = false)
  ∧ (∀ retryAfter,
        IsRateLimitError (NewRateLimitError retryAfter) = true
        ∧ IsRetryable (NewRateLimitError retryAfter) = true)
  ∧ (∀ statusCode,
        (IsServerError (NewServerError statusCode) = true
         ↔ 500 ≤ statusCode < 600)
        ∧ (IsRetryable (NewServerError statusCode) = true
           ↔ statusCode = 429 ∨ 500 ≤ statusCode < 600)).
Proof.
  unfold IsRetryable, IsAuthError, IsRateLimitError, IsServerError,
    IsNotFoundError, IsBadRequestError, StatusUnauthorized,
    StatusTooManyRequests, StatusNotFound, StatusBadRequest.
  split; [|split; [|split; [|split]]].
  - destruct (StatusCode e =? 401) eqn:H401;
      destruct (StatusCode e =? 429) eqn:H429;
      destruct (500 <=? StatusCode e) eqn:H500;
      destruct (StatusCode e <? 600) eqn:H600;
      destruct (StatusCode e =? 404) eqn:H404;
      destruct (StatusCode e =? 400) eqn:H400; simpl; lia.
  - destruct (StatusCode e =? 401) eqn:H401;
      destruct (StatusCode e =? 429) eqn:H429;
      destruct (500 <=? StatusCode e) eqn:H500;
      destruct (StatusCode e <? 600) eqn:H600;
      destruct (StatusCode e =? 404) eqn:H404;
      destruct (StatusCode e =? 400) eqn:H400; simpl;
      intros H; repeat split; try reflexivity; try discriminate; lia.
  - split; reflexivity.
  - intros retryAfter. split; reflexivity.
  - intros statusCode. simpl.
    rewrite orb_true_iff, andb_true_iff, Z.eqb_eq, Z.leb_le, Z.ltb_lt.
    lia.
Qed.

(** X9. [NewClient] fails exactly when the token given and the environment
    variable are both empty, and its error is then "YNAB_ACCESS_TOKEN is
    required".  The client it creates otherwise has a non-empty token, the
    token given if there is one and that of the environment otherwise, the
    base URL of the API, and no default budget; so each of its requests
    carries a bearer token that is not empty. *)
Theorem NewClient_token os_Getenv transport tok :
  (tok = "" ∧ os_Getenv "YNAB_ACCESS_TOKEN" = "" →
   NewClient os_Getenv transport tok
   = inr (EText "YNAB_ACCESS_TOKEN is required"))
  ∧ (∀ err,
        NewClient os_Getenv transport tok = inr err →
        err = EText "YNAB_ACCESS_TOKEN is required"
        ∧ tok = "" ∧ os_Getenv "YNAB_ACCESS_TOKEN" = "")
  ∧ ∀ c,
      NewClient os_Getenv transport tok = inl c →
      token c ≠ ""
      ∧ token c = (if String.eqb tok ""
                   then os_Getenv "YNAB_ACCESS_TOKEN" else tok)
      ∧ baseURL c = BaseURL
      ∧ defaultBudgetID c = ""
      ∧ ∀ method endpoint body n req sent,
          EvDo n req sent ∈ (request c method endpoint body).2 →
          Header_Get (Request.Header req) "Authorization"
          = "Bearer " +:+ token c
          ∧ Header_Get (Request.Header req) "Authorization" ≠ "Bearer ".
Proof.
  assert (Hsent : ∀ c,
             token c ≠ "" →
             ∀ method endpoint body n req sent,
               EvDo n req sent ∈ (request c method endpoint body).2 →
               Header_Get (Request.Header req) "Authorization"
               = "Bearer " +:+ token c
               ∧ Header_Get (Request.Header req) "Authorization"
                 ≠ "Bearer ").
  { intros c Htok method endpoint body n req sent Hin.
    destruct (loop_requests _ _ _ _ _ _ _ _ _ _ Hin) as [b ->].
    assert (Hauth : Header_Get (Request.Header (request_sent c method endpoint b))
                      "Authorization" = "Bearer " +:+ token c).
    { unfold request_sent, Header_Get, Header_Set. simpl.
      rewrite lookup_insert_ne by discriminate.
      rewrite lookup_insert_ne by discriminate.
      rewrite lookup_insert_eq. reflexivity. }
    rewrite Hauth. split; [reflexivity|].
    simpl. intros [= Hbad]. contradiction. }
  unfold NewClient.
  destruct (String.eqb_spec tok "") as [->|Htok].
  - destruct (String.eqb_spec (os_Getenv "YNAB_ACCESS_TOKEN") "")
      as [Henv|Henv].
    + split; [reflexivity|]. split; [|intros c [=]].
      intros err [= <-]. split; [reflexivity|]. split; [reflexivity|exact Henv].
    + split; [intros [_ H]; contradiction|]. split; [intros err [=]|].
      intros c [= <-]. simpl.
      split; [exact Henv|]. split; [reflexivity|].
      split; [reflexivity|]. split; [reflexivity|].
      apply Hsent. exact Henv.
  - destruct (String.eqb_spec tok "") as [Heq|_]; [contradiction|].
    split; [intros [H _]; contradiction|]. split; [intros err [=]|].
    intros c [= <-]. simpl.
    split; [exact Htok|]. split; [reflexivity|].
    split; [reflexivity|]. split; [reflexivity|].
    apply Hsent. exact Htok.
Qed.

(** One iteration of the loop on a 429: the attempt, then the rate-limit
    wait, then the rest of the loop with the rate-limit error as
    [lastErr]. *)
Lemma loop_rate_limited_step c method endpoint resp attempt backoff lastErr body :
  NewRequest_error method (baseURL c +:+ endpoint) = None →
  Response.StatusCode resp = 429 →
  (∀ n req, ∃ respBody, outcome (httpClient c n req) = Received resp respBody) →
  attempt ≤ MaxRetries →
  ∃ req sent body',
    loop c method endpoint attempt backoff lastErr body
    = ((loop c method endpoint (attempt + 1) (next_backoff attempt backoff)
          (Some (EYNAB (NewRateLimitError (retryAfter_of resp)))) body').1,
       (EvLoop attempt :: waited attempt backoff)
         ++ [EvDo attempt req sent;
             EvSleep (wrap64 (retryAfter_of resp * Second))]
         ++ (loop c method endpoint (attempt + 1) (next_backoff attempt backoff)
               (Some (EYNAB (NewRateLimitError (retryAfter_of resp))))
               body').2).
Proof.
  intros Hnew Hcode Hall Hle.
  rewrite (loop_once json_Unmarshal NewRequest_error).
  destruct (decide (attempt ≤ MaxRetries)) as [_|Hgt]; [|lia].
  destruct (Hall attempt (request_sent c method endpoint body))
    as [respBody Ho].
  rewrite (iteration_rate_limited json_Unmarshal NewRequest_error c method
             endpoint attempt backoff body Hnew resp respBody Ho Hcode).
  set (req := request_sent c method endpoint body).
  exists req, (read_body body (bodyRead (httpClient c attempt req))).1,
    (read_body body (bodyRead (httpClient c attempt req))).2.
  destruct (loop c method endpoint (attempt + 1) _ _ _) as [res evs'].
  cbn [fst snd]. f_equal.
  cbn [app]. rewrite <- !app_assoc. reflexivity.
Qed.

(** X19. A server that answers 429 to every attempt is tried
    [MaxRetries + 1] times, and each attempt, the last one included, is
    followed by the rate-limit wait: the call sleeps that wait once more
    after its last attempt, and only then returns the rate-limit error as
    exhausted.  With the backoffs in between, the sleeps are the wait, 1
    second, the wait, 2 seconds, the wait, 4 seconds and the wait. *)
Theorem request_always_rate_limited c method endpoint body resp :
  NewRequest_error method (baseURL c +:+ endpoint) = None →
  Response.StatusCode resp = 429 →
  (∀ n req, ∃ respBody, outcome (httpClient c n req) = Received resp respBody) →
  attempts (request c method endpoint body).2 = [0; 1; 2; 3]
  ∧ sleeps (request c method endpoint body).2
    = [wrap64 (retryAfter_of resp * Second); 1 * Second;
       wrap64 (retryAfter_of resp * Second); 2 * Second;
       wrap64 (retryAfter_of resp * Second); 4 * Second;
       wrap64 (retryAfter_of resp * Second)]
  ∧ last (request c method endpoint body).2
    = Some (EvSleep (wrap64 (retryAfter_of resp * Second)))
  ∧ (request c method endpoint body).1
    = inr (EWrap "request failed after 3 retries: "
             (EYNAB (NewRateLimitError (retryAfter_of resp)))).
Proof.
  intros Hnew Hcode Hall. unfold request.
  destruct (loop_rate_limited_step c method endpoint resp 0 InitialBackoff
              None body Hnew Hcode Hall)
    as (req0 & sent0 & body0 & ->); [unfold MaxRetries; lia|].
  destruct (loop_rate_limited_step c method endpoint resp (0 + 1)
              (next_backoff 0 InitialBackoff)
              (Some (EYNAB (NewRateLimitError (retryAfter_of resp)))) body0
              Hnew Hcode Hall)
    as (req1 & sent1 & body1 & ->); [unfold MaxRetries; lia|].
  destruct (loop_rate_limited_step c method endpoint resp (0 + 1 + 1)
              (next_backoff (0 + 1) (next_backoff 0 InitialBackoff))
              (Some (EYNAB (NewRateLimitError (retryAfter_of resp)))) body1
              Hnew Hcode Hall)
    as (req2 & sent2 & body2 & ->); [unfold MaxRetries; lia|].
  destruct (loop_rate_limited_step c method endpoint resp (0 + 1 + 1 + 1)
              (next_backoff (0 + 1 + 1)
                 (next_backoff (0 + 1) (next_backoff 0 InitialBackoff)))
              (Some (EYNAB (NewRateLimitError (retryAfter_of resp)))) body2
              Hnew Hcode Hall)
    as (req3 & sent3 & body3 & ->); [unfold MaxRetries; lia|].
  rewrite (loop_once json_Unmarshal NewRequest_error c method endpoint
             (0 + 1 + 1 + 1 + 1)).
  destruct (decide (0 + 1 + 1 + 1 + 1 ≤ MaxRetries)) as [Hle|_];
    [unfold MaxRetries in Hle; lia|].
  cbn [fst snd]. repeat split.
Qed.

End more_on_request.

(** ** The methods of the client *)

Section methods_properties.

Variable json_Unmarshal : string → option errorResp.t.
Variable NewRequest_error : string → string → option error.
Variables Budget Account Transaction : Type.
Variable Budget_ID : Budget → string.
Variable Unmarshal_BudgetsResponse : string → list (option Budget) + error.
Variable Unmarshal_AccountsResponse : string → list (option Account) + error.
Variable Unmarshal_TransactionResponse : string → option Transaction + error.
Variable json_Marshal : gmap string (gmap string any) → string + error.

Local Abbreviation request := (request json_Unmarshal NewRequest_error).
Local Abbreviation loop := (loop json_Unmarshal NewRequest_error).
Local Abbreviation GetBudgets :=
  (GetBudgets json_Unmarshal NewRequest_error Budget Unmarshal_BudgetsResponse).
Local Abbreviation GetDefaultBudgetID :=
  (GetDefaultBudgetID json_Unmarshal NewRequest_error Budget Budget_ID
     Unmarshal_BudgetsResponse).
Local Abbreviation budget_of :=
  (budget_of json_Unmarshal NewRequest_error Budget Budget_ID
     Unmarshal_BudgetsResponse).
Local Abbreviation GetAccounts :=
  (GetAccounts json_Unmarshal NewRequest_error Budget Account Budget_ID
     Unmarshal_BudgetsResponse Unmarshal_AccountsResponse).
Local Abbreviation CreateTransaction :=
  (CreateTransaction json_Unmarshal NewRequest_error Budget Transaction
     Budget_ID Unmarshal_BudgetsResponse Unmarshal_TransactionResponse
     json_Marshal).

(** A call of [request] enters its loop. *)
Lemma request_starts c method endpoint body :
  head (request c method endpoint body).2 = Some (EvLoop 0).
Proof.
  unfold request. rewrite (loop_once json_Unmarshal NewRequest_error).
  destruct (decide (0 ≤ MaxRetries)) as [_|Hn]; [|unfold MaxRetries in Hn; lia].
  pose proof (iteration_events json_Unmarshal NewRequest_error c method
                endpoint 0 InitialBackoff body) as Hev.
  destruct (iteration json_Unmarshal NewRequest_error c method endpoint 0
              InitialBackoff body) as [[backoff' lastErr' body'|res] evs].
  - destruct (loop c method endpoint (0 + 1) backoff' lastErr' body')
      as [res evs'].
    simpl in Hev. subst evs. reflexivity.
  - simpl in Hev. subst evs. reflexivity.
Qed.

(** Every attempt of a call is created from the URL string and the method
    of the call. *)
Lemma request_URL c method endpoint body n req sent :
  EvDo n req sent ∈ (request c method endpoint body).2 →
  Request.URL req = baseURL c +:+ endpoint
  ∧ Request.Method req = (if String.eqb method "" then "GET" else method).
Proof.
  intros Hin.
  destruct (loop_requests json_Unmarshal NewRequest_error _ _ _ _ _ _ _ _ _ _ Hin)
    as [b ->].
  split; reflexivity.
Qed.

(** [GetBudgets] is one call of [request]. *)
Lemma GetBudgets_request c :
  (GetBudgets c).2 = (request c "GET" "/budgets" None).2
  ∧ (GetBudgets c).1.2 = later (exchanges (GetBudgets c).2) c
  ∧ (GetBudgets c).1.1
    = match (request c "GET" "/budgets" None).1 with
      | inr err => inr err
      | inl respBody =>
          match Unmarshal_BudgetsResponse respBody with
          | inr err => inr (EWrap "failed to parse budgets response: " err)
          | inl budgets => inl budgets
          end
      end.
Proof.
  unfold GetBudgets.
  destruct (request c "GET" "/budgets" None) as [[respBody|err] tr].
  - simpl. destruct (Unmarshal_BudgetsResponse respBody) eqn:Hdec;
      repeat split.
  - repeat split.
Qed.

(** [GetDefaultBudgetID] in terms of the call of [request] that
    [GetBudgets] makes. *)
Lemma GetDefaultBudgetID_cases c :
  GetDefaultBudgetID c =
  if String.eqb (defaultBudgetID c) "" then
    let tr := (request c "GET" "/budgets" None).2 in
    let c1 := later (exchanges tr) c in
    match (GetBudgets c).1.1 with
    | inr err => (Returns (inr (EWrap "failed to get budgets: " err)), c1, tr)
    | inl [] =>
        (Returns (inr (EText "no budgets found for this account")), c1, tr)
    | inl (None :: _) => (Panics, c1, tr)
    | inl (Some budget :: _) =>
        (Returns (inl (Budget_ID budget)),
         SetDefaultBudgetID c1 (Budget_ID budget), tr)
    end
  else (Returns (inl (defaultBudgetID c)), c, []).
Proof.
  unfold GetDefaultBudgetID.
  destruct (String.eqb (defaultBudgetID c) ""); simpl; [|reflexivity].
  destruct (GetBudgets_request c) as (Htr & Hc & _).
  destruct (GetBudgets c) as [[res c1] tr1].
  simpl in Hc, Htr. subst c1 tr1. simpl.
  destruct res as [[|[budget|] rest]|err]; reflexivity.
Qed.

(** X10. The default budget is loaded at most once.  When
    [GetDefaultBudgetID] returns a budget ID that is not empty, the client
    keeps it (nothing else of the client changes), and the next call
    returns the same ID with no request at all.  An empty ID of the first
    budget is returned as well, but it is not kept: the next call asks the
    API again. *)
Theorem GetDefaultBudgetID_loaded_once c id c' tr :
  GetDefaultBudgetID c = (Returns (inl id), c', tr) →
  defaultBudgetID c' = id
  ∧ token c' = token c
  ∧ baseURL c' = baseURL c
  ∧ (id ≠ "" → GetDefaultBudgetID c' = (Returns (inl id), c', []))
  ∧ (id = "" → (GetDefaultBudgetID c').2 ≠ []).
Proof.
  rewrite GetDefaultBudgetID_cases.
  destruct (String.eqb_spec (defaultBudgetID c) "") as [Hempty|Hset];
    cbv zeta.
  - destruct ((GetBudgets c).1.1) as [[|[budget|] rest]|err];
      intros [= <- <- <-].
    simpl. repeat split.
    + intros Hid. rewrite GetDefaultBudgetID_cases. simpl.
      destruct (String.eqb_spec (Budget_ID budget) "") as [Heq|Hne]; [contradiction|].
      reflexivity.
    + intros Hid. rewrite GetDefaultBudgetID_cases. simpl.
      rewrite Hid. simpl.
      set (c1 := SetDefaultBudgetID _ "").
      pose proof (request_starts c1 "GET" "/budgets" None) as Hhead.
      intros Hnil.
      assert (Htr : (request c1 "GET" "/budgets" None).2 = []).
      { destruct ((GetBudgets c1).1.1) as [[|[b|] rest']|err]; exact Hnil. }
      rewrite Htr in Hhead. discriminate.
  - intros [= <- <- <-]. repeat split.
    + intros _. rewrite GetDefaultBudgetID_cases.
      destruct (String.eqb_spec (defaultBudgetID c) "") as [Heq|Hne]; [contradiction|].
      reflexivity.
    + intros Hid. contradiction.
Qed.

(** X11. A failed [GetDefaultBudgetID] keeps nothing, so that the next call
    tries again, and its error is either "no budgets found for this
    account" or the error of [GetBudgets] wrapped as "failed to get
    budgets"; the wrapping hides nothing from [errors.As], so the helpers
    [IsAuthError], [IsRateLimitError], [IsServerError] and
    [IsNotFoundError] answer for the wrapped error as for its cause. *)
Theorem GetDefaultBudgetID_failure c err c' tr :
  GetDefaultBudgetID c = (Returns (inr err), c', tr) →
  defaultBudgetID c = ""
  ∧ defaultBudgetID c' = ""
  ∧ tr = (request c "GET" "/budgets" None).2
  ∧ (((GetBudgets c).1.1 = inl []
      ∧ err = EText "no budgets found for this account")
     ∨ ∃ cause,
         (GetBudgets c).1.1 = inr cause
         ∧ err = EWrap "failed to get budgets: " cause
         ∧ api_IsAuthError err = api_IsAuthError cause
         ∧ api_IsRateLimitError err = api_IsRateLimitError cause
         ∧ api_IsServerError err = api_IsServerError cause
         ∧ api_IsNotFoundError err = api_IsNotFoundError cause).
Proof.
  rewrite GetDefaultBudgetID_cases.
  destruct (String.eqb_spec (defaultBudgetID c) "") as [Hempty|Hset];
    cbv zeta; [|intros [=]].
  destruct ((GetBudgets c).1.1) as [[|[budget|] rest]|cause];
    intros [= <- <- <-].
  - repeat split; try assumption. left. split; reflexivity.
  - repeat split; try assumption. right. exists cause. repeat split.
Qed.

(** X12. With an explicit budget ID, [GetAccounts] neither reads nor
    changes the default budget: it is one call of [request], with the
    method GET, for the endpoint of the accounts of that budget; the
    default budget of the client is left as it was, and an error of that
    call is returned as it is.  With no budget ID and a default budget
    that is set, the call is the call for the default budget. *)
Theorem GetAccounts_budget c budgetID :
  (budgetID ≠ "" →
   defaultBudgetID (GetAccounts c budgetID).1.2 = defaultBudgetID c
   ∧ (GetAccounts c budgetID).2
     = (request c "GET" ("/budgets/" +:+ budgetID +:+ "/accounts") None).2
   ∧ (∀ err,
         (request c "GET" ("/budgets/" +:+ budgetID +:+ "/accounts") None).1
         = inr err →
         (GetAccounts c budgetID).1.1 = Returns (inr err))
   ∧ ∀ n req sent,
       EvDo n req sent ∈ (GetAccounts c budgetID).2 →
       Request.Method req = "GET")
  ∧ (defaultBudgetID c ≠ "" →
     GetAccounts c "" = GetAccounts c (defaultBudgetID c)).
Proof.
  split.
  - intros Hid. unfold GetAccounts, budget_of.
    destruct (String.eqb_spec budgetID "") as [Heq|Hne]; [contradiction|].
    pose proof (request_URL c "GET" ("/budgets/" +:+ budgetID +:+ "/accounts")
                  None) as Hurl.
    destruct (request c "GET" ("/budgets/" +:+ budgetID +:+ "/accounts") None)
      as [[respBody|err] tr].
    + destruct (Unmarshal_AccountsResponse respBody);
        (split; [reflexivity|]); (split; [reflexivity|]);
        (split; [intros err' [=]|]);
        intros n req sent Hin; exact (proj2 (Hurl n req sent Hin)).
    + split; [reflexivity|]. split; [reflexivity|].
      split; [intros err' [= <-]; reflexivity|].
      intros n req sent Hin. exact (proj2 (Hurl n req sent Hin)).
  - intros Hset. unfold GetAccounts, budget_of, GetDefaultBudgetID. simpl.
    destruct (String.eqb_spec (defaultBudgetID c) "") as [Heq|Hne];
      [contradiction|].
    reflexivity.
Qed.

(** X13. With no budget ID and no default budget, [GetAccounts] first loads
    the default budget.  When that fails the call stops there with the
    error of [GetDefaultBudgetID]: all its requests went to [/budgets], and
    no accounts are asked for.  When the first budget is loaded (its ID not
    empty) the call goes on as the call for that budget, on the client that
    now keeps the ID. *)
Theorem GetAccounts_lazy_budget c :
  (∀ err c' tr,
      GetDefaultBudgetID c = (Returns (inr err), c', tr) →
      GetAccounts c "" = (Returns (inr err), c', tr)
      ∧ ∀ n req sent,
          EvDo n req sent ∈ (GetAccounts c "").2 →
          Request.URL req = baseURL c +:+ "/budgets")
  ∧ (∀ id c' tr,
        GetDefaultBudgetID c = (Returns (inl id), c', tr) →
        id ≠ "" →
        defaultBudgetID c' = id
        ∧ GetAccounts c ""
          = ((GetAccounts c' id).1, tr ++ (GetAccounts c' id).2)).
Proof.
  split.
  - intros err c' tr Hget.
    assert (Hacc : GetAccounts c "" = (Returns (inr err), c', tr)).
    { unfold GetAccounts, budget_of. simpl. rewrite Hget. reflexivity. }
    split; [exact Hacc|]. rewrite Hacc. simpl.
    assert (Htr : tr = (request c "GET" "/budgets" None).2).
    { rewrite GetDefaultBudgetID_cases in Hget.
      destruct (String.eqb (defaultBudgetID c) ""); [|discriminate].
      cbv zeta in Hget.
      destruct ((GetBudgets c).1.1) as [[|[budget|] rest]|cause];
        try discriminate; injection Hget as _ _ <-; reflexivity. }
    rewrite Htr. intros n req sent Hin.
    apply (request_URL c "GET" "/budgets" None n req sent Hin).
  - intros id c' tr Hget Hid.
    assert (Hc' : defaultBudgetID c' = id).
    { rewrite GetDefaultBudgetID_cases in Hget.
      destruct (String.eqb (defaultBudgetID c) ""); cbv zeta in Hget.
      - destruct ((GetBudgets c).1.1) as [[|[budget|] rest]|cause];
          try discriminate.
        injection Hget as <- <- _. reflexivity.
      - injection Hget as <- <- _. reflexivity. }
    split; [exact Hc'|].
    unfold GetAccounts, budget_of. simpl. rewrite Hget.
    destruct (String.eqb_spec id "") as [Heq|Hne]; [contradiction|].
    destruct (request c' "GET" ("/budgets/" +:+ id +:+ "/accounts") None)
      as [[respBody|err] tr'].
    + destruct (Unmarshal_AccountsResponse respBody); reflexivity.
    + reflexivity.
Qed.

(** X14. [Validate] accepts a request exactly when its account and its
    date are not empty, and reports the account first.  A request that is
    refused is left as it was.  A request that is accepted is left with a
    status [Cleared] that is not empty, "uncleared" when there was none,
    and is otherwise unchanged: [Approved] stays as the caller set it.
    Validating again changes nothing more. *)
Theorem Validate_request r :
  ((Validate r).2 = None
   ↔ TransactionRequest.AccountID r ≠ "" ∧ TransactionRequest.Date r ≠ "")
  ∧ (TransactionRequest.AccountID r = "" →
     Validate r = (r, Some (EText "account_id is required")))
  ∧ (TransactionRequest.AccountID r ≠ "" → TransactionRequest.Date r = "" →
     Validate r = (r, Some (EText "date is required")))
  ∧ ((Validate r).2 = None →
     TransactionRequest.Cleared (Validate r).1
     = (if String.eqb (TransactionRequest.Cleared r) "" then "uncleared"
        else TransactionRequest.Cleared r)
     ∧ TransactionRequest.Cleared (Validate r).1 ≠ ""
     ∧ TransactionRequest.Approved (Validate r).1
       = TransactionRequest.Approved r
     ∧ TransactionRequest.BudgetID (Validate r).1
       = TransactionRequest.BudgetID r
     ∧ TransactionRequest.AccountID (Validate r).1
       = TransactionRequest.AccountID r
     ∧ TransactionRequest.Date (Validate r).1 = TransactionRequest.Date r
     ∧ TransactionRequest.Amount (Validate r).1 = TransactionRequest.Amount r
     ∧ TransactionRequest.PayeeName (Validate r).1
       = TransactionRequest.PayeeName r
     ∧ TransactionRequest.CategoryID (Validate r).1
       = TransactionRequest.CategoryID r
     ∧ TransactionRequest.Memo (Validate r).1 = TransactionRequest.Memo r
     ∧ Validate (Validate r).1 = ((Validate r).1, None)).
Proof.
  destruct r as [budgetID accountID date amount payee category memo cleared
                   approved].
  unfold Validate. simpl.
  destruct (String.eqb_spec accountID "") as [Hacc|Hacc].
  { split; [split; [discriminate|intros [H _]; contradiction]|].
    split; [reflexivity|]. split; [contradiction|]. discriminate. }
  destruct (String.eqb_spec date "") as [Hdate|Hdate].
  { split; [split; [discriminate|intros [_ H]; contradiction]|].
    split; [contradiction|]. split; [reflexivity|]. discriminate. }
  split; [split; [intros _; split; assumption|reflexivity]|].
  split; [contradiction|]. split; [contradiction|]. intros _.
  destruct (String.eqb_spec cleared "") as [Hcl|Hcl]; simpl.
  - destruct (String.eqb_spec accountID ""); [contradiction|].
    destruct (String.eqb_spec date ""); [contradiction|].
    repeat split; try reflexivity. discriminate.
  - destruct (String.eqb_spec accountID ""); [contradiction|].
    destruct (String.eqb_spec date ""); [contradiction|].
    destruct (String.eqb_spec cleared ""); [contradiction|].
    repeat split; try reflexivity. assumption.
Qed.

(** X15. [CreateTransaction] validates before anything else: a request
    that [Validate] refuses is answered with that error, with no request
    to the API, not even for the default budget, and the client and the
    request are left as they were. *)
Theorem CreateTransaction_invalid c req err :
  (Validate req).2 = Some err →
  CreateTransaction c req = (Returns (inr err), req, c, [])
  ∧ (err = EText "account_id is required" ∨ err = EText "date is required").
Proof.
  unfold CreateTransaction, Validate.
  destruct (String.eqb (TransactionRequest.AccountID req) "").
  { simpl. intros [= <-]. split; [reflexivity|left; reflexivity]. }
  destruct (String.eqb (TransactionRequest.Date req) "").
  { simpl. intros [= <-]. split; [reflexivity|right; reflexivity]. }
  simpl. discriminate.
Qed.

(** X16. The transaction object of a validated request has the five keys
    [account_id], [date], [amount], [cleared] and [approved], with the
    values of the request ([cleared] never empty), one of [payee_name],
    [category_id] and [memo] exactly when the request has that field, and
    no other key. *)
Theorem transaction_object_fields req req' :
  Validate req = (req', None) →
  transaction_object req' !! "account_id"
  = Some (AString (TransactionRequest.AccountID req))
  ∧ transaction_object req' !! "date"
    = Some (AString (TransactionRequest.Date req))
  ∧ transaction_object req' !! "amount"
    = Some (AInt64 (TransactionRequest.Amount req))
  ∧ transaction_object req' !! "approved"
    = Some (ABool (TransactionRequest.Approved req))
  ∧ transaction_object req' !! "cleared"
    = Some (AString (if String.eqb (TransactionRequest.Cleared req) ""
                     then "uncleared" else TransactionRequest.Cleared req))
  ∧ transaction_object req' !! "cleared" ≠ Some (AString "")
  ∧ transaction_object req' !! "payee_name"
    = (if String.eqb (TransactionRequest.PayeeName req) "" then None
       else Some (AString (TransactionRequest.PayeeName req)))
  ∧ transaction_object req' !! "category_id"
    = (if String.eqb (TransactionRequest.CategoryID req) "" then None
       else Some (AString (TransactionRequest.CategoryID req)))
  ∧ transaction_object req' !! "memo"
    = (if String.eqb (TransactionRequest.Memo req) "" then None
       else Some (AString (TransactionRequest.Memo req)))
  ∧ ∀ key,
      key ∉ ["account_id"; "date"; "amount"; "cleared"; "approved";
             "payee_name"; "category_id"; "memo"] →
      transaction_object req' !! key = None.
Proof.
  destruct req as [budgetID accountID date amount payee category memo cleared
                     approved].
  unfold Validate. simpl.
  destruct (String.eqb accountID ""); [discriminate|].
  destruct (String.eqb date ""); [discriminate|].
  intros [= <-].
  set (status := if String.eqb cleared "" then "uncleared" else cleared).
  set (r := if String.eqb cleared "" then _ else _).
  assert (Hr : r = TransactionRequest.mk budgetID accountID date amount payee
                     category memo status approved).
  { unfold r, status. destruct (String.eqb cleared ""); reflexivity. }
  rewrite Hr. clear r Hr.
  assert (Hstatus : status ≠ "").
  { unfold status.
    destruct (String.eqb_spec cleared "") as [Heq|Hne];
      [discriminate|assumption]. }
  assert (Hcleared : transaction_object
                       (TransactionRequest.mk budgetID accountID date amount
                          payee category memo status approved) !! "cleared"
                     = Some (AString status)).
  { unfold transaction_object. simpl.
    destruct (String.eqb payee ""), (String.eqb category ""),
      (String.eqb memo ""); reflexivity. }
  rewrite Hcleared.
  split; [|split; [|split; [|split; [|split; [|split; [|split; [|split;
    [|split]]]]]]]];
    try (unfold transaction_object; simpl;
         destruct (String.eqb payee ""), (String.eqb category ""),
           (String.eqb memo ""); reflexivity).
  - intros [= H]. contradiction.
  - intros key Hkey.
    assert (Hne : ∀ k, k ∈ ["account_id"; "date"; "amount"; "cleared";
                            "approved"; "payee_name"; "category_id"; "memo"] →
                       k ≠ key).
    { intros k Hk <-. contradiction. }
    assert (H1 : "account_id" ≠ key) by (apply Hne; repeat constructor).
    assert (H2 : "date" ≠ key) by (apply Hne; repeat constructor).
    assert (H3 : "amount" ≠ key) by (apply Hne; repeat constructor).
    assert (H4 : "cleared" ≠ key) by (apply Hne; repeat constructor).
    assert (H5 : "approved" ≠ key) by (apply Hne; repeat constructor).
    assert (H6 : "payee_name" ≠ key) by (apply Hne; repeat constructor).
    assert (H7 : "category_id" ≠ key) by (apply Hne; repeat constructor).
    assert (H8 : "memo" ≠ key) by (apply Hne; repeat constructor).
    unfold transaction_object. simpl.
    destruct (String.eqb payee ""), (String.eqb category ""),
      (String.eqb memo ""); simpl;
      repeat (rewrite lookup_insert_ne by assumption);
      apply lookup_singleton_ne; assumption.
Qed.

(** [Validate] leaves the budget of a request as it is. *)
Lemma Validate_BudgetID req req' err :
  Validate req = (req', err) →
  TransactionRequest.BudgetID req' = TransactionRequest.BudgetID req.
Proof.
  unfold Validate.
  destruct (String.eqb (TransactionRequest.AccountID req) "");
    [intros [= <- _]; reflexivity|].
  destruct (String.eqb (TransactionRequest.Date req) "");
    [intros [= <- _]; reflexivity|].
  destruct (String.eqb (TransactionRequest.Cleared req) "");
    intros [= <- _]; reflexivity.
Qed.

(** X17. A valid request for a given budget is sent as it is after
    [Validate]: the caller's request is left validated, and the call is
    one call of [request], with the method POST, for the endpoint of the
    transactions of that budget, whose first attempt is made with the
    marshalled transaction object of the validated request as its body. *)
Theorem CreateTransaction_sends c req req' bodyBytes :
  Validate req = (req', None) →
  TransactionRequest.BudgetID req ≠ "" →
  json_Marshal {[ "transaction" := transaction_object req' ]}
  = inl bodyBytes →
  NewRequest_error "POST"
    (baseURL c +:+ "/budgets/" +:+ TransactionRequest.BudgetID req
       +:+ "/transactions") = None →
  (CreateTransaction c req).1.1.2 = req'
  ∧ (CreateTransaction c req).2
    = (request c "POST"
         ("/budgets/" +:+ TransactionRequest.BudgetID req +:+ "/transactions")
         (Some bodyBytes)).2
  ∧ (∃ r sent,
        EvDo 0 r sent ∈ (CreateTransaction c req).2
        ∧ Request.Body r = Some bodyBytes)
  ∧ ∀ n r sent,
      EvDo n r sent ∈ (CreateTransaction c req).2 →
      Request.Method r = "POST".
Proof.
  intros Hval Hid Hmarshal Hnew.
  pose proof (Validate_BudgetID req req' None Hval) as Hbudget.
  set (endpoint := "/budgets/" +:+ TransactionRequest.BudgetID req
                     +:+ "/transactions") in *.
  assert (Hcall : (CreateTransaction c req).1.1.2 = req'
                  ∧ (CreateTransaction c req).2
                    = (request c "POST" endpoint (Some bodyBytes)).2).
  { unfold CreateTransaction, budget_of. rewrite Hval, Hbudget.
    destruct (String.eqb_spec (TransactionRequest.BudgetID req) "")
      as [Heq|Hne]; [contradiction|].
    rewrite Hmarshal. fold endpoint.
    destruct (request c "POST" endpoint (Some bodyBytes))
      as [[respBody|err] tr].
    - destruct (Unmarshal_TransactionResponse respBody); split; reflexivity.
    - split; reflexivity. }
  destruct Hcall as [Hreq Htr]. rewrite Htr.
  split; [exact Hreq|]. split; [reflexivity|]. split.
  - destruct (loop_makes_attempt json_Unmarshal NewRequest_error c "POST"
                endpoint 0 InitialBackoff None (Some bodyBytes))
      as (r & sent & Hin); [unfold MaxRetries; lia|exact Hnew|].
    exists r, sent. split; [exact Hin|].
    destruct (loop_reader_threaded json_Unmarshal NewRequest_error c "POST"
                endpoint 0 InitialBackoff None (Some bodyBytes) 0 r sent Hin)
      as (_ & Hfirst & _).
    apply Hfirst. reflexivity.
  - intros n r sent Hin.
    exact (proj2 (request_URL c "POST" endpoint (Some bodyBytes) n r sent
                    Hin)).
Qed.

(** X20. [SetDefaultBudgetID] and [GetDefaultBudgetID]: a budget ID that is
    set and not empty is the one returned, with no request; the last ID set
    is the one kept; setting the empty ID forgets the default budget, and
    the next [GetDefaultBudgetID] asks the API for the budgets. *)
Theorem SetDefaultBudgetID_GetDefaultBudgetID c id :
  (id ≠ "" →
   GetDefaultBudgetID (SetDefaultBudgetID c id)
   = (Returns (inl id), SetDefaultBudgetID c id, []))
  ∧ (∀ id', SetDefaultBudgetID (SetDefaultBudgetID c id') id
            = SetDefaultBudgetID c id)
  ∧ (GetDefaultBudgetID (SetDefaultBudgetID c "")).2
    = (request (SetDefaultBudgetID c "") "GET" "/budgets" None).2
  ∧ head (GetDefaultBudgetID (SetDefaultBudgetID c "")).2 = Some (EvLoop 0).
Proof.
  split; [|split; [reflexivity|]].
  - intros Hid. rewrite GetDefaultBudgetID_cases. simpl.
    destruct (String.eqb_spec id "") as [Heq|Hne]; [contradiction|].
    reflexivity.
  - assert (Htr : (GetDefaultBudgetID (SetDefaultBudgetID c "")).2
                  = (request (SetDefaultBudgetID c "") "GET" "/budgets" None).2).
    { rewrite GetDefaultBudgetID_cases. simpl.
      destruct ((GetBudgets (SetDefaultBudgetID c "")).1.1)
        as [[|[budget|] rest]|err]; reflexivity. }
    split; [exact Htr|]. rewrite Htr. apply request_starts.
Qed.

End methods_properties.

(** ** The rate-limit wait and its message *)

Lemma digit_char_digit d :
  0 ≤ d < 10 →
  is_digit (digit_char d) = true ∧ digit_value (digit_char d) = d.
Proof.
  intros Hd.
  assert (Hcases : d = 0 ∨ d = 1 ∨ d = 2 ∨ d = 3 ∨ d = 4 ∨ d = 5 ∨ d = 6
                   ∨ d = 7 ∨ d = 8 ∨ d = 9) by lia.
  repeat (destruct Hcases as [->|Hcases]; [split; reflexivity|]).
  subst d. split; reflexivity.
Qed.

(** The digits [utoa] writes are read back by [digits_value]. *)
Lemma digits_value_utoa fuel :
  ∀ n acc a,
    0 ≤ n < 10 ^ (Z.of_nat fuel + 1) →
    ∃ k, 0 < k
         ∧ digits_value (utoa fuel n acc) a = digits_value acc (a * 10 ^ k + n).
Proof.
  assert (Hone : ∀ n acc a,
             0 ≤ n < 10 →
             digits_value (String (digit_char (n `mod` 10)) acc) a
             = digits_value acc (a * 10 ^ 1 + n)).
  { intros n acc a Hn. cbn [digits_value].
    rewrite Z.mod_small by lia.
    destruct (digit_char_digit n Hn) as [-> ->].
    rewrite Z.pow_1_r. reflexivity. }
  induction fuel as [|fuel IH]; intros n acc a Hn.
  - exists 1. split; [lia|]. apply Hone. simpl in Hn. lia.
  - cbn [utoa]. destruct (Z.ltb_spec n 10) as [Hlt|Hge].
    + exists 1. split; [lia|]. apply Hone. lia.
    + destruct (IH (n / 10) (String (digit_char (n `mod` 10)) acc) a)
        as (k & Hk & Heq).
      { split; [apply Z.div_pos; lia|].
        apply Z.div_lt_upper_bound; [lia|].
        replace (Z.of_nat (S fuel) + 1) with (Z.succ (Z.of_nat fuel + 1))
          in Hn by lia.
        rewrite Z.pow_succ_r in Hn by lia. lia. }
      exists (k + 1). split; [lia|]. rewrite Heq.
      cbn [digits_value].
      assert (Hmod : 0 ≤ n `mod` 10 < 10) by (apply Z.mod_pos_bound; lia).
      destruct (digit_char_digit _ Hmod) as [-> ->].
      f_equal. rewrite Z.pow_add_r, Z.pow_1_r by lia.
      pose proof (Z.div_mod n 10 ltac:(lia)). lia.
Qed.

(** [utoa] writes at least one character, a digit. *)
Lemma utoa_head fuel n acc :
  0 ≤ n →
  ∃ d r, 0 ≤ d < 10 ∧ utoa fuel n acc = String (digit_char d) r.
Proof.
  revert n acc. induction fuel as [|fuel IH]; intros n acc Hn.
  - exists (n `mod` 10), acc. split; [apply Z.mod_pos_bound; lia|reflexivity].
  - cbn [utoa]. destruct (n <? 10).
    + exists (n `mod` 10), acc.
      split; [apply Z.mod_pos_bound; lia|reflexivity].
    + apply IH. apply Z.div_pos; lia.
Qed.

(** The fuel of [itoa] is enough. *)
Lemma itoa_fuel n : 0 ≤ n → n < 10 ^ (Z.of_nat (Z.to_nat (Z.log2 n)) + 1).
Proof.
  intros Hn. rewrite Z2Nat.id by apply Z.log2_nonneg.
  destruct (decide (n = 0)) as [->|Hpos]; [reflexivity|].
  assert (Hlog : n < 2 ^ (Z.log2 n + 1)).
  { replace (Z.log2 n + 1) with (Z.succ (Z.log2 n)) by lia.
    apply Z.log2_spec. lia. }
  assert (Hpow : 2 ^ (Z.log2 n + 1) ≤ 10 ^ (Z.log2 n + 1)).
  { apply Z.pow_le_mono_l. lia. }
  lia.
Qed.

(** [strconv.Atoi] reads back what [%d] writes. *)
Lemma Atoi_utoa n :
  0 ≤ n →
  ∃ d r, 0 ≤ d < 10
         ∧ utoa (Z.to_nat (Z.log2 n)) n "" = String (digit_char d) r
         ∧ digits_value (String (digit_char d) r) 0 = Some n.
Proof.
  intros Hn.
  destruct (utoa_head (Z.to_nat (Z.log2 n)) n "" Hn) as (d & r & Hd & Heq).
  exists d, r. split; [exact Hd|]. split; [exact Heq|].
  rewrite <- Heq.
  destruct (digits_value_utoa (Z.to_nat (Z.log2 n)) n "" 0) as (k & _ & ->).
  - split; [exact Hn|apply itoa_fuel; exact Hn].
  - reflexivity.
Qed.

Lemma Atoi_itoa n : minInt64 ≤ n ≤ maxInt64 → Atoi (itoa n) = Some n.
Proof.
  intros Hrange. unfold itoa.
  destruct (Z.ltb_spec n 0) as [Hneg|Hpos].
  - destruct (Atoi_utoa (- n)) as (d & r & Hd & -> & Hval); [lia|].
    unfold Atoi.
    change ("-" +:+ String (digit_char d) r)
      with (String "-"%char (String (digit_char d) r)).
    cbv iota beta. rewrite Hval.
    replace (- - n) with n by lia.
    destruct (Z.leb_spec minInt64 n); [|lia].
    destruct (Z.leb_spec n maxInt64); [|lia].
    reflexivity.
  - destruct (Atoi_utoa n Hpos) as (d & r & Hd & -> & Hval).
    assert (Hcases : d = 0 ∨ d = 1 ∨ d = 2 ∨ d = 3 ∨ d = 4 ∨ d = 5 ∨ d = 6
                     ∨ d = 7 ∨ d = 8 ∨ d = 9) by lia.
    assert (Hgoal : ∀ c, digit_char d = c →
                         (c =? "-")%char = false → (c =? "+")%char = false →
                         Atoi (String c r) = Some n).
    { intros c Hc Hminus Hplus. rewrite Hc in Hval.
      unfold Atoi.
      destruct c as [[] [] [] [] [] [] [] []]; try discriminate;
        cbv iota beta; rewrite Hval;
        (destruct (Z.leb_spec minInt64 n); [|lia]);
        (destruct (Z.leb_spec n maxInt64); [|lia]); reflexivity. }
    repeat (destruct Hcases as [->|Hcases];
            [apply Hgoal; reflexivity|]).
    subst d. apply Hgoal; reflexivity.
Qed.

(** X18. The wait of a 429 survives the round trip through [Atoi] and
    [%d]: when the header [Retry-After] is the decimal writing of an
    [int], the wait is that number of seconds, and the message of the
    rate-limit error quotes the header as it was sent. *)
Theorem rate_limit_wait_round_trip resp n :
  minInt64 ≤ n ≤ maxInt64 →
  Header_Get (Response.Header resp) "Retry-After" = itoa n →
  retryAfter_of resp = n
  ∧ Message (NewRateLimitError (retryAfter_of resp))
    = "Rate limit exceeded. Retry after "
        +:+ Header_Get (Response.Header resp) "Retry-After" +:+ " seconds"
  ∧ (Response.StatusCode resp = 429 →
     rate_limit_wait resp = [EvSleep (wrap64 (n * Second))]).
Proof.
  intros Hrange Hheader.
  assert (Hwait : retryAfter_of resp = n).
  { unfold retryAfter_of. rewrite Hheader, (Atoi_itoa n Hrange).
    destruct (String.eqb_spec (itoa n) "") as [Hempty|_]; [|reflexivity].
    rewrite Hempty in *. pose proof (Atoi_itoa n Hrange) as Hbad.
    rewrite Hempty in Hbad. discriminate. }
  split; [exact Hwait|]. split.
  - rewrite Hwait, Hheader. reflexivity.
  - intros H429. unfold rate_limit_wait. rewrite H429, Hwait. reflexivity.
Qed.

(** ** The properties at the inputs of the examples *)

(** X1 at a server that always answers 400. *)
Lemma request_result_of_last_attempt_witness :
  accepted "GET" (baseURL (answering bad_request bad_request_envelope)
                    +:+ "/budgets") = None
  ∧ (std_request (answering bad_request bad_request_envelope)
       "GET" "/budgets" None).1
    = inr (EYNAB {| Message := "Bad Request";
                    StatusCode := 400;
                    ErrorID := "e1";
                    Detail := "missing field" |}).
Proof.
  split; [reflexivity|]. unfold std_request.
  destruct (request_result_of_last_attempt json_decode.Unmarshal accepted
              (answering bad_request bad_request_envelope)
              "GET" "/budgets" None eq_refl)
    as (n & req & sent & _ & _ & Hstop & _).
  rewrite Hstop; vm_compute; reflexivity.
Defined.

(** X2 at a method that is not a token. *)
Lemma request_not_created_witness :
  token_methods "GET /" (baseURL always_500 +:+ "/budgets")
  = Some (EText "net/http: invalid method")
  ∧ request json_decode.Unmarshal token_methods always_500 "GET /" "/budgets"
      None
    = (inr (EWrap "failed to create request: "
              (EText "net/http: invalid method")),
       [EvLoop 0]).
Proof.
  split; [reflexivity|].
  apply (request_not_created json_decode.Unmarshal token_methods always_500
           "GET /" "/budgets" None).
  reflexivity.
Defined.

(** X3 at the server that always answers 500. *)
Lemma request_exhausted_has_cause_witness :
  (std_request always_500 "GET" "/budgets" None).1
  ≠ inr (EText "request failed after 3 retries").
Proof.
  unfold std_request.
  apply (request_exhausted_has_cause json_decode.Unmarshal accepted
           always_500 "GET" "/budgets" None).
Defined.

(** X4 at a server that cannot be reached. *)
Lemma request_transport_always_fails_witness :
  attempts (std_request unreachable "GET" "/budgets" None).2 = [0; 1; 2; 3]
  ∧ sleeps (std_request unreachable "GET" "/budgets" None).2
    = [1 * Second; 2 * Second; 4 * Second]
  ∧ (std_request unreachable "GET" "/budgets" None).1
    = inr (EWrap "request failed after 3 retries: "
             (EWrap "request failed: "
                (EText "dial tcp 127.0.0.1:8080: connection refused"))).
Proof.
  unfold std_request.
  destruct (request_transport_always_fails json_decode.Unmarshal accepted
              unreachable "GET" "/budgets" None)
    as (Hatt & Hsleeps & req & sent & err & _ & Ho & Hres).
  - reflexivity.
  - intros n req. eexists. reflexivity.
  - split; [exact Hatt|]. split; [exact Hsleeps|].
    injection Ho as <-. exact Hres.
Defined.

(** X5 at the retry of [TestClient_RetryOnServerError]. *)
Lemma request_same_request_line_witness :
  EvDo 1 (get_budgets error_500_once) ""
    ∈ (std_request error_500_once "GET" "/budgets" None).2
  ∧ Request.Method (get_budgets error_500_once) = "GET"
  ∧ Header_Get (Request.Header (get_budgets error_500_once)) "Authorization"
    = "Bearer test-token"
  ∧ Request.Header (get_budgets error_500_once) !! "Accept" = None.
Proof.
  assert (Hin : EvDo 1 (get_budgets error_500_once) ""
                  ∈ (std_request error_500_once "GET" "/budgets" None).2)
    by attempt_at 4%nat.
  split; [exact Hin|]. unfold std_request in Hin.
  destruct (request_same_request_line json_decode.Unmarshal accepted
              error_500_once "GET" "/budgets" None 1
              (get_budgets error_500_once) "" Hin)
    as (Hmethod & Hauth & _ & _ & Hother).
  split; [exact Hmethod|]. split; [exact Hauth|].
  apply Hother; discriminate.
Defined.

(** X6 at the server that always answers 500. *)
Lemma request_sleep_bound_witness :
  slept (std_request always_500 "GET" "/budgets" None).2 ≤ 7 * Second.
Proof.
  unfold std_request.
  apply (request_sleep_bound json_decode.Unmarshal accepted always_500
           "GET" "/budgets" None).
  intros n req resp respBody Ho. injection Ho as <- _. discriminate.
Defined.

(** X7 at the server that always answers 500. *)
Lemma request_error_kind_witness :
  (std_request always_500 "GET" "/budgets" None).1
  = inr (EWrap "request failed after 3 retries: "
           (EYNAB {| Message := "Internal Server Error";
                     StatusCode := 500;
                     ErrorID := "500";
                     Detail := "Server error" |}))
  ∧ api_IsServerError
      (EWrap "request failed after 3 retries: "
         (EYNAB {| Message := "Internal Server Error";
                   StatusCode := 500;
                   ErrorID := "500";
                   Detail := "Server error" |})) = true.
Proof.
  assert (Hres : (std_request always_500 "GET" "/budgets" None).1
                 = inr (EWrap "request failed after 3 retries: "
                          (EYNAB {| Message := "Internal Server Error";
                                    StatusCode := 500;
                                    ErrorID := "500";
                                    Detail := "Server error" |})))
    by (vm_compute; reflexivity).
  split; [exact Hres|]. unfold std_request in Hres.
  assert (Hdo : ∀ n req e,
             outcome (httpClient always_500 n req) = DoFailed e →
             errors_As e = None)
    by (intros n req e Ho; discriminate Ho).
  assert (Hread : ∀ n req resp e,
             outcome (httpClient always_500 n req) = ReadFailed resp e →
             errors_As e = None)
    by (intros n req resp e Ho; discriminate Ho).
  destruct (request_error_kind json_decode.Unmarshal accepted always_500
              "GET" "/budgets" None eq_refl Hdo Hread _ Hres)
    as (n & req & sent & _ & _ & Hkind).
  destruct Hkind as (_ & _ & _ & _ & _ & _ & Hserver). exact Hserver.
Defined.

(** X8 at the error of a 503. *)
Lemma error_kinds_exclusive_witness :
  IsRetryable (NewServerError 503) = true
  ∧ IsAuthError (NewServerError 503) = false
  ∧ IsNotFoundError (NewServerError 503) = false
  ∧ IsBadRequestError (NewServerError 503) = false.
Proof.
  split; [reflexivity|].
  destruct (error_kinds_exclusive (NewServerError 503)) as (_ & Hretry & _).
  apply Hretry. reflexivity.
Defined.

(** X9 with no token at all, and with the token of the environment. *)
Lemma NewClient_token_witness :
  NewClient (λ _, "") (httpClient always_500) ""
  = inr (EText "YNAB_ACCESS_TOKEN is required")
  ∧ NewClient env_token (httpClient always_500) "" = inl env_client
  ∧ EvDo 0 (get_budgets env_client) ""
      ∈ (std_request env_client "GET" "/budgets" None).2
  ∧ Header_Get (Request.Header (get_budgets env_client)) "Authorization"
    = "Bearer env-token".
Proof.
  split.
  { destruct (NewClient_token json_decode.Unmarshal accepted (λ _, "")
                (httpClient always_500) "") as [Hfails _].
    apply Hfails. split; reflexivity. }
  split; [reflexivity|].
  assert (Hin : EvDo 0 (get_budgets env_client) ""
                  ∈ (std_request env_client "GET" "/budgets" None).2)
    by attempt_at 1%nat.
  split; [exact Hin|]. unfold std_request in Hin.
  destruct (NewClient_token json_decode.Unmarshal accepted env_token
              (httpClient always_500) "") as (_ & _ & Hclient).
  destruct (Hclient env_client eq_refl) as (_ & _ & _ & _ & Hsent).
  destruct (Hsent "GET" "/budgets" None 0 (get_budgets env_client) "" Hin)
    as (Hauth & _).
  exact Hauth.
Defined.

(** X10 at a server with one budget: the second call makes no request. *)
Lemma GetDefaultBudgetID_loaded_once_witness :
  GetDefaultBudgetID_at one_budget (test_client (λ _, ok_budgets))
  = (Returns (inl "budget-1"),
     SetDefaultBudgetID (later 1 (test_client (λ _, ok_budgets))) "budget-1",
     [EvLoop 0; EvDo 0 (get_budgets (test_client (λ _, ok_budgets))) ""])
  ∧ GetDefaultBudgetID_at one_budget
      (SetDefaultBudgetID (later 1 (test_client (λ _, ok_budgets))) "budget-1")
    = (Returns (inl "budget-1"),
       SetDefaultBudgetID (later 1 (test_client (λ _, ok_budgets))) "budget-1",
       []).
Proof.
  assert (Hfirst :
            GetDefaultBudgetID_at one_budget (test_client (λ _, ok_budgets))
            = (Returns (inl "budget-1"),
               SetDefaultBudgetID (later 1 (test_client (λ _, ok_budgets)))
                 "budget-1",
               [EvLoop 0;
                EvDo 0 (get_budgets (test_client (λ _, ok_budgets))) ""]))
    by (vm_compute; reflexivity).
  split; [exact Hfirst|].
  destruct (GetDefaultBudgetID_loaded_once json_decode.Unmarshal accepted
              string id one_budget _ _ _ _ Hfirst)
    as (_ & _ & _ & Hagain & _).
  apply Hagain. discriminate.
Defined.

(** X11 at a server with no budget: nothing is kept. *)
Lemma GetDefaultBudgetID_failure_witness :
  (GetDefaultBudgetID_at no_budget (test_client (λ _, ok_budgets))).1.1
  = Returns (inr (EText "no budgets found for this account"))
  ∧ defaultBudgetID
      (GetDefaultBudgetID_at no_budget (test_client (λ _, ok_budgets))).1.2
    = "".
Proof.
  split; [vm_compute; reflexivity|].
  destruct (GetDefaultBudgetID_failure json_decode.Unmarshal accepted
              string id no_budget (test_client (λ _, ok_budgets))
              (EText "no budgets found for this account")
              (GetDefaultBudgetID_at no_budget
                 (test_client (λ _, ok_budgets))).1.2
              (GetDefaultBudgetID_at no_budget
                 (test_client (λ _, ok_budgets))).2)
    as (_ & Hkept & _).
  - vm_compute. reflexivity.
  - exact Hkept.
Defined.

(** X12 at a client whose default budget is [b1]: asked for the budget
    [b2], and asked for no budget. *)
Lemma GetAccounts_budget_witness :
  defaultBudgetID
    (GetAccounts_at one_budget
       (SetDefaultBudgetID (test_client (λ _, ok_budgets)) "b1") "b2").1.2
  = "b1"
  ∧ (GetAccounts_at one_budget
       (SetDefaultBudgetID (test_client (λ _, ok_budgets)) "b1") "b2").2
    = (std_request (SetDefaultBudgetID (test_client (λ _, ok_budgets)) "b1")
         "GET" "/budgets/b2/accounts" None).2
  ∧ GetAccounts_at one_budget
      (SetDefaultBudgetID (test_client (λ _, ok_budgets)) "b1") ""
    = GetAccounts_at one_budget
        (SetDefaultBudgetID (test_client (λ _, ok_budgets)) "b1") "b1".
Proof.
  destruct (GetAccounts_budget json_decode.Unmarshal accepted string string
              id one_budget no_account
              (SetDefaultBudgetID (test_client (λ _, ok_budgets)) "b1") "b2")
    as [Hexplicit _].
  destruct Hexplicit as (Hkept & Htrace & _); [discriminate|].
  split; [exact Hkept|]. split; [exact Htrace|].
  destruct (GetAccounts_budget json_decode.Unmarshal accepted string string
              id one_budget no_account
              (SetDefaultBudgetID (test_client (λ _, ok_budgets)) "b1") "")
    as [_ Hdefault].
  apply Hdefault. discriminate.
Defined.

(** X13 at the server that always answers 500: the accounts are not asked
    for. *)
Lemma GetAccounts_lazy_budget_witness :
  (GetDefaultBudgetID_at one_budget always_500).1.1
  = Returns
      (inr (EWrap "failed to get budgets: "
              (EWrap "request failed after 3 retries: "
                 (EYNAB {| Message := "Internal Server Error";
                           StatusCode := 500;
                           ErrorID := "500";
                           Detail := "Server error" |}))))
  ∧ (GetAccounts_at one_budget always_500 "").1.1
    = Returns
        (inr (EWrap "failed to get budgets: "
                (EWrap "request failed after 3 retries: "
                   (EYNAB {| Message := "Internal Server Error";
                             StatusCode := 500;
                             ErrorID := "500";
                             Detail := "Server error" |})))).
Proof.
  split; [vm_compute; reflexivity|].
  destruct (GetAccounts_lazy_budget json_decode.Unmarshal accepted string
              string id one_budget no_account always_500) as [Hfails _].
  destruct (Hfails
              (EWrap "failed to get budgets: "
                 (EWrap "request failed after 3 retries: "
                    (EYNAB {| Message := "Internal Server Error";
                              StatusCode := 500;
                              ErrorID := "500";
                              Detail := "Server error" |})))
              (GetDefaultBudgetID_at one_budget always_500).1.2
              (GetDefaultBudgetID_at one_budget always_500).2)
    as [Hacc _].
  - vm_compute. reflexivity.
  - rewrite Hacc. reflexivity.
Defined.

(** X14 at a request with no status. *)
Lemma Validate_request_witness :
  (Validate groceries).2 = None
  ∧ TransactionRequest.Cleared (Validate groceries).1 = "uncleared"
  ∧ TransactionRequest.Approved (Validate groceries).1 = false.
Proof.
  split; [reflexivity|].
  destruct (Validate_request groceries) as (_ & _ & _ & Hvalid).
  destruct (Hvalid eq_refl) as (Hcleared & _ & Happroved & _).
  split; [exact Hcleared|exact Happroved].
Defined.

(** X15 at a request with no account. *)
Lemma CreateTransaction_invalid_witness :
  (Validate (TransactionRequest.mk "" "" "2024-01-15" (-50000) "" "" "" ""
               false)).2
  = Some (EText "account_id is required")
  ∧ CreateTransaction_at always_500
      (TransactionRequest.mk "" "" "2024-01-15" (-50000) "" "" "" "" false)
    = (Returns (inr (EText "account_id is required")),
       TransactionRequest.mk "" "" "2024-01-15" (-50000) "" "" "" "" false,
       always_500, []).
Proof.
  split; [reflexivity|].
  apply (CreateTransaction_invalid json_decode.Unmarshal accepted string
           string id one_budget no_transaction marshalled always_500
           (TransactionRequest.mk "" "" "2024-01-15" (-50000) "" "" "" ""
              false)
           (EText "account_id is required")).
  reflexivity.
Defined.

(** X16 at a request with no payee and no status. *)
Lemma transaction_object_fields_witness :
  Validate groceries = ((Validate groceries).1, None)
  ∧ transaction_object (Validate groceries).1 !! "cleared"
    = Some (AString "uncleared")
  ∧ transaction_object (Validate groceries).1 !! "payee_name" = None
  ∧ transaction_object (Validate groceries).1 !! "memo"
    = Some (AString "Groceries").
Proof.
  split; [reflexivity|].
  destruct (transaction_object_fields groceries (Validate groceries).1
              eq_refl)
    as (_ & _ & _ & _ & Hcleared & _ & Hpayee & _ & Hmemo & _).
  split; [exact Hcleared|]. split; [exact Hpayee|exact Hmemo].
Defined.

(** X17 at a request for the budget [b1]. *)
Lemma CreateTransaction_sends_witness :
  (CreateTransaction_at (test_client (λ _, ok_budgets)) groceries).1.1.2
  = (Validate groceries).1
  ∧ (CreateTransaction_at (test_client (λ _, ok_budgets)) groceries).2
    = (std_request (test_client (λ _, ok_budgets)) "POST"
         "/budgets/b1/transactions"
         (Some (json_text "{'transaction':{}}"))).2
  ∧ ∃ r sent,
      EvDo 0 r sent
        ∈ (CreateTransaction_at (test_client (λ _, ok_budgets)) groceries).2
      ∧ Request.Body r = Some (json_text "{'transaction':{}}").
Proof.
  destruct (CreateTransaction_sends json_decode.Unmarshal accepted string
              string id one_budget no_transaction marshalled
              (test_client (λ _, ok_budgets)) groceries
              (Validate groceries).1 (json_text "{'transaction':{}}"))
    as (Hreq & Htrace & Hfirst & _).
  - reflexivity.
  - discriminate.
  - reflexivity.
  - reflexivity.
  - split; [exact Hreq|]. split; [exact Htrace|exact Hfirst].
Defined.

(** X18 at the header of [TestClient_RetryAfterHeaderParsing]. *)
Lemma rate_limit_wait_round_trip_witness :
  Header_Get (Response.Header (throttled "5")) "Retry-After" = itoa 5
  ∧ retryAfter_of (throttled "5") = 5
  ∧ Message (NewRateLimitError (retryAfter_of (throttled "5")))
    = "Rate limit exceeded. Retry after 5 seconds".
Proof.
  split; [reflexivity|].
  destruct (rate_limit_wait_round_trip (throttled "5") 5) as (Hwait & Hmsg & _).
  - unfold minInt64, maxInt64. lia.
  - reflexivity.
  - split; [exact Hwait|exact Hmsg].
Defined.

(** X19 at a server that always answers 429 with [Retry-After: 5]. *)
Lemma request_always_rate_limited_witness :
  sleeps (std_request (always_429 "5") "GET" "/budgets" None).2
  = [5 * Second; 1 * Second; 5 * Second; 2 * Second; 5 * Second; 4 * Second;
     5 * Second]
  ∧ last (std_request (always_429 "5") "GET" "/budgets" None).2
    = Some (EvSleep (5 * Second)).
Proof.
  unfold std_request.
  destruct (request_always_rate_limited json_decode.Unmarshal accepted
              (always_429 "5") "GET" "/budgets" None (throttled "5"))
    as (_ & Hsleeps & Hlast & _).
  - reflexivity.
  - reflexivity.
  - intros n req. eexists. reflexivity.
  - split; [exact Hsleeps|exact Hlast].
Defined.

(** X20 at the client of the tests. *)
Lemma SetDefaultBudgetID_GetDefaultBudgetID_witness :
  GetDefaultBudgetID_at one_budget
    (SetDefaultBudgetID (test_client (λ _, ok_budgets)) "b1")
  = (Returns (inl "b1"),
     SetDefaultBudgetID (test_client (λ _, ok_budgets)) "b1", []).
Proof.
  destruct (SetDefaultBudgetID_GetDefaultBudgetID json_decode.Unmarshal
              accepted string id one_budget (test_client (λ _, ok_budgets))
              "b1") as [Hset _].
  apply Hset. discriminate.
Defined.
